(** * Dashboard persistence and alert evaluators

    A shallow embedding of two pieces of the service:
    - [pkg/services/alerting/conditions/evaluator.go]: construction of a
      threshold evaluator from its JSON model;
    - the [sqlstore] dashboard handlers: [SaveDashboard], [setHasAcl] and
      [DeleteDashboard], run against a relational store made of tables
      (lists of rows) inside a transaction.

    Go's [int] and [int64] are modelled as [Z], with the 64-bit wrap-around
    of [dash.Version++] written out.  A function that may fail returns a
    sum; a function that may panic has a third outcome. *)

From Stdlib Require Import ZArith Lia.
From stdpp Require Import base decidable option list strings gmap fin_maps pretty.

Local Open Scope string_scope.
Local Open Scope list_scope.
Local Open Scope Z_scope.
Local Set Warnings "-register-all".

(** ** JSON documents ([simplejson.Json]) *)

Module Simplejson.

(** Modelled from the spec: the [simplejson] package is not part of the
    excerpt.  A document wraps a decoded JSON value; numbers decoded from
    text are [json.Number] literals ([JNumber]), while a Go [int] stored by
    [Set] stays a Go integer ([JInt]). *)
Inductive Json : Type :=
| JNil
| JBool (b : bool)
| JNumber (lit : string)
| JInt (n : Z)
| JString (s : string)
| JArray (elems : list Json)
| JObject (fields : gmap string Json).

(** Modelled from the spec: [j.Get(key)] is the member [key] of an object,
    and the nil document for anything else. *)
Definition Get (key : string) (j : Json) : Json :=
  match j with
  | JObject fields => default JNil (fields !! key)
  | _ => JNil
  end.

(** Modelled from the spec: [MustString()] is the string held by the
    document, and the empty string when it holds no string. *)
Definition MustString (j : Json) : string :=
  match j with
  | JString s => s
  | _ => ""
  end.

(** Modelled from the spec: [MustArray()] is the array held by the
    document, and the empty slice when it holds no array. *)
Definition MustArray (j : Json) : list Json :=
  match j with
  | JArray elems => elems
  | _ => []
  end.

(** The type assertion [v.(json.Number)]. *)
Definition asNumber (j : Json) : option string :=
  match j with
  | JNumber lit => Some lit
  | _ => None
  end.

End Simplejson.

Import Simplejson.

(** ** Alert evaluators ([conditions/evaluator.go]) *)

Module Conditions.

Definition defaultTypes : list string := ["gt"; "lt"].
Definition rangedTypes : list string := ["within_range"; "outside_range"].

Fixpoint inSlice (a : string) (list : list string) : bool :=
  match list with
  | [] => false
  | b :: rest => if String.eqb b a then true else inSlice a rest
  end.

(** [alerting.ValidationError{Reason: ...}] *)
Record ValidationError := { Reason : string }.

(** What a call of a Go function that returns [(T, error)] can do. *)
Inductive outcome (T : Type) : Type :=
| Returns (v : T)
| Fails (err : ValidationError)
| Panics (msg : string).
Arguments Returns {T} v.
Arguments Fails {T} err.
Arguments Panics {T} msg.

Section Evaluator.

(** [float64] and [json.Number.Float64] stay abstract: only the shape of
    the result matters here.  The error of [Float64()] is dropped by the
    source ([x, _ = p.Float64()]). *)
Variable float64 : Type.
Variable Float64 : string -> float64.

Inductive AlertEvaluator : Type :=
| DefaultAlertEvaluator (Type_ : string) (Threshold : float64)
| RangedAlertEvaluator (Type_ : string) (Lower Upper : float64).

(** [params[i]] on a Go slice: a run-time panic out of range. *)
Definition index (params : list Json) (i : nat)
    (k : Json -> outcome AlertEvaluator) : outcome AlertEvaluator :=
  match params !! i with
  | Some p => k p
  | None => Panics "runtime error: index out of range"
  end.

Definition NewAlertEvaluator (model : Json) : outcome AlertEvaluator :=
  let typ := MustString (Get "type" model) in
  if String.eqb typ "" then
    Fails {| Reason := "Evaluator missing type property" |}
  else
    let params := MustArray (Get "params" model) in
    if (length params =? 0)%nat then
      Fails {| Reason := "Evaluator missing threshold parameter" |}
    else
      index params 0 (fun p0 =>
        match asNumber p0 with
        | None => Fails {| Reason := "Evaluator has invalid parameter" |}
        | Some firstParam =>
          if inSlice typ defaultTypes then
            Returns (DefaultAlertEvaluator typ (Float64 firstParam))
          else if inSlice typ rangedTypes then
            index params 1 (fun p1 =>
              match asNumber p1 with
              | None =>
                Fails {| Reason := "Evaluator has invalid second parameter" |}
              | Some secondParam =>
                Returns (RangedAlertEvaluator typ (Float64 firstParam)
                                              (Float64 secondParam))
              end)
          else
            Fails {| Reason := "Evaludator invalid evaluator type" |}
        end).

Definition panics (o : outcome AlertEvaluator) : bool :=
  match o with
  | Panics _ => true
  | _ => false
  end.

End Evaluator.

Arguments DefaultAlertEvaluator {float64} Type_ Threshold.
Arguments RangedAlertEvaluator {float64} Type_ Lower Upper.
Arguments NewAlertEvaluator {float64} Float64 model.
Arguments panics {float64} o.

(** The model [{"type": typ, "params": params}]. *)
Definition evaluatorModel (typ : string) (params : list Json) : Json :=
  JObject (<["type" := JString typ]> (<["params" := JArray params]> ∅)).

End Conditions.

(** ** The models ([pkg/models]) *)

Module Dashboard.
(** Modelled from the spec: the struct [m.Dashboard] is declared outside
    the excerpt.  The fields are those the handlers read or write and
    those of the spec's data model; [Data] is the body, a JSON object. *)
Record t := mk {
  Id : Z;
  Slug : string;
  OrgId : Z;
  Version : Z;
  PluginId : string;
  FolderId : Z;
  IsFolder : bool;
  HasAcl : bool;
  Title : string;
  UpdatedBy : Z;
  Data : gmap string Json
}.

Definition withId (v : Z) (d : t) : t :=
  mk v (Slug d) (OrgId d) (Version d) (PluginId d) (FolderId d)
     (IsFolder d) (HasAcl d) (Title d) (UpdatedBy d) (Data d).
Definition withVersion (v : Z) (d : t) : t :=
  mk (Id d) (Slug d) (OrgId d) v (PluginId d) (FolderId d)
     (IsFolder d) (HasAcl d) (Title d) (UpdatedBy d) (Data d).
Definition withHasAcl (v : bool) (d : t) : t :=
  mk (Id d) (Slug d) (OrgId d) (Version d) (PluginId d) (FolderId d)
     (IsFolder d) v (Title d) (UpdatedBy d) (Data d).
Definition withData (v : gmap string Json) (d : t) : t :=
  mk (Id d) (Slug d) (OrgId d) (Version d) (PluginId d) (FolderId d)
     (IsFolder d) (HasAcl d) (Title d) (UpdatedBy d) v.

(** Modelled from the spec: [dash.Data.Set(key, val)] on a body that is an
    object stores the member. *)
Definition DataSet (key : string) (val : Json) (d : t) : t :=
  withData (<[key := val]> (Data d)) d.

(** Modelled from the spec: [dash.GetTags()] lists the tag terms present in
    the body (member ["tags"], an array of strings; no tags otherwise). *)
Definition GetTags (d : t) : list string :=
  match Data d !! "tags" with
  | Some (JArray elems) =>
    default [] (mapM (fun e => match e with
                               | JString s => Some s
                               | JNil => Some ""
                               | _ => None
                               end) elems)
  | _ => []
  end.

(** The [version] member embedded in the body. *)
Definition bodyVersion (d : t) : option Json := Data d !! "version".
End Dashboard.

Module DashboardVersion.
Record t := mk {
  DashboardId : Z;
  ParentVersion : Z;
  RestoredFrom : Z;
  Version : Z;
  Created : Z;
  CreatedBy : Z;
  Message : string;
  Data : gmap string Json
}.
End DashboardVersion.

Module DashboardTag.
Record t := mk { DashboardId : Z; Term : string }.
End DashboardTag.

Module DashboardAcl.
Record t := mk { DashboardId : Z; UserId : Z }.
End DashboardAcl.

Module Star.
Record t := mk { UserId : Z; DashboardId : Z }.
End Star.

Module PlaylistItem.
Record t := mk { Type_ : string; Value : string }.
End PlaylistItem.

Module SaveDashboardCommand.
(** Modelled from the spec: [SaveDashboardCommand{dashboardModel,
    overwrite, restoredFrom, message}].  [Model] is the candidate that
    [cmd.GetDashboardModel()] builds. *)
Record t := mk {
  Model : Dashboard.t;
  Overwrite : bool;
  RestoredFrom : Z;
  Message : string
}.
Definition GetDashboardModel (cmd : t) : Dashboard.t := Model cmd.
End SaveDashboardCommand.

Module DeleteDashboardCommand.
Record t := mk { Id : Z; OrgId : Z }.
End DeleteDashboardCommand.

(** The errors the handlers return. *)
Inductive Error : Type :=
| ErrDashboardNotFound
| ErrDashboardVersionMismatch
| ErrDashboardWithSameNameExists
| UpdatePluginDashboardError (PluginId : string)
| ErrDatabase (msg : string).

(** ** The relational store and the session ([xorm], [inTransaction]) *)

(** Largest value of Go's [int] and [int64] (64-bit platforms). *)
Definition MaxInt64 : Z := 9223372036854775807.

(** Two's-complement wrap-around of 64-bit signed arithmetic. *)
Definition wrap64 (z : Z) : Z := (z + 2 ^ 63) mod 2 ^ 64 - 2 ^ 63.

(** The tables the handlers touch.  A table is the list of its rows in
    insertion order; [dashboard_seq] is the last id the auto-increment
    primary key of [dashboard] has handed out. *)
Record DB := mkDB {
  dashboard : list Dashboard.t;
  dashboard_seq : Z;
  dashboard_version : list DashboardVersion.t;
  dashboard_tag : list DashboardTag.t;
  dashboard_acl : list DashboardAcl.t;
  star : list Star.t;
  playlist_item : list PlaylistItem.t
}.

(** A session: the store it works on, the statements that are going to
    fail ([faults]: the n-th statement executed fails with [ErrDatabase msg]
    when the n-th entry is [Some msg]; past the end nothing fails), the
    clock read by [time.Now()], and the insert counter of [metrics]. *)
Record Session := mkSession {
  db : DB;
  faults : list (option string);
  now : Z;
  M_Models_Dashboard_Insert : Z
}.

Inductive result (A : Type) : Type :=
| Ok (a : A)
| Err (e : Error).
Arguments Ok {A} a.
Arguments Err {A} e.

(** Code running on a session: state passing with an early [return err]. *)
Definition Tx (A : Type) : Type := Session -> result A * Session.

Definition ret {A} (a : A) : Tx A := fun s => (Ok a, s).
Definition throw {A} (e : Error) : Tx A := fun s => (Err e, s).
Definition bind {A B} (m : Tx A) (k : A -> Tx B) : Tx B :=
  fun s => match m s with
           | (Ok a, s1) => k a s1
           | (Err e, s1) => (Err e, s1)
           end.

Declare Scope tx_scope.
Delimit Scope tx_scope with tx.
Notation "x <- m ;; k" := (bind m (fun x => k))
  (at level 100, m at next level, right associativity) : tx_scope.
Notation "m ;;; k" := (bind m (fun _ => k))
  (at level 100, right associativity) : tx_scope.
Local Open Scope tx_scope.

(** One statement sent to the database: it fails if the fault plan says so,
    and otherwise runs [f] on the store. *)
Definition stmt {A} (f : DB -> result A * DB) : Tx A :=
  fun s =>
    match hd None (faults s) with
    | Some msg =>
      (Err (ErrDatabase msg),
       mkSession (db s) (tl (faults s)) (now s) (M_Models_Dashboard_Insert s))
    | None =>
      (fst (f (db s)),
       mkSession (snd (f (db s))) (tl (faults s)) (now s)
                 (M_Models_Dashboard_Insert s))
    end.

(** [metrics.M_Models_Dashboard_Insert.Inc(1)] *)
Definition metricsInc : Tx unit :=
  fun s => (Ok tt, mkSession (db s) (faults s) (now s)
                             (M_Models_Dashboard_Insert s + 1)).

(** [time.Now()] *)
Definition timeNow : Tx Z := fun s => (Ok (now s), s).

Module Xorm.

(** [sess.Where(cond).Get(&row)] on [dashboard]: the first row that
    satisfies the condition, if any. *)
Definition Get (cond : Dashboard.t -> bool) : Tx (option Dashboard.t) :=
  stmt (fun d => (Ok (find cond (dashboard d)), d)).

(** [sess.Get(&bean)] with a partly filled bean: the non-zero fields [Id]
    and [OrgId] of the bean are the condition. *)
Definition beanCond (id orgId : Z) (r : Dashboard.t) : bool :=
  ((id =? 0) || (Dashboard.Id r =? id)) &&
  ((orgId =? 0) || (Dashboard.OrgId r =? orgId)).

(** [sess.Insert(dash)]: the row is appended; a zero [Id] is replaced by
    the next value of the sequence, which is written back to the bean.
    The sequence is exhausted at [MaxInt64].  Returns the affected rows
    and the bean. *)
Definition Insert (dash : Dashboard.t) : Tx (Z * Dashboard.t) :=
  stmt (fun d =>
    let id := if Dashboard.Id dash =? 0 then dashboard_seq d + 1
              else Dashboard.Id dash in
    if MaxInt64 <? id then (Err (ErrDatabase "sequence exhausted"), d)
    else
      let row := Dashboard.withId id dash in
      (Ok (1, row),
       mkDB (dashboard d ++ [row]) (Z.max (dashboard_seq d) id)
            (dashboard_version d) (dashboard_tag d) (dashboard_acl d)
            (star d) (playlist_item d))).

(** The columns [Update(dash)] writes into a stored row: the non-zero
    fields of the bean, and the columns named by [MustCols] even when
    zero.  The auto-increment key is never written, and a [bool] field
    that [MustCols] does not name is skipped ([IsFolder]). *)
Definition updateCols (dash stored : Dashboard.t) : Dashboard.t :=
  Dashboard.mk
    (Dashboard.Id stored)
    (if String.eqb (Dashboard.Slug dash) "" then Dashboard.Slug stored
     else Dashboard.Slug dash)
    (if Dashboard.OrgId dash =? 0 then Dashboard.OrgId stored
     else Dashboard.OrgId dash)
    (if Dashboard.Version dash =? 0 then Dashboard.Version stored
     else Dashboard.Version dash)
    (if String.eqb (Dashboard.PluginId dash) "" then Dashboard.PluginId stored
     else Dashboard.PluginId dash)
    (Dashboard.FolderId dash)
    (Dashboard.IsFolder stored)
    (Dashboard.HasAcl dash)
    (if String.eqb (Dashboard.Title dash) "" then Dashboard.Title stored
     else Dashboard.Title dash)
    (if Dashboard.UpdatedBy dash =? 0 then Dashboard.UpdatedBy stored
     else Dashboard.UpdatedBy dash)
    (Dashboard.Data dash).

Definition updateRow (id : Z) (dash r : Dashboard.t) : Dashboard.t :=
  if Dashboard.Id r =? id then updateCols dash r else r.

(** [sess.MustCols("folder_id", "has_acl").Id(id).Update(dash)]: every row
    whose key is [id] is rewritten; returns the affected rows. *)
Definition Update (id : Z) (dash : Dashboard.t) : Tx Z :=
  stmt (fun d =>
    (Ok (Z.of_nat (length (filter (fun r => Dashboard.Id r = id) (dashboard d)))),
     mkDB (updateRow id dash <$> dashboard d) (dashboard_seq d)
          (dashboard_version d) (dashboard_tag d) (dashboard_acl d)
          (star d) (playlist_item d))).

(** [sess.Insert(dashVersion)] *)
Definition InsertVersion (v : DashboardVersion.t) : Tx Z :=
  stmt (fun d =>
    (Ok 1,
     mkDB (dashboard d) (dashboard_seq d) (dashboard_version d ++ [v])
          (dashboard_tag d) (dashboard_acl d) (star d) (playlist_item d))).

(** [sess.Insert(&DashboardTag{...})] *)
Definition InsertTag (t : DashboardTag.t) : Tx Z :=
  stmt (fun d =>
    (Ok 1,
     mkDB (dashboard d) (dashboard_seq d) (dashboard_version d)
          (dashboard_tag d ++ [t]) (dashboard_acl d) (star d)
          (playlist_item d))).

(** [sess.Query("SELECT 1 from dashboard_acl WHERE dashboard_id =?", id)] *)
Definition QueryAcl (id : Z) : Tx (list DashboardAcl.t) :=
  stmt (fun d =>
    (Ok (filter (fun a => DashboardAcl.DashboardId a = id) (dashboard_acl d)), d)).

(** The [DELETE] statements, by the text of the statement. *)
Inductive Delete : Type :=
| DeleteTags          (* DELETE FROM dashboard_tag WHERE dashboard_id = ? *)
| DeleteStars         (* DELETE FROM star WHERE dashboard_id = ? *)
| DeleteDashboardById (* DELETE FROM dashboard WHERE id = ? *)
| DeletePlaylistItems (* DELETE FROM playlist_item WHERE type = 'dashboard_by_id' AND value = ? *)
| DeleteVersions      (* DELETE FROM dashboard_version WHERE dashboard_id = ? *)
| DeleteByFolder.     (* DELETE FROM dashboard WHERE folder_id = ? *)

Definition runDelete (sql : Delete) (id : Z) (d : DB) : DB :=
  match sql with
  | DeleteTags =>
    mkDB (dashboard d) (dashboard_seq d) (dashboard_version d)
         (filter (fun t => DashboardTag.DashboardId t ≠ id) (dashboard_tag d))
         (dashboard_acl d) (star d) (playlist_item d)
  | DeleteStars =>
    mkDB (dashboard d) (dashboard_seq d) (dashboard_version d)
         (dashboard_tag d) (dashboard_acl d)
         (filter (fun x => Star.DashboardId x ≠ id) (star d))
         (playlist_item d)
  | DeleteDashboardById =>
    mkDB (filter (fun r => Dashboard.Id r ≠ id) (dashboard d))
         (dashboard_seq d) (dashboard_version d) (dashboard_tag d)
         (dashboard_acl d) (star d) (playlist_item d)
  | DeletePlaylistItems =>
    mkDB (dashboard d) (dashboard_seq d) (dashboard_version d)
         (dashboard_tag d) (dashboard_acl d) (star d)
         (filter (fun p => ¬ (PlaylistItem.Type_ p = "dashboard_by_id"
                              ∧ PlaylistItem.Value p = pretty id))
                 (playlist_item d))
  | DeleteVersions =>
    mkDB (dashboard d) (dashboard_seq d)
         (filter (fun v => DashboardVersion.DashboardId v ≠ id)
                 (dashboard_version d))
         (dashboard_tag d) (dashboard_acl d) (star d) (playlist_item d)
  | DeleteByFolder =>
    mkDB (filter (fun r => Dashboard.FolderId r ≠ id) (dashboard d))
         (dashboard_seq d) (dashboard_version d) (dashboard_tag d)
         (dashboard_acl d) (star d) (playlist_item d)
  end.

(** [sess.Exec(sql, id)] *)
Definition Exec (sql : Delete) (id : Z) : Tx unit :=
  stmt (fun d => (Ok tt, runDelete sql id d)).

End Xorm.

(** Modelled from the spec: [inTransaction] is defined outside the excerpt.
    "All steps execute inside one transaction; any failure at any step rolls
    back every prior write in the same call": on an error the store is the
    one the call started from, otherwise the writes are committed. *)
Definition inTransaction {A} (callback : Tx A) : Tx A :=
  fun s =>
    match callback s with
    | (Ok a, s1) => (Ok a, s1)
    | (Err e, s1) =>
      (Err e, mkSession (db s) (faults s1) (now s1) (M_Models_Dashboard_Insert s1))
    end.

(** ** The handlers ([sqlstore], dashboards) *)

Module Sqlstore.

Import SaveDashboardCommand.

(** [setHasAcl]: the flag is raised, never lowered. *)
Definition setHasAcl (dash : Dashboard.t) : Tx Dashboard.t :=
  (* check if parent has acl *)
  dash <- (if 0 <? Dashboard.FolderId dash then
             hasParent <- Xorm.Get (fun r =>
                            Dashboard.FolderId r =? Dashboard.FolderId dash) ;;
             match hasParent with
             | Some parent =>
               if Dashboard.HasAcl parent
               then ret (Dashboard.withHasAcl true dash)
               else ret dash
             | None => ret dash
             end
           else ret dash) ;;
  (* check if dash has its own acl *)
  if 0 <? Dashboard.Id dash then
    res <- Xorm.QueryAcl (Dashboard.Id dash) ;;
    if (0 <? length res)%nat
    then ret (Dashboard.withHasAcl true dash)
    else ret dash
  else ret dash.

(** The loop that inserts the new tags. *)
Fixpoint insertTags (id : Z) (tags : list string) : Tx unit :=
  match tags with
  | [] => ret tt
  | tag :: rest =>
    Xorm.InsertTag (DashboardTag.mk id tag) ;;;
    insertTags id rest
  end.

(** The callback of [SaveDashboard]; the result is [cmd.Result]. *)
Definition saveDashboard (cmd : SaveDashboardCommand.t) : Tx Dashboard.t :=
  let dash := GetDashboardModel cmd in
  (* try get existing dashboard *)
  dash <- (if 0 <? Dashboard.Id dash then
             dashWithIdExists <- Xorm.Get (fun r =>
               (Dashboard.Id r =? Dashboard.Id dash) &&
               (Dashboard.OrgId r =? Dashboard.OrgId dash)) ;;
             match dashWithIdExists with
             | None => throw ErrDashboardNotFound
             | Some existing =>
               (* check for is someone else has written in between *)
               dash <- (if negb (Dashboard.Version dash =? Dashboard.Version existing)
                        then
                          if Overwrite cmd
                          then ret (Dashboard.withVersion (Dashboard.Version existing) dash)
                          else throw ErrDashboardVersionMismatch
                        else ret dash) ;;
               (* do not allow plugin dashboard updates without overwrite flag *)
               if negb (String.eqb (Dashboard.PluginId existing) "")
                  && negb (Overwrite cmd)
               then throw (UpdatePluginDashboardError (Dashboard.PluginId existing))
               else ret dash
             end
           else ret dash) ;;
  sameTitleExists <- Xorm.Get (fun r =>
    (Dashboard.OrgId r =? Dashboard.OrgId dash) &&
    String.eqb (Dashboard.Slug r) (Dashboard.Slug dash)) ;;
  dash <- match sameTitleExists with
          | Some sameTitle =>
            (* another dashboard with same name *)
            if negb (Dashboard.Id dash =? Dashboard.Id sameTitle) then
              if Overwrite cmd
              then ret (Dashboard.withVersion (Dashboard.Version sameTitle)
                          (Dashboard.withId (Dashboard.Id sameTitle) dash))
              else throw ErrDashboardWithSameNameExists
            else ret dash
          | None => ret dash
          end ;;
  dash <- setHasAcl dash ;;
  let parentVersion := Dashboard.Version dash in
  written <- (if Dashboard.Id dash =? 0 then
                let dash := Dashboard.withVersion 1 dash in
                metricsInc ;;;
                let dash := Dashboard.DataSet "version"
                              (JInt (Dashboard.Version dash)) dash in
                Xorm.Insert dash
              else
                let dash := Dashboard.withVersion
                              (wrap64 (Dashboard.Version dash + 1)) dash in
                let dash := Dashboard.DataSet "version"
                              (JInt (Dashboard.Version dash)) dash in
                affectedRows <- Xorm.Update (Dashboard.Id dash) dash ;;
                ret (affectedRows, dash)) ;;
  let affectedRows := fst written in
  let dash := snd written in
  if affectedRows =? 0 then throw ErrDashboardNotFound else
  created <- timeNow ;;
  let dashVersion :=
    DashboardVersion.mk (Dashboard.Id dash) parentVersion (RestoredFrom cmd)
      (Dashboard.Version dash) created (Dashboard.UpdatedBy dash)
      (Message cmd) (Dashboard.Data dash) in
  (* insert version entry *)
  affectedRows <- Xorm.InsertVersion dashVersion ;;
  if affectedRows =? 0 then throw ErrDashboardNotFound else
  (* delete existing tags *)
  Xorm.Exec Xorm.DeleteTags (Dashboard.Id dash) ;;;
  (* insert new tags *)
  insertTags (Dashboard.Id dash) (Dashboard.GetTags dash) ;;;
  ret dash.

Definition SaveDashboard (cmd : SaveDashboardCommand.t) : Tx Dashboard.t :=
  inTransaction (saveDashboard cmd).

Definition deletes : list Xorm.Delete :=
  [Xorm.DeleteTags; Xorm.DeleteStars; Xorm.DeleteDashboardById;
   Xorm.DeletePlaylistItems; Xorm.DeleteVersions; Xorm.DeleteByFolder].

(** The loop over [deletes]. *)
Fixpoint execAll (sqls : list Xorm.Delete) (id : Z) : Tx unit :=
  match sqls with
  | [] => ret tt
  | sql :: rest => Xorm.Exec sql id ;;; execAll rest id
  end.

Section Delete.

(** [DeleteAlertDefinition(dashboardId, sess)] lives outside the excerpt:
    a hook that works on the session and may return an error. *)
Variable DeleteAlertDefinition : Z -> Tx unit.

Definition deleteDashboard (cmd : DeleteDashboardCommand.t) : Tx unit :=
  has <- Xorm.Get (Xorm.beanCond (DeleteDashboardCommand.Id cmd)
                                 (DeleteDashboardCommand.OrgId cmd)) ;;
  match has with
  | None => throw ErrDashboardNotFound
  | Some dashboard =>
    execAll deletes (Dashboard.Id dashboard) ;;;
    fun s =>
      match DeleteAlertDefinition (Dashboard.Id dashboard) s with
      | (Err _, s1) => (Ok tt, s1)   (* return nil *)
      | (Ok _, s1) => (Ok tt, s1)
      end
  end.

Definition DeleteDashboard (cmd : DeleteDashboardCommand.t) : Tx unit :=
  inTransaction (deleteDashboard cmd).

End Delete.

End Sqlstore.

(** ** Vocabulary of the statements *)

(** No statement of the session is going to fail. *)
Definition quiet (s : Session) : Prop := Forall (fun f => f = None) (faults s).

(** The next [n] statements of the session do not fail. *)
Definition quietFor (n : nat) (s : Session) : Prop :=
  Forall (fun f => f = None) (take n (faults s)).

(** The first statement to fail is the one at position [k], with [msg]. *)
Definition firstFault (k : nat) (msg : string) (s : Session) : Prop :=
  quietFor k s /\ faults s !! k = Some (Some msg).

(** Constraints of the schema of [dashboard]: the primary key,
    the auto-increment sequence, and the unique index on org and slug. *)
Definition uniqueIds (d : DB) : Prop := NoDup (Dashboard.Id <$> dashboard d).
Definition idsInSeq (d : DB) : Prop :=
  Forall (fun r => 0 < Dashboard.Id r <= dashboard_seq d) (dashboard d).
Definition uniqueSlugs (d : DB) : Prop :=
  NoDup ((fun r => (Dashboard.OrgId r, Dashboard.Slug r)) <$> dashboard d).

(** Stored versions are versions a Go [int] counts up from zero. *)
Definition versionsInRange (d : DB) : Prop :=
  Forall (fun r => 0 <= Dashboard.Version r <= MaxInt64) (dashboard d).

(** The conditions of the two lookups of [SaveDashboard]. *)
Definition byIdOrg (dash r : Dashboard.t) : bool :=
  (Dashboard.Id r =? Dashboard.Id dash) &&
  (Dashboard.OrgId r =? Dashboard.OrgId dash).
Definition bySlug (dash r : Dashboard.t) : bool :=
  (Dashboard.OrgId r =? Dashboard.OrgId dash) &&
  String.eqb (Dashboard.Slug r) (Dashboard.Slug dash).

(** The rows of an org that carry a slug. *)
Definition rowsWithSlug (orgId : Z) (slug : string) (d : DB) : list Dashboard.t :=
  filter (fun r => Dashboard.OrgId r = orgId /\ Dashboard.Slug r = slug)
         (dashboard d).

(** The rows stored under an id, and their dependents. *)
Definition rowsWithId (id : Z) (d : DB) : list Dashboard.t :=
  filter (fun r => Dashboard.Id r = id) (dashboard d).
Definition childrenOf (id : Z) (d : DB) : list Dashboard.t :=
  filter (fun r => Dashboard.FolderId r = id) (dashboard d).
Definition tagsOf (id : Z) (d : DB) : list DashboardTag.t :=
  filter (fun t => DashboardTag.DashboardId t = id) (dashboard_tag d).
Definition versionsOf (id : Z) (d : DB) : list DashboardVersion.t :=
  filter (fun v => DashboardVersion.DashboardId v = id) (dashboard_version d).

(** The blocks of [saveDashboard], named for the proofs. *)
Module Blocks.
Import SaveDashboardCommand Sqlstore.

(* lines 33-55 *)
Definition checkExisting (cmd : SaveDashboardCommand.t) (dash : Dashboard.t)
    : Tx Dashboard.t :=
  if 0 <? Dashboard.Id dash then
    dashWithIdExists <- Xorm.Get (fun r =>
      (Dashboard.Id r =? Dashboard.Id dash) &&
      (Dashboard.OrgId r =? Dashboard.OrgId dash)) ;;
    match dashWithIdExists with
    | None => throw ErrDashboardNotFound
    | Some existing =>
      dash <- (if negb (Dashboard.Version dash =? Dashboard.Version existing)
               then
                 if Overwrite cmd
                 then ret (Dashboard.withVersion (Dashboard.Version existing) dash)
                 else throw ErrDashboardVersionMismatch
               else ret dash) ;;
      if negb (String.eqb (Dashboard.PluginId existing) "")
         && negb (Overwrite cmd)
      then throw (UpdatePluginDashboardError (Dashboard.PluginId existing))
      else ret dash
    end
  else ret dash.

(* lines 57-72 *)
Definition checkSameTitle (cmd : SaveDashboardCommand.t) (dash : Dashboard.t)
    : Tx Dashboard.t :=
  sameTitleExists <- Xorm.Get (fun r =>
    (Dashboard.OrgId r =? Dashboard.OrgId dash) &&
    String.eqb (Dashboard.Slug r) (Dashboard.Slug dash)) ;;
  match sameTitleExists with
  | Some sameTitle =>
    if negb (Dashboard.Id dash =? Dashboard.Id sameTitle) then
      if Overwrite cmd
      then ret (Dashboard.withVersion (Dashboard.Version sameTitle)
                  (Dashboard.withId (Dashboard.Id sameTitle) dash))
      else throw ErrDashboardWithSameNameExists
    else ret dash
  | None => ret dash
  end.

(* lines 79-136 *)
Definition writeDashboard (cmd : SaveDashboardCommand.t) (dash : Dashboard.t)
    : Tx Dashboard.t :=
  let parentVersion := Dashboard.Version dash in
  written <- (if Dashboard.Id dash =? 0 then
                let dash := Dashboard.withVersion 1 dash in
                metricsInc ;;;
                let dash := Dashboard.DataSet "version"
                              (JInt (Dashboard.Version dash)) dash in
                Xorm.Insert dash
              else
                let dash := Dashboard.withVersion
                              (wrap64 (Dashboard.Version dash + 1)) dash in
                let dash := Dashboard.DataSet "version"
                              (JInt (Dashboard.Version dash)) dash in
                affectedRows <- Xorm.Update (Dashboard.Id dash) dash ;;
                ret (affectedRows, dash)) ;;
  let affectedRows := fst written in
  let dash := snd written in
  if affectedRows =? 0 then throw ErrDashboardNotFound else
  created <- timeNow ;;
  let dashVersion :=
    DashboardVersion.mk (Dashboard.Id dash) parentVersion (RestoredFrom cmd)
      (Dashboard.Version dash) created (Dashboard.UpdatedBy dash)
      (Message cmd) (Dashboard.Data dash) in
  affectedRows <- Xorm.InsertVersion dashVersion ;;
  if affectedRows =? 0 then throw ErrDashboardNotFound else
  Xorm.Exec Xorm.DeleteTags (Dashboard.Id dash) ;;;
  insertTags (Dashboard.Id dash) (Dashboard.GetTags dash) ;;;
  ret dash.
End Blocks.

(** Saves run one after the other; the first error stops the run. *)
Fixpoint saveAll (cmds : list SaveDashboardCommand.t) : Tx (list Dashboard.t) :=
  match cmds with
  | [] => ret []
  | cmd :: rest =>
    d <- Sqlstore.SaveDashboard cmd ;;
    ds <- saveAll rest ;;
    ret (d :: ds)
  end.

(** The session after a statement that left the store [d]. *)
Definition next (s : Session) (d : DB) : Session :=
  mkSession d (tl (faults s)) (now s) (M_Models_Dashboard_Insert s).

(** Code that never writes to the store. *)
Definition readOnly {A} (m : Tx A) : Prop :=
  forall s r s', m s = (r, s') -> db s' = db s.

(** The value [setHasAcl] leaves in [dash.HasAcl] on a store. *)
Definition derivedHasAcl (dash : Dashboard.t) (d : DB) : bool :=
  let viaFolder :=
    if 0 <? Dashboard.FolderId dash then
      match find (fun r => Dashboard.FolderId r =? Dashboard.FolderId dash)
                 (dashboard d) with
      | Some parent => Dashboard.HasAcl parent
      | None => false
      end
    else false in
  let viaOwn :=
    if 0 <? Dashboard.Id dash then
      (0 <? length (filter (fun a => DashboardAcl.DashboardId a = Dashboard.Id dash)
                           (dashboard_acl d)))%nat
    else false in
  Dashboard.HasAcl dash || viaFolder || viaOwn.

(** The row written by the insert branch and by the update branch, and the
    version-history row of a save. *)
Definition insertedBean (dash : Dashboard.t) : Dashboard.t :=
  Dashboard.DataSet "version" (JInt 1) (Dashboard.withVersion 1 dash).
Definition updatedBean (dash : Dashboard.t) : Dashboard.t :=
  Dashboard.DataSet "version" (JInt (wrap64 (Dashboard.Version dash + 1)))
    (Dashboard.withVersion (wrap64 (Dashboard.Version dash + 1)) dash).
Definition historyRow (cmd : SaveDashboardCommand.t) (parentVersion created : Z)
    (d : Dashboard.t) : DashboardVersion.t :=
  DashboardVersion.mk (Dashboard.Id d) parentVersion
    (SaveDashboardCommand.RestoredFrom cmd) (Dashboard.Version d) created
    (Dashboard.UpdatedBy d) (SaveDashboardCommand.Message cmd) (Dashboard.Data d).

(** ** Stores and commands used as examples *)

Module Examples.

Definition body (version : Z) (tags : list string) : gmap string Json :=
  <["version" := JInt version]> (<["tags" := JArray (JString <$> tags)]> ∅).

Definition row (id : Z) (slug : string) (orgId version : Z) (pluginId : string)
    (folderId : Z) (isFolder hasAcl : bool) : Dashboard.t :=
  Dashboard.mk id slug orgId version pluginId folderId isFolder hasAcl
               slug 7 (body version []).

Definition session (d : DB) : Session := mkSession d [] 1500000000 0.

Definition emptyStore : DB := mkDB [] 0 [] [] [] [] [].

(** One user dashboard at version 3 and one plugin dashboard at version 3. *)
Definition home : Dashboard.t := row 1 "home" 1 3 "" 0 false false.
Definition provisioned : Dashboard.t := row 2 "nginx" 1 3 "X" 0 false false.
Definition store : DB := mkDB [home; provisioned] 2 [] [] [] [] [].

Definition save (model : Dashboard.t) (overwrite : bool) : SaveDashboardCommand.t :=
  SaveDashboardCommand.mk model overwrite 0 "edited".

(** Candidates without an id: one that declares version 5, one that
    declares none, and one that takes the slug of [home]. *)
Definition imported : Dashboard.t := row 0 "fresh" 1 5 "" 0 false false.
Definition fresh : Dashboard.t := row 0 "fresh" 1 0 "" 0 false false.
Definition takeover : Dashboard.t := row 0 "home" 1 0 "" 0 false false.

(** A folder with an ACL and nothing in it yet. *)
Definition folder : Dashboard.t := row 1 "team" 1 1 "" 0 true true.
Definition folderStore : DB := mkDB [folder] 1 [] [] [] [] [].

(** A candidate filed under [folder]. *)
Definition intoFolder : Dashboard.t := row 0 "cpu" 1 0 "" 1 false false.

(** A folder without an ACL that holds a dashboard flagged with one. *)
Definition openFolder : Dashboard.t := row 1 "team" 1 1 "" 0 true false.
Definition flaggedSibling : Dashboard.t := row 2 "disk" 1 1 "" 1 false true.
Definition siblingStore : DB :=
  mkDB [openFolder; flaggedSibling] 2 [] [] [] [] [].

(** A folder holding one dashboard, which has a tag and one version. *)
Definition parent : Dashboard.t := row 1 "team" 1 1 "" 0 true false.
Definition child : Dashboard.t := row 2 "cpu" 1 1 "" 1 false false.
Definition tree : DB :=
  mkDB [parent; child] 2
       [DashboardVersion.mk 1 0 0 1 1400000000 7 "" (body 1 []);
        DashboardVersion.mk 2 0 0 1 1400000000 7 "" (body 1 ["prod"])]
       [DashboardTag.mk 2 "prod"] [] [] [].

(** Alert cleanup hooks: one that does nothing, one that always fails. *)
Definition noAlerts : Z -> Tx unit := fun _ => ret tt.
Definition brokenAlerts : Z -> Tx unit :=
  fun _ => throw (ErrDatabase "alert cleanup failed").

End Examples.

(** The candidate of a command gets through the checks of lines 33-55 on a
    store: it has no positive id, or the row of its id and org is stored
    and, without [overwrite], has the declared version and no plugin id. *)
Definition passesIdChecks (cmd : SaveDashboardCommand.t) (d : DB) : Prop :=
  let cand := SaveDashboardCommand.Model cmd in
  Dashboard.Id cand <= 0
  \/ exists existing,
       find (byIdOrg cand) (dashboard d) = Some existing
       /\ (SaveDashboardCommand.Overwrite cmd = false ->
           Dashboard.Version cand = Dashboard.Version existing
           /\ Dashboard.PluginId existing = "").

(** ** The rest of the evaluators ([conditions/evaluator.go]) *)

Module Evaluators.
Import Conditions.

Section Eval.

(** The comparison [a < b] of [float64] stays abstract; Go's [a > b] on
    floats is [b < a]. *)
Variable float64 : Type.
Variable lt : float64 -> float64 -> bool.

(** [(e *DefaultAlertEvaluator) Eval] and [(e *RangedAlertEvaluator) Eval],
    behind the interface [AlertEvaluator]; the series argument is unused. *)
Definition Eval (e : AlertEvaluator float64) (reducedValue : float64) : bool :=
  match e with
  | DefaultAlertEvaluator typ threshold =>
    if String.eqb typ "gt" then lt threshold reducedValue
    else if String.eqb typ "lt" then lt reducedValue threshold
    else false
  | RangedAlertEvaluator typ lower upper =>
    if String.eqb typ "within_range" then
      (lt lower reducedValue && lt reducedValue upper)
      || (lt upper reducedValue && lt reducedValue lower)
    else if String.eqb typ "outside_range" then
      (lt upper reducedValue && lt lower reducedValue)
      || (lt reducedValue upper && lt reducedValue lower)
    else false
  end.

End Eval.

Arguments Eval {float64} lt e reducedValue.

(** The type an evaluator carries. *)
Definition typeOf {float64} (e : AlertEvaluator float64) : string :=
  match e with
  | DefaultAlertEvaluator typ _ => typ
  | RangedAlertEvaluator typ _ _ => typ
  end.

End Evaluators.

(** ** Reading dashboards back ([GetDashboard], [GetDashboardSlugById]) *)

Module GetDashboardQuery.
Record t := mk { Slug : string; OrgId : Z; Id : Z }.
End GetDashboardQuery.

Module Queries.

(** [x.Get(&dashboard)] with the bean [m.Dashboard{Slug, OrgId, Id}]: the
    non-zero fields of the bean are the condition. *)
Definition beanCond (slug : string) (orgId id : Z) (r : Dashboard.t) : bool :=
  (String.eqb slug "" || String.eqb (Dashboard.Slug r) slug)
  && ((orgId =? 0) || (Dashboard.OrgId r =? orgId))
  && ((id =? 0) || (Dashboard.Id r =? id)).


(** [SELECT slug from dashboard WHERE Id=?] *)
Definition GetDashboardSlugById (id : Z) : Tx string :=
  exists_ <- Xorm.Get (fun r => Dashboard.Id r =? id) ;;
  match exists_ with
  | None => throw ErrDashboardNotFound
  | Some row => ret (Dashboard.Slug row)
  end.

End Queries.

(** ** Search ([findDashboards], [makeQueryResult]) *)

Module SignedInUser.
(** Modelled from the spec: the permission context of a query (user, org
    and org role), declared outside the excerpt. *)
Record t := mk { UserId : Z; OrgId : Z; OrgRole : string }.
End SignedInUser.

Module FindPersistedDashboardsQuery.
(** Modelled from the spec: the filter object of [search], with the fields
    [findDashboards] reads. *)
Record t := mk {
  Title : string;
  Tags : list string;
  SignedInUser : SignedInUser.t;
  IsStarred : bool;
  DashboardIds : list Z;
  Type_ : string;
  FolderId : Z;
  Limit : Z
}.
End FindPersistedDashboardsQuery.

Module DashboardSearchProjection.
Record t := mk {
  Id : Z;
  Title : string;
  Slug : string;
  Term : string;
  IsFolder : bool;
  FolderId : Z;
  FolderSlug : string;
  FolderTitle : string
}.
End DashboardSearchProjection.

Inductive HitType : Type := DashHitDB | DashHitFolder.

Module Hit.
(** Modelled from the spec: [search.Hit], with the fields [makeQueryResult]
    fills. *)
Record t := mk {
  Id : Z;
  Title : string;
  Uri : string;
  Type_ : HitType;
  FolderId : Z;
  FolderTitle : string;
  FolderSlug : string;
  Tags : list string
}.

(** [hit.Tags = append(hit.Tags, term)] *)
Definition appendTag (term : string) (h : t) : t :=
  mk (Id h) (Title h) (Uri h) (Type_ h) (FolderId h) (FolderTitle h)
     (FolderSlug h) (Tags h ++ [term]).
End Hit.

Module Search.

(** A bound parameter of a statement ([interface{}]). *)
Inductive Param : Type :=
| PString (s : string)
| PInt (n : Z).

(** [strings.Repeat(s, n)] for a count that is not negative. *)
Fixpoint Repeat (s : string) (n : nat) : string :=
  match n with
  | O => ""
  | S n' => s +:+ Repeat s n'
  end.

(** The pieces of SQL text, as written in the source. *)
Definition sqlSelect : string := "
	SELECT
		dashboard.id,
		dashboard.title,
		dashboard.slug,
		dashboard_tag.term,
		dashboard.is_folder,
		dashboard.folder_id,
		folder.slug as folder_slug,
		folder.title as folder_title
	FROM (
		SELECT
			dashboard.id FROM dashboard
			LEFT OUTER JOIN dashboard_tag ON dashboard_tag.dashboard_id = dashboard.id
	".
Definition sqlTagsIn : string := " WHERE dashboard_tag.term IN (?".
Definition sqlGroup : string := "
		  GROUP BY dashboard.id HAVING COUNT(dashboard.id) >= ?
		  ORDER BY dashboard.title ASC LIMIT ?) as ids".
Definition sqlJoin : string := "
		INNER JOIN dashboard on ids.id = dashboard.id
		LEFT OUTER JOIN dashboard folder on folder.id = dashboard.folder_id
		LEFT OUTER JOIN dashboard_tag on dashboard.id = dashboard_tag.dashboard_id".
Definition sqlJoinStar : string := " INNER JOIN star on star.dashboard_id = dashboard.id".
Definition sqlOrg : string := " WHERE dashboard.org_id=?".
Definition sqlStarUser : string := " AND star.user_id=?".
Definition sqlIdsIn : string := " AND dashboard.id IN (?".
Definition allowedDashboardsSubQuery : string := " AND (dashboard.has_acl = 0 OR dashboard.id in (
		SELECT distinct d.id AS DashboardId
			FROM dashboard AS d
	      LEFT JOIN dashboard_acl as da on d.folder_id = da.dashboard_id or d.id = da.dashboard_id
	      LEFT JOIN user_group_member as ugm on ugm.user_group_id =  da.user_group_id
	      LEFT JOIN org_user ou on ou.role = da.role
			WHERE
			  d.has_acl = 1 and
				(da.user_id = ? or ugm.user_id = ? or ou.id is not null)
			  and d.org_id = ?
			  ))".
Definition sqlOrder : string := " ORDER BY dashboard.title ASC LIMIT 1000".

Section FindDashboards.

(** [dialect.LikeStr()] and [m.ROLE_ADMIN] are defined outside the excerpt. *)
Variable LikeStr : string.
Variable ROLE_ADMIN : string.

Import FindPersistedDashboardsQuery.

(** The statement [findDashboards] builds, up to its execution: the text
    written to [sql] and the slice [params]. *)
Definition findDashboardsSql (query : FindPersistedDashboardsQuery.t)
    : string * list Param :=
  let limit := if Limit query =? 0 then 1000 else Limit query in
  let sql := sqlSelect in
  let params := [] in
  (* add tags filter *)
  let '(sql, params) :=
    if (0 <? length (Tags query))%nat
    then (sql +:+ (sqlTagsIn +:+ Repeat ",?" (length (Tags query) - 1) +:+ ")"),
          params ++ (PString <$> Tags query))
    else (sql, params) in
  (* this ends the inner select (tag filtered part) *)
  let sql := sql +:+ sqlGroup in
  let params := params ++ [PInt (Z.of_nat (length (Tags query)))] in
  let params := params ++ [PInt limit] in
  let sql := sql +:+ sqlJoin in
  let sql := if IsStarred query then sql +:+ sqlJoinStar else sql in
  let sql := sql +:+ sqlOrg in
  let params := params ++ [PInt (SignedInUser.OrgId (SignedInUser query))] in
  let '(sql, params) :=
    if IsStarred query
    then (sql +:+ sqlStarUser,
          params ++ [PInt (SignedInUser.UserId (SignedInUser query))])
    else (sql, params) in
  let '(sql, params) :=
    if (0 <? length (DashboardIds query))%nat
    then (sql +:+ (sqlIdsIn +:+ Repeat ",?" (length (DashboardIds query) - 1) +:+ ")"),
          params ++ (PInt <$> DashboardIds query))
    else (sql, params) in
  let '(sql, params) :=
    if negb (String.eqb (SignedInUser.OrgRole (SignedInUser query)) ROLE_ADMIN)
    then (sql +:+ allowedDashboardsSubQuery,
          params ++ [PInt (SignedInUser.UserId (SignedInUser query));
                     PInt (SignedInUser.UserId (SignedInUser query));
                     PInt (SignedInUser.OrgId (SignedInUser query))])
    else (sql, params) in
  let '(sql, params) :=
    if (0 <? String.length (Title query))%nat
    then (sql +:+ (" AND dashboard.title " +:+ LikeStr +:+ " ?"),
          params ++ [PString ("%" +:+ Title query +:+ "%")])
    else (sql, params) in
  let sql :=
    if (0 <? String.length (Type_ query))%nat && String.eqb (Type_ query) "dash-folder"
    then sql +:+ " AND dashboard.is_folder = 1" else sql in
  let sql :=
    if (0 <? String.length (Type_ query))%nat && String.eqb (Type_ query) "dash-db"
    then sql +:+ " AND dashboard.is_folder = 0" else sql in
  let '(sql, params) :=
    if 0 <? FolderId query
    then (sql +:+ " AND dashboard.folder_id = ?", params ++ [PInt (FolderId query)])
    else (sql, params) in
  let sql := sql +:+ sqlOrder in
  (sql, params).

End FindDashboards.

(** The number of placeholders [?] in a statement. *)
Fixpoint placeholders (sql : string) : nat :=
  match sql with
  | EmptyString => O
  | String c rest =>
    if String.eqb (String c "") "?" then S (placeholders rest)
    else placeholders rest
  end.

Definition getHitType (item : DashboardSearchProjection.t) : HitType :=
  if DashboardSearchProjection.IsFolder item then DashHitFolder else DashHitDB.

(** The hit made of a row the first time its id is seen. *)
Definition newHit (item : DashboardSearchProjection.t) : Hit.t :=
  Hit.mk (DashboardSearchProjection.Id item)
         (DashboardSearchProjection.Title item)
         ("db/" +:+ DashboardSearchProjection.Slug item)
         (getHitType item)
         (DashboardSearchProjection.FolderId item)
         (DashboardSearchProjection.FolderTitle item)
         (DashboardSearchProjection.FolderSlug item)
         [].

(** One turn of the loop of [makeQueryResult].  [result] is [query.Result];
    the hits are shared between [query.Result] and the map [hits], which
    holds for every id the position of its hit in [result], so that a tag
    appended through the map shows in the result. *)
Definition addItem (st : list Hit.t * gmap Z nat)
    (item : DashboardSearchProjection.t) : list Hit.t * gmap Z nat :=
  let result := fst st in
  let hits := snd st in
  let '(hit, result, hits) :=
    match hits !! DashboardSearchProjection.Id item with
    | Some hit => (hit, result, hits)
    | None =>
      (length result, result ++ [newHit item],
       <[DashboardSearchProjection.Id item := length result]> hits)
    end in
  if (0 <? String.length (DashboardSearchProjection.Term item))%nat
  then (alter (Hit.appendTag (DashboardSearchProjection.Term item)) hit result, hits)
  else (result, hits).

Definition makeQueryResult (res : list DashboardSearchProjection.t) : list Hit.t :=
  fst (fold_left addItem res ([], ∅)).

(** The terms [makeQueryResult] collects for an id: the non-empty terms of
    the rows of that id, in the order of the rows. *)
Definition termsOf (id : Z) (res : list DashboardSearchProjection.t) : list string :=
  filter (fun term => term <> "")
         (DashboardSearchProjection.Term <$>
            filter (fun item => DashboardSearchProjection.Id item = id) res).

End Search.

(** ** More vocabulary *)

(** The sequence has not gone below its start. *)
Definition seqStarted (d : DB) : Prop := 0 <= dashboard_seq d.

(** The stars and playlist entries of a dashboard id. *)
Definition starsOf (id : Z) (d : DB) : list Star.t :=
  filter (fun x => Star.DashboardId x = id) (star d).
Definition playlistItemsOf (id : Z) (d : DB) : list PlaylistItem.t :=
  filter (fun p => PlaylistItem.Type_ p = "dashboard_by_id"
                   /\ PlaylistItem.Value p = pretty id) (playlist_item d).

(** The hit of a row with the terms collected for it, and what the loop of
    [makeQueryResult] holds after the rows [res]: the result so far and the
    map from ids to positions in it. *)
Definition hitOf (item : DashboardSearchProjection.t) (terms : list string) : Hit.t :=
  Hit.mk (DashboardSearchProjection.Id item)
         (DashboardSearchProjection.Title item)
         ("db/" +:+ DashboardSearchProjection.Slug item)
         (Search.getHitType item)
         (DashboardSearchProjection.FolderId item)
         (DashboardSearchProjection.FolderTitle item)
         (DashboardSearchProjection.FolderSlug item)
         terms.

Definition loopState (res : list DashboardSearchProjection.t)
    : list Hit.t * gmap Z nat :=
  fold_left Search.addItem res ([], ∅).

Definition firstRow (id : Z) (res : list DashboardSearchProjection.t)
    : option DashboardSearchProjection.t :=
  find (fun item => DashboardSearchProjection.Id item =? id) res.

Definition loopInv (res : list DashboardSearchProjection.t)
    (st : list Hit.t * gmap Z nat) : Prop :=
  (forall (p : nat) h, fst st !! p = Some h ->
     snd st !! Hit.Id h = Some p
     /\ exists item, firstRow (Hit.Id h) res = Some item
                     /\ h = hitOf item (Search.termsOf (Hit.Id h) res))
  /\ (forall id (p : nat), snd st !! id = Some p ->
        exists h, fst st !! p = Some h /\ Hit.Id h = id)
  /\ (forall item, item ∈ res ->
        is_Some (snd st !! DashboardSearchProjection.Id item)).

(** ** Searches used as examples *)

Module SearchExamples.

(** Rows of a search: dashboard 7 comes with two terms, one row each, and
    folder 9, between them, with none. *)
Definition rows : list DashboardSearchProjection.t :=
  [DashboardSearchProjection.mk 7 "CPU" "cpu" "prod" false 9 "team" "Team";
   DashboardSearchProjection.mk 9 "Team" "team" "" true 0 "" "";
   DashboardSearchProjection.mk 7 "CPU" "cpu" "linux" false 9 "team" "Team"].

Definition cpuHit : Hit.t :=
  Hit.mk 7 "CPU" "db/cpu" DashHitDB 9 "Team" "team" ["prod"; "linux"].

(** A viewer looking for starred dashboards with two tags and a title. *)
Definition viewer : SignedInUser.t := SignedInUser.mk 4 1 "Viewer".
Definition query : FindPersistedDashboardsQuery.t :=
  FindPersistedDashboardsQuery.mk "cpu" ["prod"; "linux"] viewer true [7; 9]
                                  "dash-db" 9 0.

End SearchExamples.

(** * Properties *)

(** ** Sessions and statements *)

Section TxFacts.
Context {A B : Type}.

Lemma bind_Ok_inv (m : Tx A) (k : A -> Tx B) s b s' :
  bind m k s = (Ok b, s') ->
  exists a s1, m s = (Ok a, s1) /\ k a s1 = (Ok b, s').
Proof.
  unfold bind. destruct (m s) as [[a|e] s1]; [eauto | discriminate].
Qed.

Lemma bind_Ok (m : Tx A) (k : A -> Tx B) s a s1 :
  m s = (Ok a, s1) -> bind m k s = k a s1.
Proof. unfold bind. now intros ->. Qed.

Lemma bind_Err (m : Tx A) (k : A -> Tx B) s e s1 :
  m s = (Err e, s1) -> bind m k s = (Err e, s1).
Proof. unfold bind. now intros ->. Qed.

Lemma stmt_quiet (f : DB -> result A * DB) s :
  hd None (faults s) = None ->
  stmt f s = (fst (f (db s)), next s (snd (f (db s)))).
Proof. unfold stmt. now intros ->. Qed.

Lemma stmt_fault (f : DB -> result A * DB) s msg :
  hd None (faults s) = Some msg ->
  stmt f s = (Err (ErrDatabase msg), next s (db s)).
Proof. unfold stmt. now intros ->. Qed.

Lemma stmt_Ok_inv (f : DB -> result A * DB) s a s' :
  stmt f s = (Ok a, s') ->
  hd None (faults s) = None /\ fst (f (db s)) = Ok a
  /\ s' = next s (snd (f (db s))).
Proof.
  unfold stmt. destruct (hd None (faults s)); [discriminate|].
  intros [= H1 H2]. auto.
Qed.

Lemma stmt_inv (f : DB -> result A * DB) s r s' :
  stmt f s = (r, s') ->
  (exists msg, hd None (faults s) = Some msg /\ r = Err (ErrDatabase msg)
               /\ s' = next s (db s))
  \/ (hd None (faults s) = None /\ r = fst (f (db s))
      /\ s' = next s (snd (f (db s)))).
Proof.
  unfold stmt. destruct (hd None (faults s)) as [msg|]; intros [= <- <-];
    [left; eauto | right; auto].
Qed.

End TxFacts.

Lemma quiet_hd s : quiet s -> hd None (faults s) = None.
Proof.
  unfold quiet. destruct (faults s) as [|f fs]; [reflexivity|].
  intros H. now apply Forall_cons in H as [-> _].
Qed.

Lemma quiet_next s d : quiet s -> quiet (next s d).
Proof.
  unfold quiet, next. simpl. destruct (faults s) as [|f fs]; [auto|].
  intros H. now apply Forall_cons in H as [_ ?].
Qed.

Lemma quietFor_S_hd n s : quietFor (S n) s -> hd None (faults s) = None.
Proof.
  unfold quietFor. destruct (faults s) as [|f fs]; [reflexivity|].
  simpl. intros H. now apply Forall_cons in H as [-> _].
Qed.

Lemma quietFor_S_next n s d : quietFor (S n) s -> quietFor n (next s d).
Proof.
  unfold quietFor, next. simpl. destruct (faults s) as [|f fs].
  - intros _. destruct n; constructor.
  - simpl. intros H. now apply Forall_cons in H as [_ ?].
Qed.

Lemma quiet_quietFor n s : quiet s -> quietFor n s.
Proof.
  unfold quiet, quietFor. intros H.
  apply Forall_take. exact H.
Qed.

(** ** Evaluator construction *)

Section EvaluatorFacts.
Import Conditions.
Variable float64 : Type.
Variable Float64 : string -> float64.

Lemma evaluatorModel_type typ params :
  MustString (Get "type" (evaluatorModel typ params)) = typ.
Proof. reflexivity. Qed.

Lemma evaluatorModel_params typ params :
  MustArray (Get "params" (evaluatorModel typ params)) = params.
Proof. reflexivity. Qed.

(** With two numeric parameters a ranged type builds its evaluator. *)
Lemma NewAlertEvaluator_ranged_two lo hi :
  NewAlertEvaluator Float64
    (evaluatorModel "within_range" [JNumber lo; JNumber hi])
  = Returns (RangedAlertEvaluator "within_range" (Float64 lo) (Float64 hi)).
Proof. reflexivity. Qed.

(** C10 (evaluated at the failing input). For a ranged type and a [params]
    array of exactly one number, [NewAlertEvaluator] indexes [params[1]]
    past the end of the slice and panics: it returns neither an evaluator
    nor a [ValidationError]. *)
Theorem NewAlertEvaluator_ranged_one_param_panics (lit : string) :
  NewAlertEvaluator Float64 (evaluatorModel "within_range" [JNumber lit])
    = Panics "runtime error: index out of range"
  /\ NewAlertEvaluator Float64 (evaluatorModel "outside_range" [JNumber lit])
    = Panics "runtime error: index out of range".
Proof. split; reflexivity. Qed.

End EvaluatorFacts.

(** ** The blocks of [SaveDashboard] *)

Section BlockFacts.
Import SaveDashboardCommand Sqlstore Blocks.

Lemma bind_assoc {A B C} (m : Tx A) (f : A -> Tx B) (g : B -> Tx C) s :
  bind (bind m f) g s = bind m (fun a => bind (f a) g) s.
Proof. unfold bind. destruct (m s) as [[a|e] s1]; reflexivity. Qed.

Lemma bind_ext {A B} (m : Tx A) (k1 k2 : A -> Tx B) s :
  (forall a s1, k1 a s1 = k2 a s1) -> bind m k1 s = bind m k2 s.
Proof. intros H. unfold bind. destruct (m s) as [[a|e] s1]; auto. Qed.

Lemma saveDashboard_blocks cmd s :
  saveDashboard cmd s =
  (dash <- checkExisting cmd (GetDashboardModel cmd) ;;
   dash <- checkSameTitle cmd dash ;;
   dash <- setHasAcl dash ;;
   writeDashboard cmd dash) s.
Proof.
  unfold saveDashboard. apply bind_ext. intros dash s1.
  unfold checkSameTitle. rewrite bind_assoc. reflexivity.
Qed.

Lemma readOnly_ret {A} (a : A) : readOnly (ret a).
Proof. intros s r s' [= _ <-]. reflexivity. Qed.

Lemma readOnly_throw {A} e : readOnly (@throw A e).
Proof. intros s r s' [= _ <-]. reflexivity. Qed.

Lemma readOnly_bind {A B} (m : Tx A) (k : A -> Tx B) :
  readOnly m -> (forall a, readOnly (k a)) -> readOnly (bind m k).
Proof.
  intros Hm Hk s r s'. unfold bind.
  destruct (m s) as [[a|e] s1] eqn:E; intros H.
  - apply Hk in H. apply Hm in E. congruence.
  - injection H as <- <-. now apply Hm in E.
Qed.

Lemma readOnly_stmt {A} (f : DB -> result A * DB) :
  (forall d, snd (f d) = d) -> readOnly (stmt f).
Proof.
  intros Hf s r s' H.
  apply stmt_inv in H as [(msg & _ & _ & ->) | (_ & _ & ->)]; simpl; auto.
Qed.

Lemma readOnly_Get cond : readOnly (Xorm.Get cond).
Proof. apply readOnly_stmt. reflexivity. Qed.

Lemma readOnly_QueryAcl id : readOnly (Xorm.QueryAcl id).
Proof. apply readOnly_stmt. reflexivity. Qed.

Create HintDb ro.
Hint Resolve readOnly_ret readOnly_throw readOnly_Get readOnly_QueryAcl : ro.

Ltac ro :=
  repeat first
    [ apply readOnly_bind; [| intros ?]
    | solve [auto with ro]
    | match goal with
      | |- readOnly (if ?b then _ else _) => destruct b
      | |- readOnly (match ?o with Some _ => _ | None => _ end) => destruct o
      end ].

Lemma setHasAcl_readOnly dash : readOnly (setHasAcl dash).
Proof. unfold setHasAcl. ro. Qed.

Lemma checkExisting_readOnly cmd dash : readOnly (checkExisting cmd dash).
Proof. unfold checkExisting. ro. Qed.

Lemma checkSameTitle_readOnly cmd dash : readOnly (checkSameTitle cmd dash).
Proof. unfold checkSameTitle. ro. Qed.

Lemma withVersion_same dash : Dashboard.withVersion (Dashboard.Version dash) dash = dash.
Proof. now destruct dash. Qed.

Lemma withHasAcl_same dash : Dashboard.withHasAcl (Dashboard.HasAcl dash) dash = dash.
Proof. now destruct dash. Qed.

(** *** Lines 33-55: the stored row of the candidate's id *)

Lemma checkExisting_skip cmd dash s :
  Dashboard.Id dash <= 0 -> checkExisting cmd dash s = (Ok dash, s).
Proof.
  intros H. unfold checkExisting.
  destruct (Z.ltb_spec 0 (Dashboard.Id dash)); [lia | reflexivity].
Qed.

Lemma checkExisting_fault cmd dash s msg :
  0 < Dashboard.Id dash -> hd None (faults s) = Some msg ->
  checkExisting cmd dash s = (Err (ErrDatabase msg), next s (db s)).
Proof.
  intros Hid Hq. unfold checkExisting.
  apply Z.ltb_lt in Hid. rewrite Hid.
  unfold bind at 1. unfold Xorm.Get. now rewrite (stmt_fault _ _ _ Hq).
Qed.

Lemma checkExisting_run cmd dash s :
  0 < Dashboard.Id dash -> hd None (faults s) = None ->
  checkExisting cmd dash s =
  (match find (byIdOrg dash) (dashboard (db s)) with
   | None => Err ErrDashboardNotFound
   | Some existing =>
     if negb (Dashboard.Version dash =? Dashboard.Version existing)
        && negb (Overwrite cmd)
     then Err ErrDashboardVersionMismatch
     else if negb (String.eqb (Dashboard.PluginId existing) "")
             && negb (Overwrite cmd)
     then Err (UpdatePluginDashboardError (Dashboard.PluginId existing))
     else Ok (Dashboard.withVersion (Dashboard.Version existing) dash)
   end, next s (db s)).
Proof.
  intros Hid Hq. unfold checkExisting.
  apply Z.ltb_lt in Hid. rewrite Hid.
  unfold bind at 1. unfold Xorm.Get. rewrite (stmt_quiet _ _ Hq). simpl.
  unfold byIdOrg.
  destruct (find _ _) as [existing|]; [|reflexivity].
  unfold bind, ret, throw.
  destruct (Dashboard.Version dash =? Dashboard.Version existing) eqn:EV,
           (Overwrite cmd), (String.eqb (Dashboard.PluginId existing) "");
    simpl; try reflexivity;
    apply Z.eqb_eq in EV; rewrite <- EV; now rewrite withVersion_same.
Qed.

Lemma checkExisting_Ok cmd dash s dash' s' :
  checkExisting cmd dash s = (Ok dash', s') ->
  (Dashboard.Id dash <= 0 /\ dash' = dash /\ s' = s)
  \/ (0 < Dashboard.Id dash /\ s' = next s (db s)
      /\ exists existing,
           find (byIdOrg dash) (dashboard (db s)) = Some existing
           /\ dash' = Dashboard.withVersion (Dashboard.Version existing) dash
           /\ (Overwrite cmd = false ->
               Dashboard.Version dash = Dashboard.Version existing
               /\ Dashboard.PluginId existing = "")).
Proof.
  intros H. destruct (Z.ltb_spec 0 (Dashboard.Id dash)) as [Hid|Hid].
  - right. split; [exact Hid|].
    destruct (hd None (faults s)) as [msg|] eqn:Hq.
    { rewrite (checkExisting_fault _ _ _ _ Hid Hq) in H. discriminate. }
    rewrite (checkExisting_run _ _ _ Hid Hq) in H.
    destruct (find _ _) as [existing|]; [|discriminate].
    destruct (Dashboard.Version dash =? Dashboard.Version existing) eqn:EV,
             (Overwrite cmd) eqn:EO,
             (String.eqb (Dashboard.PluginId existing) "") eqn:EP;
      simpl in H; try discriminate; injection H as <- <-;
      (split; [reflexivity|]); exists existing;
      (split; [reflexivity|]); (split; [reflexivity|]);
      intros; try discriminate.
    apply Z.eqb_eq in EV. apply String.eqb_eq in EP. auto.
  - left. rewrite (checkExisting_skip _ _ _ Hid) in H.
    injection H as <- <-. auto.
Qed.

(** *** Lines 57-72: the stored row of the candidate's slug *)

Lemma checkSameTitle_fault cmd dash s msg :
  hd None (faults s) = Some msg ->
  checkSameTitle cmd dash s = (Err (ErrDatabase msg), next s (db s)).
Proof.
  intros Hq. unfold checkSameTitle.
  unfold bind at 1. unfold Xorm.Get. now rewrite (stmt_fault _ _ _ Hq).
Qed.

Lemma checkSameTitle_run cmd dash s :
  hd None (faults s) = None ->
  checkSameTitle cmd dash s =
  (match find (bySlug dash) (dashboard (db s)) with
   | Some sameTitle =>
     if negb (Dashboard.Id dash =? Dashboard.Id sameTitle) then
       if Overwrite cmd
       then Ok (Dashboard.withVersion (Dashboard.Version sameTitle)
                  (Dashboard.withId (Dashboard.Id sameTitle) dash))
       else Err ErrDashboardWithSameNameExists
     else Ok dash
   | None => Ok dash
   end, next s (db s)).
Proof.
  intros Hq. unfold checkSameTitle.
  unfold bind at 1. unfold Xorm.Get. rewrite (stmt_quiet _ _ Hq). simpl.
  unfold bySlug.
  destruct (find _ _) as [sameTitle|]; [|reflexivity].
  destruct (Dashboard.Id dash =? Dashboard.Id sameTitle), (Overwrite cmd);
    reflexivity.
Qed.

Lemma checkSameTitle_Ok cmd dash s dash' s' :
  checkSameTitle cmd dash s = (Ok dash', s') ->
  s' = next s (db s) /\
  match find (bySlug dash) (dashboard (db s)) with
  | Some sameTitle =>
    (Dashboard.Id dash = Dashboard.Id sameTitle /\ dash' = dash)
    \/ (Dashboard.Id dash <> Dashboard.Id sameTitle /\ Overwrite cmd = true
        /\ dash' = Dashboard.withVersion (Dashboard.Version sameTitle)
                     (Dashboard.withId (Dashboard.Id sameTitle) dash))
  | None => dash' = dash
  end.
Proof.
  intros H. destruct (hd None (faults s)) as [msg|] eqn:Hq.
  { rewrite (checkSameTitle_fault _ _ _ _ Hq) in H. discriminate. }
  rewrite (checkSameTitle_run _ _ _ Hq) in H.
  destruct (find _ _) as [sameTitle|].
  - destruct (Z.eqb_spec (Dashboard.Id dash) (Dashboard.Id sameTitle)) as [E|E];
      simpl in H.
    + injection H as <- <-. auto.
    + destruct (Overwrite cmd); [|discriminate].
      injection H as <- <-. auto.
  - injection H as <- <-. auto.
Qed.

(** *** Lines 74 and 140-163: the ACL flag *)

Lemma setHasAcl_folder_Ok dash s dash1 s1 :
  (if 0 <? Dashboard.FolderId dash then
     hasParent <- Xorm.Get (fun r =>
                    Dashboard.FolderId r =? Dashboard.FolderId dash) ;;
     match hasParent with
     | Some parent =>
       if Dashboard.HasAcl parent
       then ret (Dashboard.withHasAcl true dash)
       else ret dash
     | None => ret dash
     end
   else ret dash) s = (Ok dash1, s1) ->
  db s1 = db s /\ now s1 = now s /\ (quiet s -> quiet s1) /\
  dash1 = Dashboard.withHasAcl
            (Dashboard.HasAcl dash ||
             (if 0 <? Dashboard.FolderId dash then
                match find (fun r => Dashboard.FolderId r =? Dashboard.FolderId dash)
                           (dashboard (db s)) with
                | Some parent => Dashboard.HasAcl parent
                | None => false
                end
              else false)) dash.
Proof.
  destruct (0 <? Dashboard.FolderId dash).
  - intros H. apply bind_Ok_inv in H as (hp & s0 & Hg & Hk).
    apply stmt_Ok_inv in Hg as (_ & Hf & ->). simpl in Hf.
    injection Hf as <-.
    destruct (find _ _) as [parent|]; [destruct (Dashboard.HasAcl parent)|];
      injection Hk as <- <-; simpl;
      rewrite ?orb_true_r, ?orb_false_r, ?withHasAcl_same;
      auto using quiet_next.
  - intros [= <- <-].
    rewrite orb_false_r, withHasAcl_same. auto.
Qed.

Lemma setHasAcl_Ok dash s dash' s' :
  setHasAcl dash s = (Ok dash', s') ->
  dash' = Dashboard.withHasAcl (derivedHasAcl dash (db s)) dash
  /\ db s' = db s /\ now s' = now s.
Proof.
  intros H. unfold setHasAcl in H.
  apply bind_Ok_inv in H as (dash1 & s1 & H1 & H2).
  apply setHasAcl_folder_Ok in H1 as (Hdb & Hnow & _ & ->).
  unfold derivedHasAcl. cbv zeta.
  set (viaFolder := if 0 <? Dashboard.FolderId dash then _ else false) in *.
  change (Dashboard.Id (Dashboard.withHasAcl _ dash)) with (Dashboard.Id dash) in H2.
  destruct (0 <? Dashboard.Id dash).
  - apply bind_Ok_inv in H2 as (res & s2 & Hq & Hk).
    apply stmt_Ok_inv in Hq as (_ & Hf & ->). simpl in Hf.
    injection Hf as <-. rewrite Hdb in Hk.
    destruct (0 <? length _)%nat; injection Hk as <- <-; simpl;
      rewrite ?orb_true_r, ?orb_false_r; auto.
  - injection H2 as <- <-. rewrite orb_false_r. auto.
Qed.

Lemma setHasAcl_quiet dash s :
  quiet s -> exists dash' s', setHasAcl dash s = (Ok dash', s') /\ quiet s'.
Proof.
  intros Hq. unfold setHasAcl.
  assert (exists dash1 s1,
    (if 0 <? Dashboard.FolderId dash then
       hasParent <- Xorm.Get (fun r =>
                      Dashboard.FolderId r =? Dashboard.FolderId dash) ;;
       match hasParent with
       | Some parent =>
         if Dashboard.HasAcl parent
         then ret (Dashboard.withHasAcl true dash)
         else ret dash
       | None => ret dash
       end
     else ret dash) s = (Ok dash1, s1) /\ quiet s1) as (dash1 & s1 & H1 & Hq1).
  { destruct (0 <? Dashboard.FolderId dash); [|unfold ret; eauto].
    unfold bind, Xorm.Get. rewrite (stmt_quiet _ _ (quiet_hd _ Hq)). simpl.
    destruct (find _ _) as [parent|]; [destruct (Dashboard.HasAcl parent)|];
      unfold ret; eauto using quiet_next. }
  rewrite (bind_Ok _ _ _ _ _ H1).
  destruct (0 <? Dashboard.Id dash1); [|unfold ret; eauto].
  unfold bind, Xorm.QueryAcl. rewrite (stmt_quiet _ _ (quiet_hd _ Hq1)). simpl.
  destruct (0 <? length _)%nat; unfold ret; eauto using quiet_next.
Qed.

(** *** Lines 79-136: the writes *)

Lemma insertTags_Ok id tags s u s' :
  insertTags id tags s = (Ok u, s') ->
  db s' = mkDB (dashboard (db s)) (dashboard_seq (db s))
               (dashboard_version (db s))
               (dashboard_tag (db s) ++ (DashboardTag.mk id <$> tags))
               (dashboard_acl (db s)) (star (db s)) (playlist_item (db s))
  /\ now s' = now s.
Proof.
  revert s. induction tags as [|tag rest IH]; intros s H; simpl in H.
  - injection H as <- <-. rewrite app_nil_r. now destruct (db s).
  - apply bind_Ok_inv in H as (n & s1 & Hi & Hk).
    apply stmt_Ok_inv in Hi as (_ & _ & ->).
    apply IH in Hk as [-> ->]. simpl. now rewrite <- app_assoc.
Qed.

Lemma insertTags_quiet id tags s :
  quiet s -> exists s', insertTags id tags s = (Ok tt, s') /\ quiet s'.
Proof.
  revert s. induction tags as [|tag rest IH]; intros s Hq; simpl.
  - unfold ret. eauto.
  - unfold bind, Xorm.InsertTag.
    rewrite (stmt_quiet _ _ (quiet_hd _ Hq)). simpl.
    apply IH. now apply quiet_next.
Qed.

(** What the code after the canonical write does (lines 97-136). *)
Lemma afterWrite_Ok cmd parentVersion affectedRows dash s d s' :
  (if affectedRows =? 0 then throw ErrDashboardNotFound else
   created <- timeNow ;;
   let dashVersion :=
     DashboardVersion.mk (Dashboard.Id dash) parentVersion (RestoredFrom cmd)
       (Dashboard.Version dash) created (Dashboard.UpdatedBy dash)
       (Message cmd) (Dashboard.Data dash) in
   affectedRows <- Xorm.InsertVersion dashVersion ;;
   if affectedRows =? 0 then throw ErrDashboardNotFound else
   Xorm.Exec Xorm.DeleteTags (Dashboard.Id dash) ;;;
   insertTags (Dashboard.Id dash) (Dashboard.GetTags dash) ;;;
   ret dash) s = (Ok d, s') ->
  affectedRows <> 0 /\ d = dash /\
  db s' = mkDB (dashboard (db s)) (dashboard_seq (db s))
            (dashboard_version (db s) ++ [historyRow cmd parentVersion (now s) dash])
            (filter (fun t => DashboardTag.DashboardId t ≠ Dashboard.Id dash)
                    (dashboard_tag (db s))
             ++ (DashboardTag.mk (Dashboard.Id dash) <$> Dashboard.GetTags dash))
            (dashboard_acl (db s)) (star (db s)) (playlist_item (db s)).
Proof.
  destruct (Z.eqb_spec affectedRows 0) as [E|E]; [discriminate|].
  intros H. split; [exact E|].
  apply bind_Ok_inv in H as (created & s1 & Ht & H). injection Ht as <- <-.
  apply bind_Ok_inv in H as (n & s2 & Hv & H).
  apply stmt_Ok_inv in Hv as (_ & Hn & ->). simpl in Hn. injection Hn as <-.
  simpl in H.
  apply bind_Ok_inv in H as (u & s3 & He & H).
  apply stmt_Ok_inv in He as (_ & _ & ->).
  apply bind_Ok_inv in H as (u' & s4 & Hi & H).
  apply insertTags_Ok in Hi as [Hdb _].
  injection H as <- <-. split; [reflexivity|].
  rewrite Hdb. reflexivity.
Qed.

Lemma afterWrite_quiet cmd parentVersion affectedRows dash s :
  affectedRows <> 0 -> quiet s ->
  exists s',
    (if affectedRows =? 0 then throw ErrDashboardNotFound else
     created <- timeNow ;;
     let dashVersion :=
       DashboardVersion.mk (Dashboard.Id dash) parentVersion (RestoredFrom cmd)
         (Dashboard.Version dash) created (Dashboard.UpdatedBy dash)
         (Message cmd) (Dashboard.Data dash) in
     affectedRows <- Xorm.InsertVersion dashVersion ;;
     if affectedRows =? 0 then throw ErrDashboardNotFound else
     Xorm.Exec Xorm.DeleteTags (Dashboard.Id dash) ;;;
     insertTags (Dashboard.Id dash) (Dashboard.GetTags dash) ;;;
     ret dash) s = (Ok dash, s') /\ quiet s'.
Proof.
  intros E Hq. destruct (Z.eqb_spec affectedRows 0) as [|_]; [contradiction|].
  unfold bind at 1. unfold timeNow. cbv zeta.
  unfold bind at 1. unfold Xorm.InsertVersion.
  rewrite (stmt_quiet _ _ (quiet_hd _ Hq)). simpl.
  unfold bind at 1. unfold Xorm.Exec.
  set (s1 := next s _). assert (Hq1 : quiet s1) by now apply quiet_next.
  rewrite (stmt_quiet _ _ (quiet_hd _ Hq1)). simpl.
  set (s2 := next s1 _). assert (Hq2 : quiet s2) by now apply quiet_next.
  destruct (insertTags_quiet (Dashboard.Id dash) (Dashboard.GetTags dash) s2 Hq2)
    as (s3 & Hi & Hq3).
  rewrite (bind_Ok _ _ _ _ _ Hi). unfold ret. eauto.
Qed.

Lemma writeDashboard_Ok cmd dash s d s' :
  writeDashboard cmd dash s = (Ok d, s') ->
  dashboard_version (db s')
    = dashboard_version (db s) ++ [historyRow cmd (Dashboard.Version dash) (now s) d]
  /\ dashboard_tag (db s')
    = filter (fun t => DashboardTag.DashboardId t ≠ Dashboard.Id d)
             (dashboard_tag (db s))
      ++ (DashboardTag.mk (Dashboard.Id d) <$> Dashboard.GetTags d)
  /\ dashboard_acl (db s') = dashboard_acl (db s)
  /\ star (db s') = star (db s)
  /\ playlist_item (db s') = playlist_item (db s)
  /\ ((Dashboard.Id dash = 0
       /\ d = Dashboard.withId (dashboard_seq (db s) + 1) (insertedBean dash)
       /\ dashboard (db s') = dashboard (db s) ++ [d]
       /\ dashboard_seq (db s') = dashboard_seq (db s) + 1
       /\ dashboard_seq (db s) < MaxInt64)
      \/ (Dashboard.Id dash <> 0
          /\ d = updatedBean dash
          /\ dashboard (db s') = Xorm.updateRow (Dashboard.Id dash) d <$> dashboard (db s)
          /\ dashboard_seq (db s') = dashboard_seq (db s)
          /\ rowsWithId (Dashboard.Id dash) (db s) <> [])).
Proof.
  intros H. unfold writeDashboard in H. cbv zeta in H.
  apply bind_Ok_inv in H as ([affectedRows dash'] & s1 & Hw & H).
  apply afterWrite_Ok in H as (Haff & -> & Hdb). simpl in Haff, Hdb.
  destruct (Z.eqb_spec (Dashboard.Id dash) 0) as [E|E].
  - apply bind_Ok_inv in Hw as (u & s0 & Hm & Hw). injection Hm as <- <-.
    apply stmt_Ok_inv in Hw as (_ & Hf & ->). simpl in Hf.
    rewrite E in Hf. simpl in Hf.
    destruct (Z.ltb_spec MaxInt64 (dashboard_seq (db s) + 1)) as [|Hseq];
      [discriminate|].
    simpl in Hf. injection Hf as <- <-.
    rewrite Hdb. simpl. rewrite E. simpl.
    destruct (Z.ltb_spec MaxInt64 (dashboard_seq (db s) + 1)) as [|_]; [lia|].
    simpl. repeat split; try reflexivity.
    left. repeat split; try reflexivity; lia.
  - apply bind_Ok_inv in Hw as (n & s0 & Hu & Hw).
    apply stmt_Ok_inv in Hu as (_ & Hf & ->). simpl in Hf.
    injection Hf as <-. injection Hw as <- <- <-.
    rewrite Hdb. simpl. repeat split; try reflexivity.
    right. repeat split; try reflexivity; try assumption.
    unfold rowsWithId. intros Hnil. apply Haff.
    simpl. now rewrite Hnil.
Qed.

Lemma writeDashboard_update_quiet cmd dash s :
  quiet s -> Dashboard.Id dash <> 0 ->
  rowsWithId (Dashboard.Id dash) (db s) <> [] ->
  exists s', writeDashboard cmd dash s = (Ok (updatedBean dash), s') /\ quiet s'.
Proof.
  intros Hq Hid Hrows. unfold writeDashboard. cbv zeta.
  destruct (Z.eqb_spec (Dashboard.Id dash) 0) as [|_]; [contradiction|].
  unfold bind at 1. unfold bind at 1. unfold Xorm.Update.
  rewrite (stmt_quiet _ _ (quiet_hd _ Hq)). simpl.
  apply (afterWrite_quiet cmd (Dashboard.Version dash) _ (updatedBean dash));
    [|now apply quiet_next].
  unfold rowsWithId in Hrows.
  destruct (filter _ _); [contradiction | simpl; lia].
Qed.

Lemma writeDashboard_insert_quiet cmd dash s :
  quiet s -> Dashboard.Id dash = 0 -> dashboard_seq (db s) < MaxInt64 ->
  exists s',
    writeDashboard cmd dash s
    = (Ok (Dashboard.withId (dashboard_seq (db s) + 1) (insertedBean dash)), s')
    /\ quiet s'.
Proof.
  intros Hq Hid Hseq. unfold writeDashboard. cbv zeta.
  rewrite Hid. simpl.
  unfold bind at 1. unfold bind at 1. unfold metricsInc, Xorm.Insert.
  rewrite stmt_quiet by (simpl; now apply quiet_hd). simpl.
  rewrite Hid. simpl.
  destruct (Z.ltb_spec MaxInt64 (dashboard_seq (db s) + 1)) as [|_]; [lia|].
  simpl.
  apply (afterWrite_quiet cmd (Dashboard.Version dash) 1
           (Dashboard.withId (dashboard_seq (db s) + 1) (insertedBean dash)));
    [lia|].
  apply (quiet_next (mkSession _ _ _ _)). exact Hq.
Qed.

(** *** The whole callback and the transaction *)

Lemma saveDashboard_Ok cmd s d s' :
  saveDashboard cmd s = (Ok d, s') ->
  exists dash1 dash2 s1 s2 s3,
    checkExisting cmd (GetDashboardModel cmd) s = (Ok dash1, s1)
    /\ checkSameTitle cmd dash1 s1 = (Ok dash2, s2)
    /\ db s1 = db s /\ db s2 = db s /\ db s3 = db s /\ now s3 = now s
    /\ writeDashboard cmd
         (Dashboard.withHasAcl (derivedHasAcl dash2 (db s)) dash2) s3
       = (Ok d, s').
Proof.
  rewrite saveDashboard_blocks. intros H.
  apply bind_Ok_inv in H as (dash1 & s1 & H1 & H).
  apply bind_Ok_inv in H as (dash2 & s2 & H2 & H).
  apply bind_Ok_inv in H as (dash3 & s3 & H3 & H).
  pose proof (checkExisting_readOnly _ _ _ _ _ H1) as E1.
  pose proof (checkSameTitle_readOnly _ _ _ _ _ H2) as E2.
  apply setHasAcl_Ok in H3 as (-> & E3 & N3).
  assert (now s2 = now s) as N2.
  { apply checkSameTitle_Ok in H2 as [-> _].
    apply checkExisting_Ok in H1 as [(_ & _ & ->) | (_ & -> & _)]; reflexivity. }
  rewrite E2, E1 in *.
  exists dash1, dash2, s1, s2, s3.
  repeat split; try assumption; congruence.
Qed.

Lemma SaveDashboard_Ok cmd s d s' :
  SaveDashboard cmd s = (Ok d, s') <-> saveDashboard cmd s = (Ok d, s').
Proof.
  unfold SaveDashboard, inTransaction.
  destruct (saveDashboard cmd s) as [[a|e] s1]; split; intros H;
    try discriminate; exact H.
Qed.

Lemma SaveDashboard_Err cmd s e s1 :
  saveDashboard cmd s = (Err e, s1) ->
  exists s', SaveDashboard cmd s = (Err e, s') /\ db s' = db s.
Proof.
  intros H. unfold SaveDashboard, inTransaction. rewrite H.
  eexists. split; reflexivity.
Qed.

(** The identity the candidate has after the two lookups is that of a
    stored row, whenever it is a positive one. *)
Lemma resolved_row cmd s dash1 dash2 s1 s2 :
  checkExisting cmd (GetDashboardModel cmd) s = (Ok dash1, s1) ->
  checkSameTitle cmd dash1 s1 = (Ok dash2, s2) ->
  0 < Dashboard.Id dash2 ->
  exists r0, r0 ∈ dashboard (db s)
             /\ Dashboard.Id r0 = Dashboard.Id dash2
             /\ Dashboard.Version r0 = Dashboard.Version dash2.
Proof.
  intros H1 H2 Hpos.
  pose proof (checkExisting_readOnly _ _ _ _ _ H1) as E1.
  apply checkSameTitle_Ok in H2 as [_ H2]. rewrite E1 in H2.
  assert (dash2 = dash1 -> exists r0, r0 ∈ dashboard (db s)
             /\ Dashboard.Id r0 = Dashboard.Id dash2
             /\ Dashboard.Version r0 = Dashboard.Version dash2) as Hsame.
  { intros ->.
    apply checkExisting_Ok in H1
      as [(Hle & -> & _) | (_ & _ & existing & Hf & -> & _)]; [lia|].
    apply find_some in Hf as [Hin Hc]. exists existing.
    apply andb_true_iff in Hc as [Hc _]. apply Z.eqb_eq in Hc.
    split; [now apply list_elem_of_In | auto]. }
  destruct (find (bySlug dash1) (dashboard (db s))) as [sameTitle|] eqn:Hf;
    [|auto].
  destruct H2 as [[_ ->] | (_ & _ & ->)]; [auto|].
  apply find_some in Hf as [Hin _]. exists sameTitle.
  split; [now apply list_elem_of_In | auto].
Qed.

Lemma rowsWithId_nonempty r d :
  r ∈ dashboard d -> rowsWithId (Dashboard.Id r) d <> [].
Proof.
  intros Hin Hnil.
  assert (r ∈ rowsWithId (Dashboard.Id r) d) as H
    by (apply list_elem_of_filter; auto).
  rewrite Hnil in H. now apply not_elem_of_nil in H.
Qed.

(** A save that reaches the update branch with a stored identity goes
    through when no statement fails. *)
Lemma saveDashboard_update_quiet cmd s dash1 dash2 s1 s2 :
  quiet s2 ->
  checkExisting cmd (GetDashboardModel cmd) s = (Ok dash1, s1) ->
  checkSameTitle cmd dash1 s1 = (Ok dash2, s2) ->
  0 < Dashboard.Id dash2 ->
  exists s',
    saveDashboard cmd s
    = (Ok (updatedBean (Dashboard.withHasAcl (derivedHasAcl dash2 (db s)) dash2)), s').
Proof.
  intros Hq H1 H2 Hpos.
  destruct (resolved_row _ _ _ _ _ _ H1 H2 Hpos) as (r0 & Hin & Hid & _).
  pose proof (checkExisting_readOnly _ _ _ _ _ H1) as E1.
  pose proof (checkSameTitle_readOnly _ _ _ _ _ H2) as E2.
  destruct (setHasAcl_quiet dash2 s2 Hq) as (dash3 & s3 & H3 & Hq3).
  pose proof H3 as H3'. apply setHasAcl_Ok in H3' as (-> & E3 & _).
  rewrite E2, E1 in *.
  destruct (writeDashboard_update_quiet cmd
              (Dashboard.withHasAcl (derivedHasAcl dash2 (db s)) dash2) s3 Hq3)
    as (s' & Hw & _).
  { simpl. lia. }
  { simpl. rewrite E3, <- Hid. now apply rowsWithId_nonempty. }
  exists s'. rewrite saveDashboard_blocks.
  rewrite (bind_Ok _ _ _ _ _ H1), (bind_Ok _ _ _ _ _ H2), (bind_Ok _ _ _ _ _ H3).
  exact Hw.
Qed.

End BlockFacts.

(** ** Integers and rows *)

Lemma wrap64_small z : - 2 ^ 63 <= z < 2 ^ 63 -> wrap64 z = z.
Proof. intros H. unfold wrap64. rewrite Z.mod_small; lia. Qed.

Lemma wrap64_succ v : 0 <= v < MaxInt64 -> wrap64 (v + 1) = v + 1.
Proof. unfold MaxInt64. intros H. apply wrap64_small. lia. Qed.

Lemma wrap64_succ_nonzero v : 0 <= v <= MaxInt64 -> wrap64 (v + 1) <> 0.
Proof.
  intros H. destruct (Z.eq_dec v MaxInt64) as [->|Hne].
  - vm_compute. discriminate.
  - rewrite wrap64_succ; lia.
Qed.

Lemma updateRow_Id id dash r :
  Dashboard.Id (Xorm.updateRow id dash r) = Dashboard.Id r.
Proof. unfold Xorm.updateRow. now destruct (Dashboard.Id r =? id). Qed.

Lemma updateRow_hit dash r :
  Xorm.updateRow (Dashboard.Id r) dash r = Xorm.updateCols dash r.
Proof. unfold Xorm.updateRow. now rewrite Z.eqb_refl. Qed.

Lemma updateRow_miss id dash r :
  Dashboard.Id r <> id -> Xorm.updateRow id dash r = r.
Proof.
  intros H. unfold Xorm.updateRow.
  destruct (Z.eqb_spec (Dashboard.Id r) id); [contradiction | reflexivity].
Qed.

Lemma updateRow_ids id dash (rows : list Dashboard.t) :
  Dashboard.Id <$> (Xorm.updateRow id dash <$> rows) = Dashboard.Id <$> rows.
Proof.
  rewrite <- list_fmap_compose. apply list_fmap_ext.
  intros _ r _. apply updateRow_Id.
Qed.

Lemma updatedBean_bodyVersion dash :
  Dashboard.bodyVersion (updatedBean dash)
  = Some (JInt (Dashboard.Version (updatedBean dash))).
Proof. unfold Dashboard.bodyVersion. simpl. apply lookup_insert_eq. Qed.

Lemma insertedBean_bodyVersion id dash :
  Dashboard.bodyVersion (Dashboard.withId id (insertedBean dash))
  = Some (JInt (Dashboard.Version (Dashboard.withId id (insertedBean dash)))).
Proof. unfold Dashboard.bodyVersion. simpl. apply lookup_insert_eq. Qed.

(** A stored row rewritten with a bean of non-zero version carries the
    version and the body of the bean. *)
Lemma updateCols_bodyVersion d r :
  Dashboard.Version d <> 0 ->
  Dashboard.bodyVersion d = Some (JInt (Dashboard.Version d)) ->
  Dashboard.Version (Xorm.updateCols d r) = Dashboard.Version d
  /\ Dashboard.bodyVersion (Xorm.updateCols d r)
     = Some (JInt (Dashboard.Version (Xorm.updateCols d r))).
Proof.
  intros Hv Hb. unfold Dashboard.bodyVersion in *. simpl.
  destruct (Z.eqb_spec (Dashboard.Version d) 0); [contradiction|]. auto.
Qed.

Lemma uniqueIds_eq (rows : list Dashboard.t) r1 r2 :
  NoDup (Dashboard.Id <$> rows) -> r1 ∈ rows -> r2 ∈ rows ->
  Dashboard.Id r1 = Dashboard.Id r2 -> r1 = r2.
Proof.
  induction rows as [|r rows IH]; intros Hnd H1 H2 Hid.
  - now apply not_elem_of_nil in H1.
  - rewrite fmap_cons in Hnd. apply NoDup_cons in Hnd as [Hni Hnd].
    apply elem_of_cons in H1 as [->|H1], H2 as [->|H2]; auto.
    + exfalso. apply Hni. rewrite Hid. now apply list_elem_of_fmap_2.
    + exfalso. apply Hni. rewrite <- Hid. now apply list_elem_of_fmap_2.
Qed.

Lemma rowsWithId_unique d r :
  uniqueIds d -> r ∈ dashboard d -> rowsWithId (Dashboard.Id r) d = [r].
Proof.
  unfold uniqueIds, rowsWithId.
  induction (dashboard d) as [|x rows IH]; intros Hnd Hin.
  - now apply not_elem_of_nil in Hin.
  - rewrite fmap_cons in Hnd. apply NoDup_cons in Hnd as [Hni Hnd].
    apply elem_of_cons in Hin as [->|Hin].
    + rewrite filter_cons_True by reflexivity. f_equal.
      apply elem_of_nil_inv. intros y Hy.
      apply list_elem_of_filter in Hy as [Hid Hy].
      apply Hni. rewrite <- Hid. now apply list_elem_of_fmap_2.
    + rewrite filter_cons_False; [auto|].
      intros Hid. apply Hni. rewrite Hid. now apply list_elem_of_fmap_2.
Qed.

Lemma uniqueIds_update d d' id dash :
  dashboard d' = Xorm.updateRow id dash <$> dashboard d ->
  uniqueIds d -> uniqueIds d'.
Proof. unfold uniqueIds. intros ->. now rewrite updateRow_ids. Qed.

Lemma idsInSeq_update d d' id dash :
  dashboard d' = Xorm.updateRow id dash <$> dashboard d ->
  dashboard_seq d' = dashboard_seq d ->
  idsInSeq d -> idsInSeq d'.
Proof.
  unfold idsInSeq. intros -> -> H. apply Forall_fmap.
  eapply Forall_impl; [exact H|]. intros r Hr. simpl.
  now rewrite updateRow_Id.
Qed.

Lemma bySlug_true dash r :
  bySlug dash r = true
  <-> Dashboard.OrgId r = Dashboard.OrgId dash
      /\ Dashboard.Slug r = Dashboard.Slug dash.
Proof.
  unfold bySlug. rewrite andb_true_iff, Z.eqb_eq, String.eqb_eq. reflexivity.
Qed.

(** Under the unique index, the lookup by org and slug finds the row that
    has them. *)
Lemma find_bySlug_unique d dash st :
  uniqueSlugs d -> st ∈ dashboard d ->
  Dashboard.OrgId st = Dashboard.OrgId dash ->
  Dashboard.Slug st = Dashboard.Slug dash ->
  find (bySlug dash) (dashboard d) = Some st.
Proof.
  unfold uniqueSlugs. intros Hnd Hin Ho Hs.
  induction (dashboard d) as [|x rows IH].
  - now apply not_elem_of_nil in Hin.
  - rewrite fmap_cons in Hnd. apply NoDup_cons in Hnd as [Hni Hnd]. simpl.
    apply elem_of_cons in Hin as [<-|Hin].
    + assert (bySlug dash st = true) as -> by now apply bySlug_true.
      reflexivity.
    + destruct (bySlug dash x) eqn:Hx; [|auto].
      exfalso. apply bySlug_true in Hx as [Hxo Hxs]. apply Hni.
      rewrite Hxo, Hxs, <- Ho, <- Hs.
      apply (list_elem_of_fmap_2
               (fun r => (Dashboard.OrgId r, Dashboard.Slug r)) rows st Hin).
Qed.

(** Rewriting, by its id, the one row that holds a slug in an org leaves
    one row with that slug in the org, provided the rewrite keeps both. *)
Lemma rowsWithSlug_update d d' dash st :
  uniqueIds d -> uniqueSlugs d -> st ∈ dashboard d ->
  dashboard d' = Xorm.updateRow (Dashboard.Id st) dash <$> dashboard d ->
  Dashboard.OrgId (Xorm.updateCols dash st) = Dashboard.OrgId st ->
  Dashboard.Slug (Xorm.updateCols dash st) = Dashboard.Slug st ->
  rowsWithSlug (Dashboard.OrgId st) (Dashboard.Slug st) d'
  = [Xorm.updateCols dash st].
Proof.
  unfold uniqueIds, uniqueSlugs, rowsWithSlug. intros Hids Hslugs Hin -> Ho Hs.
  induction (dashboard d) as [|x rows IH].
  - now apply not_elem_of_nil in Hin.
  - rewrite fmap_cons in Hids. rewrite fmap_cons in Hslugs.
    apply NoDup_cons in Hids as [Hni Hids].
    apply NoDup_cons in Hslugs as [Hns Hslugs].
    rewrite fmap_cons. apply elem_of_cons in Hin as [<-|Hin].
    + rewrite updateRow_hit, filter_cons_True by auto. f_equal.
      apply elem_of_nil_inv. intros y Hy.
      apply list_elem_of_filter in Hy as [[Hyo Hys] Hy].
      apply list_elem_of_fmap in Hy as (y0 & -> & Hy0).
      assert (Dashboard.Id y0 <> Dashboard.Id st) as Hne.
      { intros E. apply Hni. rewrite <- E. now apply list_elem_of_fmap_2. }
      rewrite updateRow_miss in Hyo, Hys by exact Hne.
      apply Hns. rewrite <- Hyo, <- Hys.
      apply (list_elem_of_fmap_2
               (fun r => (Dashboard.OrgId r, Dashboard.Slug r)) rows y0 Hy0).
    + assert (Dashboard.Id x <> Dashboard.Id st) as Hne.
      { intros E. apply Hni. rewrite E. now apply list_elem_of_fmap_2. }
      rewrite updateRow_miss by exact Hne.
      rewrite filter_cons_False; [auto|].
      intros [Hxo Hxs]. apply Hns. rewrite Hxo, Hxs.
      apply (list_elem_of_fmap_2
               (fun r => (Dashboard.OrgId r, Dashboard.Slug r)) rows st Hin).
Qed.

(** ** Saving *)

Section SaveFacts.
Import SaveDashboardCommand Sqlstore Blocks.

(** C4. When the row stored under the candidate's id and org has a version
    other than the one the candidate declares and [overwrite] is false, the
    save fails with the version-conflict error and the whole store
    (canonical rows, version history, tags) is the one before the call. *)
Theorem save_version_conflict cmd s existing :
  0 < Dashboard.Id (Model cmd) ->
  hd None (faults s) = None ->
  find (byIdOrg (Model cmd)) (dashboard (db s)) = Some existing ->
  Dashboard.Version (Model cmd) <> Dashboard.Version existing ->
  Overwrite cmd = false ->
  exists s', SaveDashboard cmd s = (Err ErrDashboardVersionMismatch, s')
             /\ db s' = db s.
Proof.
  intros Hid Hq Hf Hv Ho.
  apply SaveDashboard_Err with (s1 := next s (db s)).
  rewrite saveDashboard_blocks. apply bind_Err.
  unfold GetDashboardModel. rewrite (checkExisting_run _ _ _ Hid Hq), Hf, Ho.
  destruct (Z.eqb_spec (Dashboard.Version (Model cmd)) (Dashboard.Version existing));
    [contradiction | reflexivity].
Qed.

Lemma save_version_conflict_witness :
  exists s',
    SaveDashboard (Examples.save (Examples.row 1 "home" 1 2 "" 0 false false) false)
                  (Examples.session Examples.store)
    = (Err ErrDashboardVersionMismatch, s')
    /\ db s' = Examples.store.
Proof.
  apply (save_version_conflict _ (Examples.session Examples.store) Examples.home).
  - simpl. lia.
  - reflexivity.
  - reflexivity.
  - simpl. lia.
  - reflexivity.
Defined.

(** C5 fails as stated: the version check comes before the plugin guard,
    so a save without [overwrite] that declares a stale version of a
    plugin-owned dashboard gets the version-conflict error. *)
Lemma save_plugin_dashboard_stale_version :
  Dashboard.PluginId Examples.provisioned = "X"
  /\ fst (SaveDashboard
            (Examples.save (Examples.row 2 "nginx" 1 2 "X" 0 false false) false)
            (Examples.session Examples.store))
     = Err ErrDashboardVersionMismatch
  /\ fst (SaveDashboard
            (Examples.save (Examples.row 2 "nginx" 1 2 "X" 0 false false) false)
            (Examples.session Examples.store))
     <> Err (UpdatePluginDashboardError "X").
Proof. repeat split. discriminate. Qed.

(** C5, amended. For a stored row of the candidate's id and org with a
    non-empty plugin id: a save without [overwrite] that declares the
    stored version fails with the plugin error carrying that plugin id and
    leaves the store as it was; a save with [overwrite] succeeds, whatever
    version it declares, when no statement fails. *)
Theorem save_plugin_dashboard cmd s existing :
  quiet s -> idsInSeq (db s) ->
  0 < Dashboard.Id (Model cmd) ->
  find (byIdOrg (Model cmd)) (dashboard (db s)) = Some existing ->
  Dashboard.PluginId existing <> "" ->
  (Overwrite cmd = false ->
   Dashboard.Version (Model cmd) = Dashboard.Version existing ->
   exists s',
     SaveDashboard cmd s
     = (Err (UpdatePluginDashboardError (Dashboard.PluginId existing)), s')
     /\ db s' = db s)
  /\ (Overwrite cmd = true -> exists d s', SaveDashboard cmd s = (Ok d, s')).
Proof.
  intros Hq Hseq Hid Hf Hp. split.
  - intros Ho Hv.
    apply SaveDashboard_Err with (s1 := next s (db s)).
    rewrite saveDashboard_blocks. apply bind_Err.
    unfold GetDashboardModel.
    rewrite (checkExisting_run _ _ _ Hid (quiet_hd _ Hq)), Hf, Ho, Hv.
    rewrite Z.eqb_refl. simpl.
    destruct (String.eqb_spec (Dashboard.PluginId existing) "");
      [contradiction | reflexivity].
  - intros Ho.
    pose proof (checkExisting_run cmd (Model cmd) s Hid (quiet_hd _ Hq)) as H1.
    rewrite Hf, Ho, !andb_false_r in H1.
    pose proof (quiet_next s (db s) Hq) as Hq1.
    pose proof (checkSameTitle_run cmd
                  (Dashboard.withVersion (Dashboard.Version existing) (Model cmd))
                  _ (quiet_hd _ Hq1)) as H2.
    rewrite Ho in H2. simpl in H2.
    set (s2 := next (next s (db s)) (db s)) in *.
    assert (quiet s2) as Hq2 by now apply quiet_next.
    assert (exists dash2, checkSameTitle cmd
              (Dashboard.withVersion (Dashboard.Version existing) (Model cmd))
              (next s (db s)) = (Ok dash2, s2) /\ 0 < Dashboard.Id dash2)
      as (dash2 & H2' & Hpos).
    { destruct (find (bySlug _) _) as [sameTitle|] eqn:Hs.
      - destruct (Z.eqb_spec (Dashboard.Id (Model cmd)) (Dashboard.Id sameTitle));
          simpl in H2; eexists; (split; [exact H2|]); simpl; [assumption|].
        apply find_some in Hs as [Hin _].
        apply list_elem_of_In in Hin.
        unfold idsInSeq in Hseq.
        eapply Forall_forall in Hseq; [|exact Hin]. lia.
      - eexists. split; [exact H2 | assumption]. }
    destruct (saveDashboard_update_quiet cmd s _ _ _ _ Hq2 H1 H2' Hpos)
      as (s' & Hs).
    eexists _, s'. apply SaveDashboard_Ok. exact Hs.
Qed.

Lemma save_plugin_dashboard_witness :
  (exists s',
     SaveDashboard (Examples.save Examples.provisioned false)
                   (Examples.session Examples.store)
     = (Err (UpdatePluginDashboardError "X"), s')
     /\ db s' = Examples.store)
  /\ (exists d s',
        SaveDashboard (Examples.save Examples.provisioned true)
                      (Examples.session Examples.store) = (Ok d, s')).
Proof.
  assert (quiet (Examples.session Examples.store)) as Hq by constructor.
  assert (idsInSeq Examples.store) as Hseq
    by (repeat constructor; simpl; lia).
  assert (0 < 2) as Hid by lia.
  assert (Dashboard.PluginId Examples.provisioned <> "") as Hp by discriminate.
  split.
  - apply (save_plugin_dashboard (Examples.save Examples.provisioned false)
             (Examples.session Examples.store) Examples.provisioned
             Hq Hseq Hid eq_refl Hp); reflexivity.
  - apply (save_plugin_dashboard (Examples.save Examples.provisioned true)
             (Examples.session Examples.store) Examples.provisioned
             Hq Hseq Hid eq_refl Hp); reflexivity.
Defined.

(** C1 fails as stated, in two ways.  A candidate without an id that
    declares version 5 is inserted at version 1 with a history row whose
    parent version is 5, not 0; and a candidate without an id that takes
    over the slug of a stored dashboard with [overwrite] becomes an update
    of that row, which ends at version 4, not 1. *)
Lemma save_new_dashboard_counterexample :
  Dashboard.Id Examples.imported = 0
  /\ (exists d, fst (SaveDashboard (Examples.save Examples.imported false)
                       (Examples.session Examples.emptyStore)) = Ok d)
  /\ DashboardVersion.ParentVersion <$>
       dashboard_version (db (snd (SaveDashboard
                                     (Examples.save Examples.imported false)
                                     (Examples.session Examples.emptyStore))))
     = [5]
  /\ Dashboard.Id Examples.takeover = 0
  /\ (exists d, fst (SaveDashboard (Examples.save Examples.takeover true)
                       (Examples.session Examples.store)) = Ok d)
  /\ Dashboard.Version <$>
       dashboard (db (snd (SaveDashboard
                             (Examples.save Examples.takeover true)
                             (Examples.session Examples.store))))
     = [4; 3].
Proof.
  split; [reflexivity|]. split; [eexists; vm_compute; reflexivity|].
  split; [reflexivity|]. split; [reflexivity|].
  split; [eexists; vm_compute; reflexivity|]. reflexivity.
Qed.

(** C1, amended. A successful save of a candidate with id 0 that does not
    take over a stored row (no row of the org has the candidate's slug, or
    [overwrite] is false) appends one canonical row, at version 1 and under
    the next id of the sequence, and one version-history row for that id
    whose version is 1 and whose parent version is the version the
    candidate declared (0 when it declares none). *)
Theorem save_new_dashboard cmd s d s' :
  Dashboard.Id (Model cmd) = 0 ->
  Overwrite cmd = false
    \/ find (bySlug (Model cmd)) (dashboard (db s)) = None ->
  SaveDashboard cmd s = (Ok d, s') ->
  Dashboard.Version d = 1
  /\ Dashboard.Id d = dashboard_seq (db s) + 1
  /\ dashboard (db s') = dashboard (db s) ++ [d]
  /\ exists dv,
       dashboard_version (db s') = dashboard_version (db s) ++ [dv]
       /\ DashboardVersion.DashboardId dv = Dashboard.Id d
       /\ DashboardVersion.Version dv = 1
       /\ DashboardVersion.ParentVersion dv = Dashboard.Version (Model cmd).
Proof.
  intros Hid Hno H. apply SaveDashboard_Ok, saveDashboard_Ok in H
    as (dash1 & dash2 & s1 & s2 & s3 & H1 & H2 & E1 & E2 & E3 & N3 & Hw).
  unfold GetDashboardModel in H1.
  rewrite checkExisting_skip in H1 by lia. injection H1 as <- <-.
  apply checkSameTitle_Ok in H2 as [_ H2].
  assert (dash2 = Model cmd) as ->.
  { destruct (find _ _) as [sameTitle|]; [|exact H2].
    destruct H2 as [[_ ->] | (_ & Ho & _)]; [reflexivity|].
    destruct Hno as [Hno|Hno]; congruence. }
  apply writeDashboard_Ok in Hw as (Hv & _ & _ & _ & _ & Hrow).
  rewrite E3 in *. simpl in Hv.
  destruct Hrow as [(_ & -> & Hrows & _) | (Hne & _)]; [|simpl in Hne; lia].
  repeat split; try assumption; try reflexivity.
  eexists. split; [exact Hv|]. repeat split.
Qed.

Lemma save_new_dashboard_witness :
  exists d s',
    SaveDashboard (Examples.save Examples.fresh false)
                  (Examples.session Examples.store) = (Ok d, s')
    /\ Dashboard.Version d = 1
    /\ Dashboard.Id d = 3
    /\ dashboard (db s') = dashboard Examples.store ++ [d]
    /\ exists dv,
         dashboard_version (db s') = [dv]
         /\ DashboardVersion.DashboardId dv = Dashboard.Id d
         /\ DashboardVersion.Version dv = 1
         /\ DashboardVersion.ParentVersion dv = 0.
Proof.
  eexists _, _. split; [vm_compute; reflexivity|].
  eapply (save_new_dashboard (Examples.save Examples.fresh false)
            (Examples.session Examples.store) _ _ eq_refl (or_introl eq_refl)).
  vm_compute. reflexivity.
Defined.

(** C3. After a successful save, on a store whose ids come from the
    sequence and whose versions are versions of a Go [int] counted from
    zero, the rows stored under the id of the result (there is one at
    least) carry in their body the [version] member equal to their version
    column, in the insert branch and in the update branch alike. *)
Theorem save_row_version_matches_body cmd s d s' :
  idsInSeq (db s) -> versionsInRange (db s) ->
  SaveDashboard cmd s = (Ok d, s') ->
  rowsWithId (Dashboard.Id d) (db s') <> []
  /\ forall r, r ∈ rowsWithId (Dashboard.Id d) (db s') ->
               Dashboard.bodyVersion r = Some (JInt (Dashboard.Version r)).
Proof.
  intros Hseq Hver H. apply SaveDashboard_Ok, saveDashboard_Ok in H
    as (dash1 & dash2 & s1 & s2 & s3 & H1 & H2 & E1 & E2 & E3 & N3 & Hw).
  apply writeDashboard_Ok in Hw as (_ & _ & _ & _ & _ & Hrow).
  rewrite E3 in Hrow.
  destruct Hrow as [(_ & Hd & Hrows & _ & _) | (Hne & Hd & Hrows & _ & Hex)].
  - (* insert *)
    assert (d ∈ dashboard (db s')) as Hin
      by (rewrite Hrows; apply elem_of_app; right; apply list_elem_of_singleton;
          reflexivity).
    split; [now apply rowsWithId_nonempty|].
    intros r Hr. apply list_elem_of_filter in Hr as [Hid Hr].
    rewrite Hrows in Hr. apply elem_of_app in Hr as [Hr|Hr].
    + unfold idsInSeq in Hseq. eapply Forall_forall in Hseq; [|exact Hr].
      rewrite Hid, Hd in Hseq. simpl in Hseq. lia.
    + apply list_elem_of_singleton in Hr. subst r. rewrite Hd.
      apply insertedBean_bodyVersion.
  - (* update *)
    simpl in Hne, Hrows, Hex.
    assert (Dashboard.Id d = Dashboard.Id dash2) as Hid by now rewrite Hd.
    assert (exists r1, r1 ∈ dashboard (db s)
                       /\ Dashboard.Id r1 = Dashboard.Id dash2) as (r1 & Hr1 & Hid1).
    { unfold rowsWithId in Hex.
      destruct (filter _ _) as [|r1 rest] eqn:Hfil; [contradiction|].
      assert (r1 ∈ filter (fun r => Dashboard.Id r = Dashboard.Id dash2)
                          (dashboard (db s))) as Hr1
        by (rewrite Hfil; apply list_elem_of_here).
      apply list_elem_of_filter in Hr1 as [? ?]. eauto. }
    assert (0 < Dashboard.Id dash2) as Hpos.
    { unfold idsInSeq in Hseq. eapply Forall_forall in Hseq; [|exact Hr1]. lia. }
    destruct (resolved_row _ _ _ _ _ _ H1 H2 Hpos) as (r0 & Hr0 & _ & Hv0).
    assert (Dashboard.Version d <> 0) as Hvd.
    { rewrite Hd. simpl. apply wrap64_succ_nonzero. rewrite <- Hv0.
      unfold versionsInRange in Hver.
      eapply Forall_forall in Hver; [exact Hver | exact Hr0]. }
    assert (Dashboard.bodyVersion d = Some (JInt (Dashboard.Version d))) as Hbd
      by (rewrite Hd; apply updatedBean_bodyVersion).
    split.
    + rewrite Hid, <- Hid1, <- (updateRow_Id (Dashboard.Id dash2) d r1).
      apply rowsWithId_nonempty. rewrite Hrows.
      apply list_elem_of_fmap. eauto.
    + intros r Hr. apply list_elem_of_filter in Hr as [Hidr Hr].
      rewrite Hrows in Hr. apply list_elem_of_fmap in Hr as (r2 & -> & Hr2).
      rewrite updateRow_Id, Hid in Hidr. rewrite <- Hidr, updateRow_hit.
      now apply updateCols_bodyVersion.
Qed.

Lemma save_row_version_matches_body_witness :
  exists d s',
    SaveDashboard (Examples.save Examples.home false)
                  (Examples.session Examples.store) = (Ok d, s')
    /\ rowsWithId (Dashboard.Id d) (db s') <> []
    /\ forall r, r ∈ rowsWithId (Dashboard.Id d) (db s') ->
                 Dashboard.bodyVersion r = Some (JInt (Dashboard.Version r)).
Proof.
  eexists _, _. split; [vm_compute; reflexivity|].
  eapply (save_row_version_matches_body (Examples.save Examples.home false)
            (Examples.session Examples.store)).
  - repeat constructor; simpl; lia.
  - repeat constructor; simpl; unfold MaxInt64; lia.
  - vm_compute. reflexivity.
Defined.

(** One save of a stored dashboard under its own id. *)
Lemma save_existing_step cmd s d s' r0 :
  uniqueIds (db s) -> idsInSeq (db s) ->
  r0 ∈ dashboard (db s) ->
  Dashboard.Id (Model cmd) = Dashboard.Id r0 ->
  0 <= Dashboard.Version r0 < MaxInt64 ->
  SaveDashboard cmd s = (Ok d, s') ->
  Dashboard.Id d = Dashboard.Id r0 ->
  Dashboard.Version d = Dashboard.Version r0 + 1
  /\ dashboard (db s') = Xorm.updateRow (Dashboard.Id r0) d <$> dashboard (db s)
  /\ dashboard_seq (db s') = dashboard_seq (db s)
  /\ dashboard_version (db s')
     = dashboard_version (db s) ++ [historyRow cmd (Dashboard.Version r0) (now s) d].
Proof.
  intros Huniq Hseq Hr0 Hcand Hv H Hd.
  apply SaveDashboard_Ok, saveDashboard_Ok in H
    as (dash1 & dash2 & s1 & s2 & s3 & H1 & H2 & E1 & E2 & E3 & N3 & Hw).
  assert (0 < Dashboard.Id r0) as Hpos.
  { unfold idsInSeq in Hseq. eapply Forall_forall in Hseq; [|exact Hr0]. lia. }
  apply writeDashboard_Ok in Hw as (Hhist & _ & _ & _ & _ & Hrow).
  rewrite E3, N3 in *. simpl in Hhist, Hrow.
  destruct Hrow as [(Hz & _) | (_ & Hdd & Hrows & Hsq & _)].
  - (* the insert branch would need a stored row of id 0 *)
    exfalso.
    pose proof H2 as H2'. apply checkSameTitle_Ok in H2' as [_ H2'].
    rewrite E1 in H2'.
    assert (Dashboard.Id dash1 = Dashboard.Id r0) as Hid1.
    { unfold GetDashboardModel in H1. apply checkExisting_Ok in H1
        as [(_ & -> & _) | (_ & _ & ? & _ & -> & _)]; simpl; exact Hcand. }
    destruct (find _ _) as [sameTitle|] eqn:Hf.
    + destruct H2' as [[_ ->] | (_ & _ & ->)]; [lia|]. simpl in Hz.
      apply find_some in Hf as [Hin _]. apply list_elem_of_In in Hin.
      unfold idsInSeq in Hseq. eapply Forall_forall in Hseq; [|exact Hin]. lia.
    + subst dash2. lia.
  - assert (Dashboard.Id dash2 = Dashboard.Id r0) as Hid2
      by (rewrite <- Hd, Hdd; reflexivity).
    destruct (resolved_row _ _ _ _ _ _ H1 H2) as (r & Hr & Hidr & Hvr); [lia|].
    assert (r = r0) as ->
      by (apply (uniqueIds_eq (dashboard (db s))); auto; congruence).
    rewrite Hid2 in Hrows. rewrite <- Hvr in Hhist.
    repeat split; try assumption.
    rewrite Hdd. simpl. rewrite <- Hvr. now apply wrap64_succ.
Qed.

(** C2. Successful saves, one after the other, of the id of a stored
    dashboard, none of which takes over another row (every result keeps the
    id): the k-th save returns version V+k+1 and appends one history row
    for the id, with parent version V+k (the version before that save) and
    version V+k+1; after all of them the canonical row of the id is at
    version V plus the number of saves.  V is the stored version at the
    start; the versions stay below the largest Go [int]. *)
Theorem saves_increment_version cmds : forall s ds s' r0,
  uniqueIds (db s) -> idsInSeq (db s) ->
  r0 ∈ dashboard (db s) ->
  0 <= Dashboard.Version r0 ->
  Dashboard.Version r0 + Z.of_nat (length cmds) <= MaxInt64 ->
  Forall (fun cmd => Dashboard.Id (Model cmd) = Dashboard.Id r0) cmds ->
  saveAll cmds s = (Ok ds, s') ->
  Forall (fun d => Dashboard.Id d = Dashboard.Id r0) ds ->
  length ds = length cmds
  /\ (forall (k : nat) d, ds !! k = Some d ->
        Dashboard.Version d = Dashboard.Version r0 + Z.of_nat k + 1)
  /\ (exists r', rowsWithId (Dashboard.Id r0) (db s') = [r']
                 /\ Dashboard.Version r'
                    = Dashboard.Version r0 + Z.of_nat (length cmds))
  /\ exists hist,
       dashboard_version (db s') = dashboard_version (db s) ++ hist
       /\ length hist = length cmds
       /\ forall (k : nat) dv, hist !! k = Some dv ->
            DashboardVersion.DashboardId dv = Dashboard.Id r0
            /\ DashboardVersion.ParentVersion dv = Dashboard.Version r0 + Z.of_nat k
            /\ DashboardVersion.Version dv = Dashboard.Version r0 + Z.of_nat k + 1.
Proof.
  induction cmds as [|cmd cmds IH]; intros s ds s' r0 Huniq Hseq Hr0 Hv0 Hmax Hc H Hds.
  - injection H as <- <-. split; [reflexivity|].
    split; [intros k d Hk; discriminate|].
    split.
    + exists r0. split; [now apply rowsWithId_unique | simpl; lia].
    + exists []. rewrite app_nil_r. split; [reflexivity|].
      split; [reflexivity|]. intros k dv Hk. discriminate.
  - simpl in H, Hmax.
    apply bind_Ok_inv in H as (d & s1 & Hsave & H).
    apply bind_Ok_inv in H as (ds1 & s2 & Hrest & H).
    injection H as <- <-.
    apply Forall_cons in Hc as [Hcmd Hc]. apply Forall_cons in Hds as [Hd Hds].
    destruct (save_existing_step cmd s d s1 r0 Huniq Hseq Hr0 Hcmd ltac:(lia) Hsave Hd)
      as (Hvd & Hrows & Hsq & Hhist).
    set (r1 := Xorm.updateCols d r0).
    assert (r1 ∈ dashboard (db s1)) as Hr1.
    { unfold r1. rewrite Hrows, <- (updateRow_hit d r0).
      now apply list_elem_of_fmap_2. }
    assert (Dashboard.Id r1 = Dashboard.Id r0) as Hid1 by reflexivity.
    assert (Dashboard.Version r1 = Dashboard.Version r0 + 1) as Hv1.
    { unfold r1. simpl.
      destruct (Z.eqb_spec (Dashboard.Version d) 0); lia. }
    destruct (IH s1 ds1 s2 r1) as (Hlen & Hres & (r' & Hrow' & Hv') & hist & Hh & Hhl & Hhk).
    { eapply uniqueIds_update; eauto. }
    { eapply idsInSeq_update; eauto. }
    { exact Hr1. }
    { lia. }
    { lia. }
    { now rewrite Hid1. }
    { exact Hrest. }
    { now rewrite Hid1. }
    rewrite Hid1 in *. rewrite Hv1 in *.
    split; [simpl; now rewrite Hlen|].
    split.
    { intros [|k] d' Hk; simpl in Hk.
      - injection Hk as <-. simpl. lia.
      - apply Hres in Hk. lia. }
    split.
    { exists r'. split; [exact Hrow' | simpl length; lia]. }
    exists (historyRow cmd (Dashboard.Version r0) (now s) d :: hist).
    split; [rewrite Hh, Hhist, <- app_assoc; reflexivity|].
    split; [simpl; now rewrite Hhl|].
    intros [|k] dv Hk; simpl in Hk.
    + injection Hk as <-. simpl. repeat split; lia.
    + apply Hhk in Hk as (? & ? & ?). repeat split; lia.
Qed.

Lemma saves_increment_version_witness :
  exists ds s',
    saveAll [Examples.save Examples.home false;
             Examples.save (Examples.row 1 "home" 1 4 "" 0 false false) false]
            (Examples.session Examples.store) = (Ok ds, s')
    /\ (Dashboard.Version <$> ds) = [4; 5]
    /\ (exists r', rowsWithId 1 (db s') = [r'] /\ Dashboard.Version r' = 3 + 2)
    /\ exists hist,
         dashboard_version (db s') = hist
         /\ length hist = 2%nat
         /\ forall (k : nat) dv, hist !! k = Some dv ->
              DashboardVersion.DashboardId dv = 1
              /\ DashboardVersion.ParentVersion dv = 3 + Z.of_nat k
              /\ DashboardVersion.Version dv = 3 + Z.of_nat k + 1.
Proof.
  eexists _, _. split; [vm_compute; reflexivity|].
  split; [reflexivity|].
  eapply (saves_increment_version
            [Examples.save Examples.home false;
             Examples.save (Examples.row 1 "home" 1 4 "" 0 false false) false]
            (Examples.session Examples.store) _ _ Examples.home).
  - unfold uniqueIds. compute_done.
  - repeat constructor; simpl; lia.
  - apply list_elem_of_here.
  - simpl. lia.
  - simpl. unfold MaxInt64. lia.
  - repeat constructor.
  - vm_compute. reflexivity.
  - repeat constructor.
Defined.

Lemma checkExisting_passes cmd s :
  quiet s -> passesIdChecks cmd (db s) ->
  exists dash1 s1,
    checkExisting cmd (Model cmd) s = (Ok dash1, s1)
    /\ quiet s1 /\ db s1 = db s
    /\ Dashboard.Id dash1 = Dashboard.Id (Model cmd)
    /\ Dashboard.OrgId dash1 = Dashboard.OrgId (Model cmd)
    /\ Dashboard.Slug dash1 = Dashboard.Slug (Model cmd).
Proof.
  intros Hq Hpass.
  destruct (Z_le_gt_dec (Dashboard.Id (Model cmd)) 0) as [Hle|Hgt].
  { exists (Model cmd), s. rewrite checkExisting_skip by exact Hle.
    repeat split; auto. }
  destruct Hpass as [Hle | (existing & Hf & Hcond)]; [lia|].
  exists (Dashboard.withVersion (Dashboard.Version existing) (Model cmd)),
         (next s (db s)).
  rewrite checkExisting_run by (try apply quiet_hd; auto; lia).
  rewrite Hf. split; [|repeat split; auto using quiet_next].
  destruct (Overwrite cmd).
  - now rewrite !andb_false_r.
  - destruct Hcond as [-> ->]; [reflexivity|].
    now rewrite Z.eqb_refl.
Qed.

(** C6 fails as stated: the checks on the candidate's own id come first.
    A save without [overwrite] of stored dashboard 1 under the slug of
    dashboard 2 with a stale version gets the version-conflict error, and
    a candidate whose id is not stored gets the not-found error, with or
    without [overwrite]. *)
Lemma save_slug_collision_counterexample :
  Examples.provisioned ∈ dashboard Examples.store
  /\ fst (SaveDashboard
            (Examples.save (Examples.row 1 "nginx" 1 2 "" 0 false false) false)
            (Examples.session Examples.store))
     = Err ErrDashboardVersionMismatch
  /\ fst (SaveDashboard
            (Examples.save (Examples.row 7 "nginx" 1 3 "" 0 false false) false)
            (Examples.session Examples.store))
     = Err ErrDashboardNotFound
  /\ fst (SaveDashboard
            (Examples.save (Examples.row 7 "nginx" 1 3 "" 0 false false) true)
            (Examples.session Examples.store))
     = Err ErrDashboardNotFound.
Proof.
  split; [apply list_elem_of_further, list_elem_of_here|].
  repeat split.
Qed.

(** C6, amended. On a store that respects the primary key, the sequence
    and the unique index on org and slug, take a candidate that gets
    through the checks on its own id and whose slug is held, in its org, by
    a stored row [st] of another id.  Without [overwrite] the save fails
    with the same-name error and the store is as before.  With [overwrite]
    (and no failing statement) the save succeeds as an update of [st]: the
    result has the id of [st] and the version after that of [st], the
    history row has the version of [st] as parent, no row is added, and
    exactly one row of the org has the slug afterwards. *)
Theorem save_slug_collision cmd s st :
  quiet s -> uniqueIds (db s) -> idsInSeq (db s) -> uniqueSlugs (db s) ->
  st ∈ dashboard (db s) ->
  Dashboard.OrgId st = Dashboard.OrgId (Model cmd) ->
  Dashboard.Slug st = Dashboard.Slug (Model cmd) ->
  Dashboard.Id st <> Dashboard.Id (Model cmd) ->
  passesIdChecks cmd (db s) ->
  (Overwrite cmd = false ->
   exists s', SaveDashboard cmd s = (Err ErrDashboardWithSameNameExists, s')
              /\ db s' = db s)
  /\ (Overwrite cmd = true ->
      exists d s',
        SaveDashboard cmd s = (Ok d, s')
        /\ Dashboard.Id d = Dashboard.Id st
        /\ Dashboard.Version d = wrap64 (Dashboard.Version st + 1)
        /\ dashboard (db s') = Xorm.updateRow (Dashboard.Id st) d <$> dashboard (db s)
        /\ rowsWithSlug (Dashboard.OrgId (Model cmd)) (Dashboard.Slug (Model cmd)) (db s')
           = [Xorm.updateCols d st]
        /\ dashboard_version (db s')
           = dashboard_version (db s) ++ [historyRow cmd (Dashboard.Version st) (now s) d]).
Proof.
  intros Hq Huniq Hseq Hslugs Hst Horg Hslug Hne Hpass.
  destruct (checkExisting_passes cmd s Hq Hpass)
    as (dash1 & s1 & H1 & Hq1 & E1 & Hid1 & Horg1 & Hslug1).
  assert (find (bySlug dash1) (dashboard (db s1)) = Some st) as Hf
    by (rewrite E1; apply find_bySlug_unique; auto; congruence).
  pose proof (checkSameTitle_run cmd dash1 s1 (quiet_hd _ Hq1)) as H2.
  rewrite Hf, Hid1 in H2.
  destruct (Z.eqb_spec (Dashboard.Id (Model cmd)) (Dashboard.Id st)) as [E|_];
    [congruence|]. simpl in H2.
  split; intros Ho; rewrite Ho in H2.
  - apply SaveDashboard_Err with (s1 := next s1 (db s1)).
    rewrite saveDashboard_blocks. unfold GetDashboardModel.
    rewrite (bind_Ok _ _ _ _ _ H1). now apply bind_Err.
  - set (dash2 := Dashboard.withVersion _ _) in H2.
    assert (0 < Dashboard.Id st) as Hpos.
    { unfold idsInSeq in Hseq. eapply Forall_forall in Hseq; [|exact Hst]. lia. }
    destruct (saveDashboard_update_quiet cmd s dash1 dash2 s1 (next s1 (db s1)))
      as (s' & Hsave); auto using quiet_next.
    set (d := updatedBean _) in Hsave.
    exists d, s'. split; [now apply SaveDashboard_Ok|].
    pose proof Hsave as Hinv. apply saveDashboard_Ok in Hinv
      as (dash1' & dash2' & s1' & s2' & s3 & H1' & H2' & _ & _ & E3 & N3 & Hw).
    unfold GetDashboardModel in H1'. rewrite H1 in H1'. injection H1' as <- <-.
    rewrite H2 in H2'. injection H2' as <- <-.
    apply writeDashboard_Ok in Hw as (Hhist & _ & _ & _ & _ & Hrow).
    rewrite E3, N3 in *. simpl in Hhist, Hrow.
    destruct Hrow as [(Hz & _) | (_ & _ & Hrows & _ & _)]; [lia|].
    assert (Dashboard.OrgId (Xorm.updateCols d st) = Dashboard.OrgId st) as Ho'.
    { simpl. rewrite Horg1, <- Horg. now destruct (_ =? 0). }
    assert (Dashboard.Slug (Xorm.updateCols d st) = Dashboard.Slug st) as Hs'.
    { simpl. rewrite Hslug1, <- Hslug. now destruct (String.eqb _ ""). }
    repeat split; try assumption.
    rewrite <- Horg, <- Hslug.
    now apply (rowsWithSlug_update (db s)).
Qed.

Lemma save_slug_collision_witness :
  (exists s',
     SaveDashboard (Examples.save Examples.takeover false)
                   (Examples.session Examples.store)
     = (Err ErrDashboardWithSameNameExists, s')
     /\ db s' = Examples.store)
  /\ (exists d s',
        SaveDashboard (Examples.save Examples.takeover true)
                      (Examples.session Examples.store) = (Ok d, s')
        /\ Dashboard.Id d = 1
        /\ Dashboard.Version d = wrap64 (3 + 1)
        /\ dashboard (db s') = Xorm.updateRow 1 d <$> dashboard Examples.store
        /\ rowsWithSlug 1 "home" (db s') = [Xorm.updateCols d Examples.home]
        /\ dashboard_version (db s')
           = [historyRow (Examples.save Examples.takeover true) 3 1500000000 d]).
Proof.
  assert (quiet (Examples.session Examples.store)) as Hq by constructor.
  assert (uniqueIds Examples.store) as Huniq by (unfold uniqueIds; compute_done).
  assert (idsInSeq Examples.store) as Hseq by (repeat constructor; simpl; lia).
  assert (uniqueSlugs Examples.store) as Hslugs
    by (unfold uniqueSlugs; compute_done).
  assert (Examples.home ∈ dashboard Examples.store) as Hst
    by apply list_elem_of_here.
  assert (Dashboard.Id Examples.home <> Dashboard.Id Examples.takeover) as Hne
    by discriminate.
  split.
  - apply (save_slug_collision (Examples.save Examples.takeover false)
             (Examples.session Examples.store) Examples.home
             Hq Huniq Hseq Hslugs Hst eq_refl eq_refl Hne).
    + left. simpl. lia.
    + reflexivity.
  - apply (save_slug_collision (Examples.save Examples.takeover true)
             (Examples.session Examples.store) Examples.home
             Hq Huniq Hseq Hslugs Hst eq_refl eq_refl Hne).
    + left. simpl. lia.
    + reflexivity.
Defined.

End SaveFacts.

(** ** The ACL flag *)

Section AclFacts.
Import SaveDashboardCommand Sqlstore.

(** What [setHasAcl] computes, on every store: the flag the candidate came
    with, or the flag of the first stored row whose [folder_id] is the
    candidate's [FolderId], or the presence of ACL rows for a positive id. *)
Lemma setHasAcl_spec dash s dash' s' :
  setHasAcl dash s = (Ok dash', s') ->
  Dashboard.HasAcl dash' = derivedHasAcl dash (db s).
Proof. intros H. now apply setHasAcl_Ok in H as (-> & _ & _). Qed.

(** C7 (evaluated at the failing input). The lookup of the parent selects
    on [folder_id], not on [id]: it returns a row that lies in the same
    folder as the candidate, never the folder itself.  A candidate filed
    under a stored folder whose [hasAcl] is true is persisted with
    [hasAcl = false]; and a candidate filed under a folder whose [hasAcl]
    is false, with no ACL row of its own, is persisted with [hasAcl = true]
    when a dashboard already in that folder carries the flag. *)
Theorem setHasAcl_reads_sibling_not_parent :
  (Examples.folder ∈ dashboard Examples.folderStore
   /\ Dashboard.Id Examples.folder = Dashboard.FolderId Examples.intoFolder
   /\ Dashboard.HasAcl Examples.folder = true
   /\ Dashboard.HasAcl Examples.intoFolder = false
   /\ fst (setHasAcl Examples.intoFolder (Examples.session Examples.folderStore))
      = Ok Examples.intoFolder
   /\ Dashboard.HasAcl <$>
        dashboard (db (snd (SaveDashboard (Examples.save Examples.intoFolder false)
                              (Examples.session Examples.folderStore))))
      = [true; false])
  /\ (Examples.openFolder ∈ dashboard Examples.siblingStore
      /\ Dashboard.Id Examples.openFolder = Dashboard.FolderId Examples.intoFolder
      /\ Dashboard.HasAcl Examples.openFolder = false
      /\ dashboard_acl Examples.siblingStore = []
      /\ Dashboard.HasAcl <$>
           dashboard (db (snd (SaveDashboard (Examples.save Examples.intoFolder false)
                                 (Examples.session Examples.siblingStore))))
         = [false; true; true]).
Proof.
  split.
  - split; [apply list_elem_of_here|]. repeat split.
  - split; [apply list_elem_of_here|]. repeat split.
Qed.

End AclFacts.

(** ** Deleting *)

Section DeleteFacts.
Import Sqlstore.

Lemma firstFault_0 msg s : firstFault 0 msg s -> hd None (faults s) = Some msg.
Proof.
  intros [_ H]. destruct (faults s) as [|f fs]; [discriminate|].
  simpl in *. congruence.
Qed.

Lemma firstFault_S k msg s d :
  firstFault (S k) msg s ->
  hd None (faults s) = None /\ firstFault k msg (next s d).
Proof.
  intros [Hq H]. split; [now apply (quietFor_S_hd k)|].
  split; [now apply quietFor_S_next|].
  unfold next. simpl. destruct (faults s); [discriminate | exact H].
Qed.

Lemma execAll_quiet sqls id s :
  quietFor (length sqls) s -> exists s', execAll sqls id s = (Ok tt, s').
Proof.
  revert s. induction sqls as [|sql sqls IH]; intros s Hq; simpl.
  - unfold ret. eauto.
  - unfold bind, Xorm.Exec.
    rewrite (stmt_quiet _ _ (quietFor_S_hd _ _ Hq)). simpl.
    apply IH. now apply quietFor_S_next.
Qed.

Lemma execAll_fault sqls id : forall k msg s,
  (k < length sqls)%nat -> firstFault k msg s ->
  exists s', execAll sqls id s = (Err (ErrDatabase msg), s').
Proof.
  induction sqls as [|sql sqls IH]; intros k msg s Hk Hf; simpl in *; [lia|].
  unfold bind, Xorm.Exec. destruct k as [|k].
  - rewrite (stmt_fault _ _ _ (firstFault_0 _ _ Hf)). eauto.
  - eapply firstFault_S in Hf as [Hhd Hf].
    rewrite (stmt_quiet _ _ Hhd). simpl.
    apply (IH k msg); [lia | exact Hf].
Qed.

(** What the six statements have removed when all of them succeed: the
    rows of the id and the rows filed under it, and the tags and the
    version history of the id itself. *)
Lemma execAll_deletes_Ok id s u s' :
  execAll deletes id s = (Ok u, s') ->
  rowsWithId id (db s') = [] /\ childrenOf id (db s') = []
  /\ tagsOf id (db s') = [] /\ versionsOf id (db s') = []
  /\ dashboard_tag (db s')
     = filter (fun t => DashboardTag.DashboardId t ≠ id) (dashboard_tag (db s))
  /\ dashboard_version (db s')
     = filter (fun v => DashboardVersion.DashboardId v ≠ id)
              (dashboard_version (db s)).
Proof.
  intros H. unfold deletes in H. simpl in H.
  repeat (apply bind_Ok_inv in H as (? & ? & Hs & H);
          apply stmt_Ok_inv in Hs as (_ & _ & ->)).
  injection H as <- <-. simpl.
  unfold rowsWithId, childrenOf, tagsOf, versionsOf. simpl.
  repeat split;
    apply elem_of_nil_inv; intros y Hy;
    repeat (apply list_elem_of_filter in Hy as [? Hy]); contradiction.
Qed.

(** C8 (evaluated at the failing input). Deleting a folder that holds one
    dashboard succeeds and removes the folder and the dashboard, but the
    tag row and the version-history row of the dashboard it held are still
    stored afterwards: the statements that delete tags and versions select
    on the id of the deleted folder only. *)
Theorem delete_folder_keeps_children_tags_and_versions :
  childrenOf 1 Examples.tree = [Examples.child]
  /\ fst (DeleteDashboard Examples.noAlerts (DeleteDashboardCommand.mk 1 1)
            (Examples.session Examples.tree)) = Ok tt
  /\ dashboard (db (snd (DeleteDashboard Examples.noAlerts
                           (DeleteDashboardCommand.mk 1 1)
                           (Examples.session Examples.tree)))) = []
  /\ tagsOf 2 (db (snd (DeleteDashboard Examples.noAlerts
                          (DeleteDashboardCommand.mk 1 1)
                          (Examples.session Examples.tree))))
     = [DashboardTag.mk 2 "prod"]
  /\ versionsOf 2 (db (snd (DeleteDashboard Examples.noAlerts
                              (DeleteDashboardCommand.mk 1 1)
                              (Examples.session Examples.tree))))
     = [DashboardVersion.mk 2 0 0 1 1400000000 7 "" (Examples.body 1 ["prod"])].
Proof. repeat split. Qed.

(** C9. When the row of the command is stored: if the lookup and the six
    delete statements do not fail, [DeleteDashboard] returns success
    whatever the alert cleanup hook returns, an error included, and what
    is committed is the store the hook left; if one of those seven
    statements is the first to fail, [DeleteDashboard] returns that error
    and the store is the one before the call. *)
Theorem delete_swallows_hook_error
    (hook : Z -> Tx unit) cmd s (dashboard0 : Dashboard.t) :
  find (Xorm.beanCond (DeleteDashboardCommand.Id cmd)
                      (DeleteDashboardCommand.OrgId cmd))
       (dashboard (db s)) = Some dashboard0 ->
  (quietFor 7 s ->
   exists s7,
     execAll deletes (Dashboard.Id dashboard0) (next s (db s)) = (Ok tt, s7)
     /\ DeleteDashboard hook cmd s
        = (Ok tt, snd (hook (Dashboard.Id dashboard0) s7)))
  /\ (forall (k : nat) msg,
        (k <= 6)%nat -> firstFault k msg s ->
        exists s', DeleteDashboard hook cmd s = (Err (ErrDatabase msg), s')
                   /\ db s' = db s).
Proof.
  intros Hf. split.
  - intros Hq.
    destruct (execAll_quiet deletes (Dashboard.Id dashboard0) (next s (db s)))
      as (s7 & He); [now apply quietFor_S_next|].
    exists s7. split; [exact He|].
    unfold DeleteDashboard, inTransaction, deleteDashboard.
    unfold bind at 1. unfold Xorm.Get.
    rewrite (stmt_quiet _ _ (quietFor_S_hd _ _ Hq)). simpl. rewrite Hf.
    rewrite (bind_Ok _ _ _ _ _ He).
    now destruct (hook (Dashboard.Id dashboard0) s7) as [[[]|e] s8].
  - intros k msg Hk Hfault.
    unfold DeleteDashboard, inTransaction, deleteDashboard.
    unfold bind at 1. unfold Xorm.Get. destruct k as [|k].
    + rewrite (stmt_fault _ _ _ (firstFault_0 _ _ Hfault)).
      eexists. split; reflexivity.
    + eapply firstFault_S in Hfault as [Hhd Hfault].
      rewrite (stmt_quiet _ _ Hhd). simpl. rewrite Hf.
      destruct (execAll_fault deletes (Dashboard.Id dashboard0) k msg _
                  ltac:(simpl; lia) Hfault) as (s1 & He).
      rewrite (bind_Err _ _ _ _ _ He).
      eexists. split; reflexivity.
Qed.

Lemma delete_swallows_hook_error_witness :
  (exists s',
     DeleteDashboard Examples.brokenAlerts (DeleteDashboardCommand.mk 1 1)
                     (Examples.session Examples.tree) = (Ok tt, s')
     /\ rowsWithId 1 (db s') = [])
  /\ (exists s',
        DeleteDashboard Examples.noAlerts (DeleteDashboardCommand.mk 1 1)
          (mkSession Examples.tree [None; None; None; Some "disk full"] 0 0)
        = (Err (ErrDatabase "disk full"), s')
        /\ db s' = Examples.tree).
Proof.
  split.
  - destruct (proj1 (delete_swallows_hook_error Examples.brokenAlerts
                       (DeleteDashboardCommand.mk 1 1)
                       (Examples.session Examples.tree) Examples.parent eq_refl))
      as (s7 & He & Hd).
    + unfold quietFor. simpl. constructor.
    + eexists. split; [exact Hd|].
      vm_compute in He. injection He as <-. reflexivity.
  - apply (proj2 (delete_swallows_hook_error Examples.noAlerts
                    (DeleteDashboardCommand.mk 1 1)
                    (mkSession Examples.tree [None; None; None; Some "disk full"] 0 0)
                    Examples.parent eq_refl) 3%nat "disk full").
    + lia.
    + split; [|reflexivity]. unfold quietFor. simpl. repeat constructor.
Defined.

End DeleteFacts.

(** ** More on the evaluators *)

Section EvaluatorMore.
Import Conditions Evaluators.
Variable float64 : Type.
Variable Float64 : string -> float64.
Variable lt : float64 -> float64 -> bool.


(** [inSlice] is membership in the slice. *)
Theorem inSlice_elem_of a (l : list string) : inSlice a l = true <-> a ∈ l.
Proof.
  induction l as [|b l IH]; cbn [inSlice].
  - split; [discriminate | intros H; now apply not_elem_of_nil in H].
  - destruct (String.eqb_spec b a) as [->|Hne].
    + split; [intros _; apply list_elem_of_here | intros _; reflexivity].
    + rewrite IH. split; [apply list_elem_of_further|].
      intros H. apply elem_of_cons in H as [->|H]; [contradiction | exact H].
Qed.

Lemma types_disjoint typ :
  inSlice typ defaultTypes = true -> inSlice typ rangedTypes = true -> False.
Proof.
  rewrite !inSlice_elem_of. unfold defaultTypes, rangedTypes.
  rewrite !elem_of_cons, !elem_of_nil.
  intros [->|[->|[]]] [H|[H|[]]]; discriminate.
Qed.

Local Arguments inSlice : simpl never.
Local Arguments String.eqb : simpl never.

(** A model whose [type] is missing, empty or not a string is refused with
    "Evaluator missing type property", whatever its parameters are, and no
    other model gets that answer. *)
Theorem NewAlertEvaluator_missing_type model :
  MustString (Get "type" model) = ""
  <-> NewAlertEvaluator Float64 model
      = Fails {| Reason := "Evaluator missing type property" |}.
Proof.
  unfold NewAlertEvaluator.
  destruct (String.eqb_spec (MustString (Get "type" model)) "") as [E|E].
  - split; auto.
  - split; [contradiction|]. intros H. exfalso.
    destruct (MustArray (Get "params" model)) as [|p0 ps]; simpl in H;
      [discriminate|].
    unfold index in H. simpl in H.
    destruct (asNumber p0); [|discriminate].
    destruct (inSlice _ defaultTypes); [discriminate|].
    destruct (inSlice _ rangedTypes); [|discriminate].
    destruct ps as [|p1 ps]; simpl in H; [discriminate|].
    destruct (asNumber p1); discriminate.
Qed.

(** [NewAlertEvaluator] panics exactly on the models with a ranged type and
    a [params] array made of one number: every other model gets an
    evaluator or a [ValidationError]. *)
Theorem NewAlertEvaluator_panics_iff model :
  panics (NewAlertEvaluator Float64 model) = true
  <-> inSlice (MustString (Get "type" model)) rangedTypes = true
      /\ exists lit, MustArray (Get "params" model) = [JNumber lit].
Proof.
  unfold NewAlertEvaluator.
  set (typ := MustString (Get "type" model)).
  set (params := MustArray (Get "params" model)).
  destruct (String.eqb_spec typ "") as [E|E].
  { rewrite E. simpl. split; [discriminate | intros [H _]; discriminate]. }
  destruct params as [|p0 ps]; simpl.
  { split; [discriminate | intros (_ & lit & H); discriminate]. }
  unfold index. simpl.
  destruct p0 as [| | lit | | | |]; simpl;
    try (split; [discriminate | intros (_ & l & H); discriminate]).
  destruct (inSlice typ defaultTypes) eqn:Hd; simpl.
  { split; [discriminate|]. intros (Hr & _). exfalso.
    exact (types_disjoint typ Hd Hr). }
  destruct (inSlice typ rangedTypes) eqn:Hr; simpl;
    [|split; [discriminate | intros (H & _); discriminate]].
  destruct ps as [|p1 ps]; simpl.
  - split; eauto.
  - split; [|intros (_ & l & H); discriminate].
    destruct (asNumber p1); discriminate.
Qed.

(** Every evaluator [NewAlertEvaluator] returns carries the type of the
    model, one of the four known ones, in the struct that evaluates that
    type, with the leading parameters of the model as its numbers. *)
Theorem NewAlertEvaluator_returns model e :
  NewAlertEvaluator Float64 model = Returns e ->
  typeOf e = MustString (Get "type" model)
  /\ ((typeOf e ∈ defaultTypes
       /\ exists lit rest,
            MustArray (Get "params" model) = JNumber lit :: rest
            /\ e = DefaultAlertEvaluator (typeOf e) (Float64 lit))
      \/ (typeOf e ∈ rangedTypes
          /\ exists lo hi rest,
               MustArray (Get "params" model) = JNumber lo :: JNumber hi :: rest
               /\ e = RangedAlertEvaluator (typeOf e) (Float64 lo) (Float64 hi))).
Proof.
  unfold NewAlertEvaluator.
  set (typ := MustString (Get "type" model)).
  set (params := MustArray (Get "params" model)).
  destruct (String.eqb typ ""); [discriminate|].
  destruct params as [|p0 ps]; simpl; [discriminate|].
  unfold index. simpl.
  destruct p0 as [| | lit | | | |]; simpl; try discriminate.
  destruct (inSlice typ defaultTypes) eqn:Hd.
  { intros [= <-]. simpl. split; [reflexivity|]. left.
    split; [now apply inSlice_elem_of | eauto]. }
  destruct (inSlice typ rangedTypes) eqn:Hr; [|discriminate].
  destruct ps as [|p1 ps]; simpl; [discriminate|].
  destruct p1 as [| | hi | | | |]; simpl; try discriminate.
  intros [= <-]. simpl. split; [reflexivity|]. right.
  split; [now apply inSlice_elem_of | eauto 6].
Qed.

(** The two bounds of a ranged evaluator can be given in either order. *)
Theorem Eval_ranged_bounds_swap typ lower upper reducedValue :
  Eval lt (RangedAlertEvaluator typ lower upper) reducedValue
  = Eval lt (RangedAlertEvaluator typ upper lower) reducedValue.
Proof.
  simpl. destruct (String.eqb typ "within_range"); [apply orb_comm|].
  destruct (String.eqb typ "outside_range"); [|reflexivity].
  rewrite (andb_comm (lt upper reducedValue)), (andb_comm (lt reducedValue upper)).
  reflexivity.
Qed.

(** On a comparison in which [a < b] excludes [b < a], a value is never
    both within and outside a range, and never both above and below a
    threshold. *)
Theorem Eval_exclusive lower upper threshold reducedValue :
  (forall a b, lt a b = true -> lt b a = false) ->
  (Eval lt (RangedAlertEvaluator "within_range" lower upper) reducedValue
   && Eval lt (RangedAlertEvaluator "outside_range" lower upper) reducedValue
   = false)
  /\ (Eval lt (DefaultAlertEvaluator "gt" threshold) reducedValue
      && Eval lt (DefaultAlertEvaluator "lt" threshold) reducedValue
      = false).
Proof.
  intros Hasym. simpl. split.
  - destruct (lt lower reducedValue) eqn:E1, (lt reducedValue upper) eqn:E2,
             (lt upper reducedValue) eqn:E3, (lt reducedValue lower) eqn:E4;
      simpl; try reflexivity;
      try (apply Hasym in E1; congruence);
      try (apply Hasym in E2; congruence).
  - destruct (lt threshold reducedValue) eqn:E1; [|reflexivity].
    apply Hasym in E1. now rewrite E1.
Qed.

(** A value that equals one of the bounds is neither within nor outside the
    range, on a comparison in which no value is below itself. *)
Theorem Eval_at_bound lower upper :
  (forall a, lt a a = false) ->
  Eval lt (RangedAlertEvaluator "within_range" lower upper) lower = false
  /\ Eval lt (RangedAlertEvaluator "outside_range" lower upper) lower = false
  /\ Eval lt (RangedAlertEvaluator "within_range" lower upper) upper = false
  /\ Eval lt (RangedAlertEvaluator "outside_range" lower upper) upper = false.
Proof.
  intros Hirr. simpl. rewrite !Hirr, !andb_false_r, !andb_false_l.
  repeat split; reflexivity.
Qed.

End EvaluatorMore.

Lemma NewAlertEvaluator_returns_witness :
  Evaluators.typeOf (Conditions.RangedAlertEvaluator "outside_range" "1" "9")
  = MustString (Get "type" (Conditions.evaluatorModel "outside_range"
                              [JNumber "1"; JNumber "9"; JString "spare"]))
  /\ (("outside_range" ∈ Conditions.defaultTypes
       /\ exists lit rest,
            MustArray (Get "params" (Conditions.evaluatorModel "outside_range"
                                       [JNumber "1"; JNumber "9"; JString "spare"]))
            = JNumber lit :: rest
            /\ Conditions.RangedAlertEvaluator "outside_range" "1" "9"
               = Conditions.DefaultAlertEvaluator "outside_range" lit)
      \/ ("outside_range" ∈ Conditions.rangedTypes
          /\ exists lo hi rest,
               MustArray (Get "params" (Conditions.evaluatorModel "outside_range"
                                          [JNumber "1"; JNumber "9"; JString "spare"]))
               = JNumber lo :: JNumber hi :: rest
               /\ Conditions.RangedAlertEvaluator "outside_range" "1" "9"
                  = Conditions.RangedAlertEvaluator "outside_range" lo hi)).
Proof.
  apply (NewAlertEvaluator_returns string (fun lit => lit)
           (Conditions.evaluatorModel "outside_range"
              [JNumber "1"; JNumber "9"; JString "spare"])
           (Conditions.RangedAlertEvaluator "outside_range" "1" "9")).
  reflexivity.
Defined.

Lemma Eval_exclusive_witness :
  (Evaluators.Eval Z.ltb (Conditions.RangedAlertEvaluator "within_range" 1 9) 5
   && Evaluators.Eval Z.ltb (Conditions.RangedAlertEvaluator "outside_range" 1 9) 5
   = false)
  /\ (Evaluators.Eval Z.ltb (Conditions.DefaultAlertEvaluator "gt" 3) 5
      && Evaluators.Eval Z.ltb (Conditions.DefaultAlertEvaluator "lt" 3) 5
      = false).
Proof.
  apply (Eval_exclusive Z Z.ltb 1 9 3 5).
  intros a b H. apply Z.ltb_lt in H. apply Z.ltb_ge. lia.
Defined.

Lemma Eval_at_bound_witness :
  Evaluators.Eval Z.ltb (Conditions.RangedAlertEvaluator "within_range" 1 9) 1 = false
  /\ Evaluators.Eval Z.ltb (Conditions.RangedAlertEvaluator "outside_range" 1 9) 1 = false
  /\ Evaluators.Eval Z.ltb (Conditions.RangedAlertEvaluator "within_range" 1 9) 9 = false
  /\ Evaluators.Eval Z.ltb (Conditions.RangedAlertEvaluator "outside_range" 1 9) 9 = false.
Proof.
  apply (Eval_at_bound Z Z.ltb 1 9). intros a. apply Z.ltb_irrefl.
Defined.

(** ** The schema under saves *)

Section SchemaFacts.
Import SaveDashboardCommand Sqlstore Blocks.

Lemma idsInSeq_pos d r : idsInSeq d -> r ∈ dashboard d -> 0 < Dashboard.Id r.
Proof.
  unfold idsInSeq. intros H Hr. eapply Forall_forall in H; [|exact Hr]. lia.
Qed.

Lemma find_bySlug_None (rows : list Dashboard.t) dash r :
  find (bySlug dash) rows = None -> r ∈ rows ->
  (Dashboard.OrgId r, Dashboard.Slug r)
  <> (Dashboard.OrgId dash, Dashboard.Slug dash).
Proof.
  intros Hf Hr [= Ho Hs].
  apply list_elem_of_In in Hr. eapply find_none in Hf; [|exact Hr].
  assert (bySlug dash r = true) by now apply bySlug_true. congruence.
Qed.

Lemma NoDup_fmap_eq {A B} (f : A -> B) (l : list A) x y :
  NoDup (f <$> l) -> x ∈ l -> y ∈ l -> f x = f y -> x = y.
Proof.
  induction l as [|a l IH]; intros Hnd Hx Hy E.
  - now apply not_elem_of_nil in Hx.
  - rewrite fmap_cons in Hnd. apply NoDup_cons in Hnd as [Hni Hnd].
    apply elem_of_cons in Hx as [->|Hx], Hy as [->|Hy]; auto.
    + exfalso. apply Hni. rewrite E. now apply list_elem_of_fmap_2.
    + exfalso. apply Hni. rewrite <- E. now apply list_elem_of_fmap_2.
Qed.

(** Rewriting the row of an id keeps the unique index when the key the row
    gets is held by no row of another id. *)
Lemma uniqueSlugs_updateRow (rows : list Dashboard.t) d r0 :
  NoDup (Dashboard.Id <$> rows) ->
  NoDup ((fun r => (Dashboard.OrgId r, Dashboard.Slug r)) <$> rows) ->
  r0 ∈ rows ->
  (forall r, r ∈ rows -> Dashboard.Id r <> Dashboard.Id r0 ->
     (Dashboard.OrgId r, Dashboard.Slug r)
     <> (Dashboard.OrgId (Xorm.updateCols d r0), Dashboard.Slug (Xorm.updateCols d r0))) ->
  NoDup ((fun r => (Dashboard.OrgId r, Dashboard.Slug r))
           <$> (Xorm.updateRow (Dashboard.Id r0) d <$> rows)).
Proof.
  set (key := fun r => (Dashboard.OrgId r, Dashboard.Slug r)).
  induction rows as [|x rows IH]; intros Hids Hkeys Hin Hfresh.
  - now apply not_elem_of_nil in Hin.
  - rewrite fmap_cons in Hids. rewrite fmap_cons in Hkeys.
    apply NoDup_cons in Hids as [Hni Hids].
    apply NoDup_cons in Hkeys as [Hnk Hkeys].
    rewrite !fmap_cons. apply NoDup_cons.
    assert (forall r, r ∈ rows -> Dashboard.Id r <> Dashboard.Id x) as Hother.
    { intros r Hr E. apply Hni. rewrite <- E. now apply list_elem_of_fmap_2. }
    destruct (Z.eq_dec (Dashboard.Id x) (Dashboard.Id r0)) as [E|E].
    + (* the head is the row *)
      assert (x = r0) as ->.
      { apply elem_of_cons in Hin as [->|Hin]; [reflexivity|].
        exfalso. exact (Hother r0 Hin (eq_sym E)). }
      assert (Xorm.updateRow (Dashboard.Id r0) d <$> rows = rows) as ->.
      { rewrite <- (list_fmap_id rows) at 2. apply list_fmap_ext.
        intros i r Hr. apply updateRow_miss, Hother.
        eapply list_elem_of_lookup_2, Hr. }
      rewrite updateRow_hit. split; [|exact Hkeys].
      intros Hk. apply list_elem_of_fmap in Hk as (r & Hkr & Hr).
      apply (Hfresh r); [now apply list_elem_of_further | now apply Hother | now symmetry].
    + assert (r0 ∈ rows) as Hr0.
      { apply elem_of_cons in Hin as [->|Hin]; [contradiction | exact Hin]. }
      rewrite updateRow_miss by exact E. split.
      * intros Hk. apply list_elem_of_fmap in Hk as (r' & Hkr & Hr').
        apply list_elem_of_fmap in Hr' as (r & -> & Hr).
        destruct (Z.eq_dec (Dashboard.Id r) (Dashboard.Id r0)) as [Er|Er].
        -- assert (r = r0) as -> by (apply (uniqueIds_eq rows); auto).
           rewrite updateRow_hit in Hkr.
           apply (Hfresh x); [apply list_elem_of_here | exact E | exact Hkr].
        -- rewrite updateRow_miss in Hkr by exact Er.
           apply Hnk. rewrite Hkr. now apply (list_elem_of_fmap_2 key).
      * apply IH; auto.
        intros r Hr. apply Hfresh. now apply list_elem_of_further.
Qed.

(** A successful save keeps the constraints of the schema: the primary key,
    the sequence, and the unique index on org and slug.  The lookups of
    lines 33-72 are what keeps the unique index. *)
Theorem save_keeps_schema cmd s d s' :
  uniqueIds (db s) -> idsInSeq (db s) -> seqStarted (db s) ->
  uniqueSlugs (db s) ->
  SaveDashboard cmd s = (Ok d, s') ->
  uniqueIds (db s') /\ idsInSeq (db s') /\ seqStarted (db s')
  /\ uniqueSlugs (db s').
Proof.
  intros Huniq Hseq Hstart Hslugs H.
  apply SaveDashboard_Ok, saveDashboard_Ok in H
    as (dash1 & dash2 & s1 & s2 & s3 & H1 & H2 & E1 & E2 & E3 & N3 & Hw).
  apply writeDashboard_Ok in Hw as (_ & _ & _ & _ & _ & Hrow).
  rewrite E3 in Hrow. simpl in Hrow.
  pose proof H2 as H2'. apply checkSameTitle_Ok in H2' as [_ H2']. rewrite E1 in H2'.
  assert (Dashboard.OrgId dash1 = Dashboard.OrgId (Model cmd)
          /\ Dashboard.Slug dash1 = Dashboard.Slug (Model cmd)
          /\ Dashboard.Id dash1 = Dashboard.Id (Model cmd)) as (Ho1 & Hs1 & Hi1).
  { unfold GetDashboardModel in H1. pose proof H1 as H1'.
    apply checkExisting_Ok in H1'
      as [(_ & -> & _) | (_ & _ & ? & _ & -> & _)]; auto. }
  destruct Hrow as [(Hz & Hd & Hrows & Hsq & Hmax) | (Hnz & Hd & Hrows & Hsq & Hex)].
  - (* insert *)
    assert (dash2 = dash1 /\ find (bySlug dash1) (dashboard (db s)) = None)
      as [-> Hnone].
    { destruct (find (bySlug dash1) (dashboard (db s))) as [st|] eqn:Hf; [|auto].
      exfalso. apply find_some in Hf as [Hin _]. apply list_elem_of_In in Hin.
      pose proof (idsInSeq_pos _ _ Hseq Hin).
      destruct H2' as [[E ->] | (_ & _ & ->)]; simpl in Hz; lia. }
    unfold uniqueIds, idsInSeq, seqStarted, uniqueSlugs in *.
    rewrite Hrows, Hsq, !fmap_app. simpl. rewrite Hd. simpl.
    split; [|split; [|split]].
    + apply NoDup_app. split; [exact Huniq|]. split; [|apply NoDup_singleton].
      intros id Hid Hid'. apply list_elem_of_singleton in Hid'. subst id.
      apply list_elem_of_fmap in Hid as (r & Hr & Hin).
      eapply Forall_forall in Hseq; [|exact Hin]. lia.
    + apply Forall_app. split.
      * eapply Forall_impl; [exact Hseq|]. simpl. intros; lia.
      * apply Forall_singleton. simpl. lia.
    + lia.
    + apply NoDup_app. split; [exact Hslugs|]. split; [|apply NoDup_singleton].
      intros k Hk Hk'. apply list_elem_of_singleton in Hk'. subst k.
      apply list_elem_of_fmap in Hk as (r & Hr & Hin).
      apply (find_bySlug_None _ _ _ Hnone Hin). now symmetry.
  - (* update *)
    split; [eapply uniqueIds_update; eauto|].
    split; [eapply idsInSeq_update; eauto|].
    split; [unfold seqStarted in *; now rewrite Hsq|].
    assert (exists r0, r0 ∈ dashboard (db s)
                       /\ Dashboard.Id r0 = Dashboard.Id dash2) as (r0 & Hr0 & Hid0).
    { unfold rowsWithId in Hex.
      destruct (filter _ _) as [|r1 rest] eqn:Hfil; [contradiction|].
      assert (r1 ∈ filter (fun r => Dashboard.Id r = Dashboard.Id dash2)
                          (dashboard (db s))) as Hr1
        by (rewrite Hfil; apply list_elem_of_here).
      apply list_elem_of_filter in Hr1 as [? ?]. eauto. }
    pose proof (idsInSeq_pos _ _ Hseq Hr0) as Hpos.
    unfold uniqueSlugs. rewrite Hrows, <- Hid0.
    apply uniqueSlugs_updateRow; auto.
    intros r Hr Hne.
    assert (Dashboard.OrgId d = Dashboard.OrgId (Model cmd)
            /\ Dashboard.Slug d = Dashboard.Slug (Model cmd)) as [Hod Hsd].
    { rewrite Hd. simpl.
      destruct (find (bySlug dash1) (dashboard (db s))) as [st|];
        [destruct H2' as [[_ ->] | (_ & _ & ->)] | subst dash2]; simpl; auto. }
    simpl. rewrite Hod, Hsd.
    destruct (find (bySlug dash1) (dashboard (db s))) as [st|] eqn:Hf.
    + (* the row of the slug is the row written *)
      pose proof Hf as Hf'. apply find_some in Hf' as [Hin Hc].
      apply list_elem_of_In in Hin. apply bySlug_true in Hc as [Hco Hcs].
      assert (st = r0) as ->.
      { apply (uniqueIds_eq (dashboard (db s))); auto.
        destruct H2' as [[E ->] | (_ & _ & ->)]; simpl in Hid0; congruence. }
      rewrite Ho1 in Hco. rewrite Hs1 in Hcs. rewrite <- Hco, <- Hcs.
      assert ((if Dashboard.OrgId r0 =? 0 then Dashboard.OrgId r0
               else Dashboard.OrgId r0) = Dashboard.OrgId r0) as ->
        by now destruct (_ =? 0).
      assert ((if String.eqb (Dashboard.Slug r0) "" then Dashboard.Slug r0
               else Dashboard.Slug r0) = Dashboard.Slug r0) as ->
        by now destruct (String.eqb _ "").
      intros Hk. unfold uniqueSlugs in Hslugs.
      apply Hne. f_equal.
      exact (NoDup_fmap_eq _ _ _ _ Hslugs Hr Hin Hk).
    + (* no row of the org has the slug *)
      subst dash2. rewrite Hi1 in Hid0.
      unfold GetDashboardModel in H1. apply checkExisting_Ok in H1
        as [(Hle & _) | (_ & _ & existing & Hfe & _ & _)]; [lia|].
      apply find_some in Hfe as [Hine Hce]. apply list_elem_of_In in Hine.
      apply andb_true_iff in Hce as [Hcid Hcorg].
      apply Z.eqb_eq in Hcid, Hcorg.
      assert (existing = r0) as ->
        by (apply (uniqueIds_eq (dashboard (db s))); auto; congruence).
      assert ((if Dashboard.OrgId (Model cmd) =? 0 then Dashboard.OrgId r0
               else Dashboard.OrgId (Model cmd)) = Dashboard.OrgId (Model cmd)) as ->
        by (rewrite Hcorg; now destruct (_ =? 0)).
      destruct (String.eqb_spec (Dashboard.Slug (Model cmd)) "") as [Hempty|_].
      * rewrite <- Hcorg. intros Hk. apply Hne. f_equal.
        exact (NoDup_fmap_eq _ _ _ _ Hslugs Hr Hine Hk).
      * rewrite <- Ho1, <- Hs1. now apply (find_bySlug_None _ _ _ Hf).
Qed.

End SchemaFacts.

Lemma save_keeps_schema_witness :
  exists d s',
    Sqlstore.SaveDashboard (Examples.save Examples.takeover true)
                           (Examples.session Examples.store) = (Ok d, s')
    /\ uniqueIds (db s') /\ idsInSeq (db s') /\ seqStarted (db s')
    /\ uniqueSlugs (db s').
Proof.
  eexists _, _. split; [vm_compute; reflexivity|].
  eapply (save_keeps_schema (Examples.save Examples.takeover true)
            (Examples.session Examples.store)).
  - unfold uniqueIds. compute_done.
  - repeat constructor; simpl; lia.
  - unfold seqStarted. simpl. lia.
  - unfold uniqueSlugs. compute_done.
  - vm_compute. reflexivity.
Defined.

(** ** What a save writes and what it leaves alone *)

Section WriteFacts.
Import SaveDashboardCommand Sqlstore Blocks.

Lemma filter_tags_other id id' (tags : list DashboardTag.t) :
  id' <> id ->
  filter (fun t => DashboardTag.DashboardId t = id')
         (filter (fun t => DashboardTag.DashboardId t ≠ id) tags)
  = filter (fun t => DashboardTag.DashboardId t = id') tags.
Proof.
  intros Hne. induction tags as [|t tags IH]; [reflexivity|].
  destruct (decide (DashboardTag.DashboardId t = id)) as [E|E].
  - rewrite (filter_cons_False (fun t => DashboardTag.DashboardId t ≠ id)) by auto.
    rewrite (filter_cons_False (fun t => DashboardTag.DashboardId t = id'))
      by congruence.
    exact IH.
  - rewrite (filter_cons_True (fun t => DashboardTag.DashboardId t ≠ id)) by auto.
    destruct (decide (DashboardTag.DashboardId t = id')) as [E'|E'].
    + rewrite !(filter_cons_True (fun t => DashboardTag.DashboardId t = id')) by auto.
      now rewrite IH.
    + rewrite !(filter_cons_False (fun t => DashboardTag.DashboardId t = id')) by auto.
      exact IH.
Qed.

Lemma filter_tags_same id (tags : list DashboardTag.t) :
  filter (fun t => DashboardTag.DashboardId t = id)
         (filter (fun t => DashboardTag.DashboardId t ≠ id) tags) = [].
Proof.
  apply elem_of_nil_inv. intros t Ht.
  apply list_elem_of_filter in Ht as [E Ht].
  apply list_elem_of_filter in Ht as [Hne _]. contradiction.
Qed.

Lemma filter_new_tags id id' (terms : list string) :
  filter (fun t => DashboardTag.DashboardId t = id') (DashboardTag.mk id <$> terms)
  = if decide (id = id') then DashboardTag.mk id <$> terms else [].
Proof.
  induction terms as [|term terms IH]; [now destruct (decide _)|].
  rewrite fmap_cons. destruct (decide (id = id')) as [E|E].
  - rewrite filter_cons_True by exact E. now rewrite IH.
  - rewrite filter_cons_False by exact E. exact IH.
Qed.

(** Tag replacement. After a successful save the tag rows of the saved id
    are one row per tag of the body, in the order of the body, whatever rows
    the id had before; the tag rows of every other id are as before. *)
Theorem save_replaces_tags cmd s d s' :
  SaveDashboard cmd s = (Ok d, s') ->
  tagsOf (Dashboard.Id d) (db s')
  = DashboardTag.mk (Dashboard.Id d) <$> Dashboard.GetTags d
  /\ forall id, id <> Dashboard.Id d -> tagsOf id (db s') = tagsOf id (db s).
Proof.
  intros H. apply SaveDashboard_Ok, saveDashboard_Ok in H
    as (dash1 & dash2 & s1 & s2 & s3 & _ & _ & _ & _ & E3 & _ & Hw).
  apply writeDashboard_Ok in Hw as (_ & Htags & _).
  unfold tagsOf. rewrite Htags, E3. split.
  - rewrite filter_app, filter_tags_same, filter_new_tags.
    now destruct (decide _).
  - intros id Hne. rewrite filter_app, filter_tags_other, filter_new_tags by exact Hne.
    destruct (decide _); [congruence | apply app_nil_r].
Qed.

Lemma save_replaces_tags_witness :
  exists d s',
    SaveDashboard
      (Examples.save (Dashboard.withData (Examples.body 1 ["b"; "c"]) Examples.child)
                     false)
      (Examples.session Examples.tree) = (Ok d, s')
    /\ tagsOf (Dashboard.Id d) (db s')
       = DashboardTag.mk (Dashboard.Id d) <$> Dashboard.GetTags d
    /\ forall id, id <> Dashboard.Id d -> tagsOf id (db s') = tagsOf id Examples.tree.
Proof.
  eexists _, _. split; [vm_compute; reflexivity|].
  eapply (save_replaces_tags
            (Examples.save (Dashboard.withData (Examples.body 1 ["b"; "c"]) Examples.child)
                           false)
            (Examples.session Examples.tree)).
  vm_compute. reflexivity.
Defined.

(** A successful save touches one dashboard only: the rows of every other id
    are the same before and after, the version history grows by one row of
    the saved id and loses none, and the ACL rows, the stars and the
    playlist entries are not written. *)
Theorem save_frame cmd s d s' :
  SaveDashboard cmd s = (Ok d, s') ->
  (forall r, Dashboard.Id r <> Dashboard.Id d ->
             (r ∈ dashboard (db s') <-> r ∈ dashboard (db s)))
  /\ (exists dv, dashboard_version (db s') = dashboard_version (db s) ++ [dv]
                 /\ DashboardVersion.DashboardId dv = Dashboard.Id d)
  /\ dashboard_acl (db s') = dashboard_acl (db s)
  /\ star (db s') = star (db s)
  /\ playlist_item (db s') = playlist_item (db s).
Proof.
  intros H. apply SaveDashboard_Ok, saveDashboard_Ok in H
    as (dash1 & dash2 & s1 & s2 & s3 & _ & _ & _ & _ & E3 & _ & Hw).
  apply writeDashboard_Ok in Hw as (Hv & _ & Hacl & Hstar & Hpl & Hrow).
  rewrite E3 in *. repeat split; try assumption; [| |eauto].
  - intros Hr. destruct Hrow as [(_ & _ & Hrows & _) | (_ & Hd & Hrows & _)];
      rewrite Hrows in Hr.
    + apply elem_of_app in Hr as [Hr|Hr]; [exact Hr|].
      apply list_elem_of_singleton in Hr. congruence.
    + apply list_elem_of_fmap in Hr as (r1 & -> & Hr1).
      rewrite updateRow_Id in H. rewrite updateRow_miss; [exact Hr1|].
      rewrite Hd in H. exact H.
  - intros Hr. destruct Hrow as [(_ & _ & Hrows & _) | (_ & Hd & Hrows & _)];
      rewrite Hrows.
    + apply elem_of_app. now left.
    + apply list_elem_of_fmap. exists r. split; [|exact Hr].
      symmetry. apply updateRow_miss. rewrite Hd in H. exact H.
Qed.

Lemma save_frame_witness :
  exists d s',
    SaveDashboard (Examples.save Examples.home false)
                  (Examples.session Examples.store) = (Ok d, s')
    /\ (forall r, Dashboard.Id r <> Dashboard.Id d ->
                  (r ∈ dashboard (db s') <-> r ∈ dashboard Examples.store))
    /\ (exists dv, dashboard_version (db s') = dashboard_version Examples.store ++ [dv]
                   /\ DashboardVersion.DashboardId dv = Dashboard.Id d)
    /\ dashboard_acl (db s') = dashboard_acl Examples.store
    /\ star (db s') = star Examples.store
    /\ playlist_item (db s') = playlist_item Examples.store.
Proof.
  eexists _, _. split; [vm_compute; reflexivity|].
  eapply (save_frame (Examples.save Examples.home false)
            (Examples.session Examples.store)).
  vm_compute. reflexivity.
Defined.

(** A candidate with a positive id that is not stored under the candidate's
    org is refused with the not-found error, with or without [overwrite],
    and nothing is written; an id stored under another org does not count. *)
Theorem save_unknown_id cmd s :
  0 < Dashboard.Id (Model cmd) ->
  hd None (faults s) = None ->
  find (byIdOrg (Model cmd)) (dashboard (db s)) = None ->
  exists s', SaveDashboard cmd s = (Err ErrDashboardNotFound, s')
             /\ db s' = db s.
Proof.
  intros Hid Hq Hf.
  apply SaveDashboard_Err with (s1 := next s (db s)).
  rewrite saveDashboard_blocks. apply bind_Err.
  unfold GetDashboardModel. now rewrite (checkExisting_run _ _ _ Hid Hq), Hf.
Qed.

Lemma save_unknown_id_witness :
  exists s',
    SaveDashboard (Examples.save (Examples.row 1 "home" 2 3 "" 0 false false) true)
                  (Examples.session Examples.store)
    = (Err ErrDashboardNotFound, s')
    /\ db s' = Examples.store.
Proof.
  apply (save_unknown_id (Examples.save (Examples.row 1 "home" 2 3 "" 0 false false) true)
           (Examples.session Examples.store)).
  - simpl. lia.
  - reflexivity.
  - reflexivity.
Defined.

End WriteFacts.

(** ** Saving and reading back *)

Section RoundTrip.
Import SaveDashboardCommand Sqlstore Blocks.

Lemma save_keeps_ids cmd s d s' :
  uniqueIds (db s) -> idsInSeq (db s) ->
  SaveDashboard cmd s = (Ok d, s') -> uniqueIds (db s').
Proof.
  intros Huniq Hseq H. apply SaveDashboard_Ok, saveDashboard_Ok in H
    as (dash1 & dash2 & s1 & s2 & s3 & _ & _ & _ & _ & E3 & _ & Hw).
  apply writeDashboard_Ok in Hw as (_ & _ & _ & _ & _ & Hrow). rewrite E3 in Hrow.
  destruct Hrow as [(_ & Hd & Hrows & _) | (_ & _ & Hrows & _)].
  - unfold uniqueIds in *. rewrite Hrows, fmap_app. simpl.
    apply NoDup_app. split; [exact Huniq|]. split; [|apply NoDup_singleton].
    intros id Hid Hid'. apply list_elem_of_singleton in Hid'. subst id.
    apply list_elem_of_fmap in Hid as (r & Hr & Hin).
    unfold idsInSeq in Hseq. eapply Forall_forall in Hseq; [|exact Hin].
    rewrite Hd in Hr. simpl in Hr. lia.
  - eapply uniqueIds_update; eauto.
Qed.

(** The row a successful save leaves under the id of its result. *)
Lemma save_stored_row cmd s d s' :
  idsInSeq (db s) -> seqStarted (db s) -> versionsInRange (db s) ->
  SaveDashboard cmd s = (Ok d, s') ->
  0 < Dashboard.Id d
  /\ exists R, R ∈ dashboard (db s')
       /\ Dashboard.Id R = Dashboard.Id d
       /\ Dashboard.Version R = Dashboard.Version d
       /\ Dashboard.Data R = Dashboard.Data d
       /\ (Dashboard.OrgId d = 0 \/ Dashboard.OrgId R = Dashboard.OrgId d)
       /\ (Dashboard.Slug d = "" \/ Dashboard.Slug R = Dashboard.Slug d).
Proof.
  intros Hseq Hstart Hver H. apply SaveDashboard_Ok, saveDashboard_Ok in H
    as (dash1 & dash2 & s1 & s2 & s3 & H1 & H2 & E1 & E2 & E3 & N3 & Hw).
  apply writeDashboard_Ok in Hw as (_ & _ & _ & _ & _ & Hrow).
  rewrite E3 in Hrow. simpl in Hrow.
  destruct Hrow as [(_ & Hd & Hrows & _ & _) | (Hne & Hd & Hrows & _ & Hex)].
  - split; [rewrite Hd; simpl; unfold seqStarted in Hstart; lia|].
    exists d. rewrite Hrows. split; [apply elem_of_app; right; apply list_elem_of_here|].
    auto 10.
  - assert (exists r1, r1 ∈ dashboard (db s)
                       /\ Dashboard.Id r1 = Dashboard.Id dash2) as (r1 & Hr1 & Hid1).
    { unfold rowsWithId in Hex.
      destruct (filter _ _) as [|r1 rest] eqn:Hfil; [contradiction|].
      assert (r1 ∈ filter (fun r => Dashboard.Id r = Dashboard.Id dash2)
                          (dashboard (db s))) as Hr1
        by (rewrite Hfil; apply list_elem_of_here).
      apply list_elem_of_filter in Hr1 as [? ?]. eauto. }
    assert (0 < Dashboard.Id dash2) as Hpos.
    { unfold idsInSeq in Hseq. eapply Forall_forall in Hseq; [|exact Hr1]. lia. }
    destruct (resolved_row _ _ _ _ _ _ H1 H2 Hpos) as (r0 & Hr0 & _ & Hv0).
    assert (Dashboard.Version d <> 0) as Hvd.
    { rewrite Hd. simpl. apply wrap64_succ_nonzero. rewrite <- Hv0.
      unfold versionsInRange in Hver.
      eapply Forall_forall in Hver; [exact Hver | exact Hr0]. }
    split; [rewrite Hd; exact Hpos|].
    exists (Xorm.updateCols d r1). split.
    { rewrite Hrows, <- Hid1, <- (updateRow_hit d r1). now apply list_elem_of_fmap_2. }
    simpl. split; [rewrite Hd; exact Hid1|].
    split; [destruct (Z.eqb_spec (Dashboard.Version d) 0); [contradiction | reflexivity]|].
    split; [reflexivity|]. split.
    + destruct (Z.eqb_spec (Dashboard.OrgId d) 0); auto.
    + destruct (String.eqb_spec (Dashboard.Slug d) ""); auto.
Qed.

Lemma find_by_unique_id (rows : list Dashboard.t) cond R :
  NoDup (Dashboard.Id <$> rows) -> R ∈ rows -> cond R = true ->
  (forall r, cond r = true -> Dashboard.Id r = Dashboard.Id R) ->
  find cond rows = Some R.
Proof.
  intros Hnd HR Hc Honly. induction rows as [|x rows IH].
  - now apply not_elem_of_nil in HR.
  - simpl. destruct (cond x) eqn:Hx.
    + f_equal. apply (uniqueIds_eq (x :: rows)); auto.
      apply list_elem_of_here.
    + rewrite fmap_cons in Hnd. apply NoDup_cons in Hnd as [_ Hnd].
      apply elem_of_cons in HR as [->|HR]; [congruence | auto].
Qed.



(** Round trip for the slug: after a successful save whose result has a
    slug, [GetDashboardSlugById] of the id of the result returns that slug. *)
Theorem save_then_GetDashboardSlugById cmd s d s' :
  uniqueIds (db s) -> idsInSeq (db s) -> seqStarted (db s) ->
  versionsInRange (db s) ->
  SaveDashboard cmd s = (Ok d, s') ->
  hd None (faults s') = None ->
  Dashboard.Slug d <> "" ->
  Queries.GetDashboardSlugById (Dashboard.Id d) s'
  = (Ok (Dashboard.Slug d), next s' (db s')).
Proof.
  intros Huniq Hseq Hstart Hver H Hq Hslug.
  pose proof (save_keeps_ids _ _ _ _ Huniq Hseq H) as Huniq'.
  destruct (save_stored_row _ _ _ _ Hseq Hstart Hver H)
    as (_ & R & HR & Hid & _ & _ & _ & [Hs|Hs]); [contradiction|].
  assert (find (fun r => Dashboard.Id r =? Dashboard.Id d) (dashboard (db s')) = Some R)
    as Hf.
  { apply find_by_unique_id; auto.
    - now apply Z.eqb_eq.
    - intros r Hc. apply Z.eqb_eq in Hc. congruence. }
  unfold Queries.GetDashboardSlugById, bind, Xorm.Get.
  rewrite (stmt_quiet _ _ Hq). simpl. now rewrite Hf, Hs.
Qed.

Lemma save_then_GetDashboardSlugById_witness :
  exists d s',
    SaveDashboard (Examples.save Examples.takeover true)
                  (Examples.session Examples.store) = (Ok d, s')
    /\ Queries.GetDashboardSlugById (Dashboard.Id d) s'
       = (Ok (Dashboard.Slug d), next s' (db s')).
Proof.
  eexists _, _.
  assert (SaveDashboard (Examples.save Examples.takeover true)
            (Examples.session Examples.store) = (Ok _, _)) as Hsave
    by (vm_compute; reflexivity).
  split; [exact Hsave|].
  apply (save_then_GetDashboardSlugById (Examples.save Examples.takeover true)
           (Examples.session Examples.store) _ _
           ltac:(unfold uniqueIds; compute_done)
           ltac:(repeat constructor; simpl; lia)
           ltac:(unfold seqStarted; simpl; lia)
           ltac:(repeat constructor; simpl; unfold MaxInt64; lia)
           Hsave eq_refl).
  discriminate.
Defined.

(** With [overwrite] the version the candidate declares is not looked at: a
    save of a stored dashboard that takes over no other row succeeds, when no
    statement fails, with the version after the stored one, and its history
    row has the stored version as parent. *)
Theorem save_overwrite_ignores_declared_version cmd s existing :
  quiet s ->
  0 < Dashboard.Id (Model cmd) ->
  find (byIdOrg (Model cmd)) (dashboard (db s)) = Some existing ->
  Overwrite cmd = true ->
  (forall st, find (bySlug (Model cmd)) (dashboard (db s)) = Some st ->
              Dashboard.Id st = Dashboard.Id (Model cmd)) ->
  exists d s',
    SaveDashboard cmd s = (Ok d, s')
    /\ Dashboard.Id d = Dashboard.Id (Model cmd)
    /\ Dashboard.Version d = wrap64 (Dashboard.Version existing + 1)
    /\ dashboard_version (db s')
       = dashboard_version (db s)
         ++ [historyRow cmd (Dashboard.Version existing) (now s) d].
Proof.
  intros Hq Hid Hf Ho Hslug.
  pose proof (checkExisting_run cmd (Model cmd) s Hid (quiet_hd _ Hq)) as H1.
  rewrite Hf, Ho, !andb_false_r in H1.
  set (dash1 := Dashboard.withVersion (Dashboard.Version existing) (Model cmd)) in *.
  pose proof (quiet_next s (db s) Hq) as Hq1.
  pose proof (checkSameTitle_run cmd dash1 _ (quiet_hd _ Hq1)) as H2.
  assert (checkSameTitle cmd dash1 (next s (db s))
          = (Ok dash1, next (next s (db s)) (db (next s (db s))))) as H2'.
  { rewrite H2. change (bySlug dash1) with (bySlug (Model cmd)). simpl.
    destruct (find (bySlug (Model cmd)) (dashboard (db s))) as [st|] eqn:Hs;
      [|reflexivity].
    rewrite (Hslug st eq_refl), Z.eqb_refl. reflexivity. }
  destruct (saveDashboard_update_quiet cmd s dash1 dash1 _ _
              (quiet_next _ _ Hq1) H1 H2' Hid) as (s' & Hsave).
  set (d := updatedBean _) in Hsave.
  exists d, s'. split; [now apply SaveDashboard_Ok|].
  split; [reflexivity|]. split; [reflexivity|].
  pose proof Hsave as Hinv. apply saveDashboard_Ok in Hinv
    as (dash1' & dash2' & s1' & s2' & s3 & H1' & H2'' & _ & _ & E3 & N3 & Hw).
  unfold GetDashboardModel in H1'. rewrite H1 in H1'. injection H1' as <- <-.
  rewrite H2' in H2''. injection H2'' as <- <-.
  apply writeDashboard_Ok in Hw as (Hhist & _).
  rewrite E3, N3 in Hhist. exact Hhist.
Qed.

Lemma save_overwrite_ignores_declared_version_witness :
  exists d s',
    SaveDashboard (Examples.save (Examples.row 1 "home" 1 1 "" 0 false false) true)
                  (Examples.session Examples.store) = (Ok d, s')
    /\ Dashboard.Id d = 1
    /\ Dashboard.Version d = wrap64 (3 + 1)
    /\ dashboard_version (db s')
       = [historyRow (Examples.save (Examples.row 1 "home" 1 1 "" 0 false false) true)
                     3 1500000000 d].
Proof.
  apply (save_overwrite_ignores_declared_version
           (Examples.save (Examples.row 1 "home" 1 1 "" 0 false false) true)
           (Examples.session Examples.store) Examples.home).
  - constructor.
  - simpl. lia.
  - reflexivity.
  - reflexivity.
  - intros st [= <-]. reflexivity.
Defined.

End RoundTrip.

(** ** More on deleting *)

Section DeleteMore.
Import Sqlstore.

(** The store after the six statements of [deletes]. *)
Lemma execAll_deletes_db id s u s' :
  execAll deletes id s = (Ok u, s') ->
  db s'
  = mkDB (filter (fun r => Dashboard.FolderId r ≠ id)
            (filter (fun r => Dashboard.Id r ≠ id) (dashboard (db s))))
         (dashboard_seq (db s))
         (filter (fun v => DashboardVersion.DashboardId v ≠ id)
                 (dashboard_version (db s)))
         (filter (fun t => DashboardTag.DashboardId t ≠ id) (dashboard_tag (db s)))
         (dashboard_acl (db s))
         (filter (fun x => Star.DashboardId x ≠ id) (star (db s)))
         (filter (fun p => ¬ (PlaylistItem.Type_ p = "dashboard_by_id"
                              ∧ PlaylistItem.Value p = pretty id))
                 (playlist_item (db s))).
Proof.
  intros H. unfold deletes in H. simpl in H.
  repeat (apply bind_Ok_inv in H as (? & ? & Hs & H);
          apply stmt_Ok_inv in Hs as (_ & _ & ->)).
  injection H as <- <-. reflexivity.
Qed.

Lemma deleteDashboard_Ok hook cmd s u s' :
  DeleteDashboard hook cmd s = (Ok u, s') ->
  exists dashboard0 s7,
    find (Xorm.beanCond (DeleteDashboardCommand.Id cmd)
                        (DeleteDashboardCommand.OrgId cmd))
         (dashboard (db s)) = Some dashboard0
    /\ execAll deletes (Dashboard.Id dashboard0) (next s (db s)) = (Ok tt, s7)
    /\ s' = snd (hook (Dashboard.Id dashboard0) s7).
Proof.
  unfold DeleteDashboard, inTransaction.
  destruct (deleteDashboard hook cmd s) as [[v|e] s1] eqn:Hd; [|discriminate].
  intros [= _ <-]. unfold deleteDashboard in Hd.
  apply bind_Ok_inv in Hd as (has & s0 & Hg & Hd).
  apply stmt_Ok_inv in Hg as (_ & Hf & ->). simpl in Hf. injection Hf as <-.
  destruct (find _ _) as [dashboard0|]; [|discriminate].
  apply bind_Ok_inv in Hd as ([] & s7 & He & Hd).
  exists dashboard0, s7. split; [reflexivity|]. split; [exact He|].
  destruct (hook (Dashboard.Id dashboard0) s7) as [[w|e] s8];
    now injection Hd as _ <-.
Qed.


(** A delete whose lookup finds no row fails with the not-found error,
    whatever the hook is, and the store is as before. *)
Theorem delete_unknown_dashboard (hook : Z -> Tx unit) cmd s :
  hd None (faults s) = None ->
  find (Xorm.beanCond (DeleteDashboardCommand.Id cmd)
                      (DeleteDashboardCommand.OrgId cmd))
       (dashboard (db s)) = None ->
  exists s', DeleteDashboard hook cmd s = (Err ErrDashboardNotFound, s')
             /\ db s' = db s.
Proof.
  intros Hq Hf. unfold DeleteDashboard, inTransaction, deleteDashboard.
  unfold bind at 1. unfold Xorm.Get. rewrite (stmt_quiet _ _ Hq). simpl.
  rewrite Hf. eexists. split; reflexivity.
Qed.

Lemma delete_unknown_dashboard_witness :
  exists s',
    DeleteDashboard Examples.noAlerts (DeleteDashboardCommand.mk 2 5)
                    (Examples.session Examples.tree)
    = (Err ErrDashboardNotFound, s')
    /\ db s' = Examples.tree.
Proof.
  apply (delete_unknown_dashboard Examples.noAlerts (DeleteDashboardCommand.mk 2 5)
           (Examples.session Examples.tree)); reflexivity.
Defined.

(** What a successful delete removes and what it keeps, when the alert hook
    leaves the tables of the store alone.  Under the id [id] of the row
    found: no row of that id and no row filed under it is left, nor a tag,
    version, star or playlist entry of [id]; every other dashboard row is
    kept, and so are the tag and version rows of other ids.  The ACL rows
    are not touched, those of [id] included. *)
Theorem delete_removes_own_records (hook : Z -> Tx unit) cmd s s' :
  (forall id, readOnly (hook id)) ->
  DeleteDashboard hook cmd s = (Ok tt, s') ->
  exists dashboard0,
    find (Xorm.beanCond (DeleteDashboardCommand.Id cmd)
                        (DeleteDashboardCommand.OrgId cmd))
         (dashboard (db s)) = Some dashboard0
    /\ rowsWithId (Dashboard.Id dashboard0) (db s') = []
    /\ childrenOf (Dashboard.Id dashboard0) (db s') = []
    /\ tagsOf (Dashboard.Id dashboard0) (db s') = []
    /\ versionsOf (Dashboard.Id dashboard0) (db s') = []
    /\ starsOf (Dashboard.Id dashboard0) (db s') = []
    /\ playlistItemsOf (Dashboard.Id dashboard0) (db s') = []
    /\ (forall r, r ∈ dashboard (db s') <->
                  r ∈ dashboard (db s)
                  /\ Dashboard.Id r <> Dashboard.Id dashboard0
                  /\ Dashboard.FolderId r <> Dashboard.Id dashboard0)
    /\ (forall t, t ∈ dashboard_tag (db s') <->
                  t ∈ dashboard_tag (db s)
                  /\ DashboardTag.DashboardId t <> Dashboard.Id dashboard0)
    /\ (forall v, v ∈ dashboard_version (db s') <->
                  v ∈ dashboard_version (db s)
                  /\ DashboardVersion.DashboardId v <> Dashboard.Id dashboard0)
    /\ dashboard_acl (db s') = dashboard_acl (db s).
Proof.
  intros Hro H. apply deleteDashboard_Ok in H as (dashboard0 & s7 & Hf & He & ->).
  exists dashboard0. split; [exact Hf|].
  assert (db (snd (hook (Dashboard.Id dashboard0) s7)) = db s7) as ->.
  { destruct (hook (Dashboard.Id dashboard0) s7) as [r s8] eqn:Hh.
    exact (Hro _ _ _ _ Hh). }
  rewrite (execAll_deletes_db _ _ _ _ He).
  unfold rowsWithId, childrenOf, tagsOf, versionsOf, starsOf, playlistItemsOf.
  simpl.
  assert (forall A (l : list A), (forall y, y ∈ l -> False) -> l = []) as Hnil
    by (intros A l Hl; apply elem_of_nil_inv; exact Hl).
  do 6 (split; [apply Hnil; intros y Hy;
                repeat (apply list_elem_of_filter in Hy as [? Hy]);
                contradiction|]).
  split; [|split; [|split; [|reflexivity]]].
  - intros r. rewrite !list_elem_of_filter. tauto.
  - intros t. rewrite !list_elem_of_filter. tauto.
  - intros v. rewrite !list_elem_of_filter. tauto.
Qed.

Lemma delete_removes_own_records_witness :
  exists s' dashboard0,
    DeleteDashboard Examples.noAlerts (DeleteDashboardCommand.mk 2 1)
                    (Examples.session Examples.tree) = (Ok tt, s')
    /\ find (Xorm.beanCond 2 1) (dashboard Examples.tree) = Some dashboard0
    /\ rowsWithId (Dashboard.Id dashboard0) (db s') = []
    /\ childrenOf (Dashboard.Id dashboard0) (db s') = []
    /\ tagsOf (Dashboard.Id dashboard0) (db s') = []
    /\ versionsOf (Dashboard.Id dashboard0) (db s') = []
    /\ starsOf (Dashboard.Id dashboard0) (db s') = []
    /\ playlistItemsOf (Dashboard.Id dashboard0) (db s') = []
    /\ (forall r, r ∈ dashboard (db s') <->
                  r ∈ dashboard Examples.tree
                  /\ Dashboard.Id r <> Dashboard.Id dashboard0
                  /\ Dashboard.FolderId r <> Dashboard.Id dashboard0)
    /\ (forall t, t ∈ dashboard_tag (db s') <->
                  t ∈ dashboard_tag Examples.tree
                  /\ DashboardTag.DashboardId t <> Dashboard.Id dashboard0)
    /\ (forall v, v ∈ dashboard_version (db s') <->
                  v ∈ dashboard_version Examples.tree
                  /\ DashboardVersion.DashboardId v <> Dashboard.Id dashboard0)
    /\ dashboard_acl (db s') = dashboard_acl Examples.tree.
Proof.
  eexists.
  assert (DeleteDashboard Examples.noAlerts (DeleteDashboardCommand.mk 2 1)
            (Examples.session Examples.tree) = (Ok tt, _)) as Hdel
    by (vm_compute; reflexivity).
  destruct (delete_removes_own_records Examples.noAlerts
              (DeleteDashboardCommand.mk 2 1) (Examples.session Examples.tree) _
              (fun id => readOnly_ret tt) Hdel) as (dashboard0 & Hrest).
  exists dashboard0. split; [exact Hdel | exact Hrest].
Defined.



End DeleteMore.

(** ** Search results *)

Section SearchFacts.
Import Search.

Lemma term_nonempty term :
  (0 <? String.length term)%nat = true <-> term <> "".
Proof.
  destruct term; simpl; split; try discriminate; try congruence; auto.
Qed.

Lemma find_snoc {A} (f : A -> bool) (l : list A) x :
  find f (l ++ [x])
  = match find f l with
    | Some y => Some y
    | None => if f x then Some x else None
    end.
Proof.
  induction l as [|a l IH]; simpl; [reflexivity|].
  destruct (f a); [reflexivity | exact IH].
Qed.

Lemma termsOf_snoc id res item :
  termsOf id (res ++ [item])
  = termsOf id res
    ++ (if decide (DashboardSearchProjection.Id item = id)
        then if (0 <? String.length (DashboardSearchProjection.Term item))%nat
             then [DashboardSearchProjection.Term item] else []
        else []).
Proof.
  unfold termsOf. rewrite filter_app, fmap_app, filter_app. f_equal.
  destruct (decide (DashboardSearchProjection.Id item = id)) as [E|E].
  - rewrite filter_cons_True by exact E. rewrite filter_nil. simpl.
    destruct (0 <? String.length _)%nat eqn:Ht.
    + apply term_nonempty in Ht. now rewrite filter_cons_True.
    + rewrite filter_cons_False; [reflexivity|].
      intros Hne. apply term_nonempty in Hne. congruence.
  - now rewrite filter_cons_False.
Qed.

Lemma firstRow_Id id res item :
  firstRow id res = Some item -> DashboardSearchProjection.Id item = id.
Proof.
  unfold firstRow. intros H. apply find_some in H as [_ H]. now apply Z.eqb_eq.
Qed.

Lemma firstRow_None id res :
  firstRow id res = None ->
  forall item, item ∈ res -> DashboardSearchProjection.Id item <> id.
Proof.
  unfold firstRow. intros H item Hin E.
  apply list_elem_of_In in Hin. eapply find_none in H; [|exact Hin].
  apply Z.eqb_neq in H. contradiction.
Qed.

Lemma termsOf_absent id res :
  (forall item, item ∈ res -> DashboardSearchProjection.Id item <> id) ->
  termsOf id res = [].
Proof.
  intros H. unfold termsOf.
  assert (filter (fun item => DashboardSearchProjection.Id item = id) res = []) as ->;
    [|reflexivity].
  apply elem_of_nil_inv. intros y Hy.
  apply list_elem_of_filter in Hy as [E Hy]. exact (H y Hy E).
Qed.

Lemma loopState_snoc res item :
  loopState (res ++ [item]) = addItem (loopState res) item.
Proof. unfold loopState. now rewrite fold_left_app. Qed.

Lemma hitOf_Id item terms : Hit.Id (hitOf item terms) = DashboardSearchProjection.Id item.
Proof. reflexivity. Qed.

Lemma loopInv_step res st item :
  loopInv res st -> loopInv (res ++ [item]) (addItem st item).
Proof.
  destruct st as [R hits]. intros (Ha & Hb & Hc). simpl in Ha, Hb, Hc.
  set (id := DashboardSearchProjection.Id item).
  set (term := DashboardSearchProjection.Term item).
  (* the state before the tag is appended *)
  assert (exists (p : nat) R1 hits1 terms0,
    addItem (R, hits) item
    = (if (0 <? String.length term)%nat
       then alter (Hit.appendTag term) p R1 else R1, hits1)
    /\ hits1 !! id = Some p
    /\ (forall id', id' <> id -> hits1 !! id' = hits !! id')
    /\ (exists item0, firstRow id (res ++ [item]) = Some item0
                      /\ R1 !! p = Some (hitOf item0 terms0)
                      /\ terms0 = termsOf id res)
    /\ (forall (q : nat) h, q <> p -> R1 !! q = Some h ->
          R !! q = Some h /\ Hit.Id h <> id)
    /\ (forall (q : nat) h, R !! q = Some h -> Hit.Id h <> id -> R1 !! q = Some h))
    as (p & R1 & hits1 & terms0 & Hadd & Hp & Hother & (item0 & Hfirst & HR1p & Hterms)
        & Hold & Hkeep).
  { unfold addItem. simpl. fold id term.
    destruct (hits !! id) as [p|] eqn:Hh.
    - destruct (Hb id p Hh) as (h0 & Hh0 & Hid0).
      destruct (Ha p h0 Hh0) as (_ & item0 & Hf0 & Heq).
      exists p, R, hits, (termsOf id res). rewrite Hid0 in *.
      split; [now destruct (0 <? String.length term)%nat|].
      split; [exact Hh|]. split; [auto|].
      split.
      { exists item0. unfold firstRow in *. rewrite find_snoc, Hf0.
        split; [reflexivity|]. split; [now rewrite <- Heq | reflexivity]. }
      split; [|auto].
      intros q h Hq Hqh. split; [exact Hqh|].
      intros E. destruct (Ha q h Hqh) as (Hhq & _). rewrite E in Hhq. congruence.
    - assert (forall q h, R !! q = Some h -> Hit.Id h <> id) as Hfresh.
      { intros q h Hqh E. destruct (Ha q h Hqh) as (Hhq & _).
        rewrite E in Hhq. congruence. }
      assert (firstRow id res = None) as Hnone.
      { destruct (firstRow id res) as [it|] eqn:Hf; [|reflexivity]. exfalso.
        pose proof (firstRow_Id _ _ _ Hf) as Hit.
        unfold firstRow in Hf. apply find_some in Hf as [Hin _].
        apply list_elem_of_In in Hin. destruct (Hc it Hin) as [p' Hp'].
        fold id in Hit. rewrite Hit in Hp'. congruence. }
      exists (length R), (R ++ [newHit item]), (<[id := length R]> hits), [].
      split; [now destruct (0 <? String.length term)%nat|].
      split; [apply lookup_insert_eq|].
      split; [intros id' Hne; now apply lookup_insert_ne|].
      split.
      { exists item. unfold firstRow in *. rewrite find_snoc, Hnone.
        fold id. rewrite Z.eqb_refl. split; [reflexivity|].
        split; [now rewrite lookup_app_r, Nat.sub_diag by lia|].
        symmetry. apply termsOf_absent. now apply firstRow_None. }
      split.
      + intros q h Hq Hqh.
        assert (q < length R)%nat as Hlt.
        { apply lookup_lt_Some in Hqh. rewrite length_app in Hqh. simpl in Hqh. lia. }
        rewrite lookup_app_l in Hqh by exact Hlt. eauto.
      + intros q h Hqh _. rewrite lookup_app_l; [exact Hqh|].
        now apply lookup_lt_Some in Hqh. }
  rewrite Hadd. clear Hadd.
  (* the positions of the final result *)
  assert (forall (q : nat) h,
    (if (0 <? String.length term)%nat
     then alter (Hit.appendTag term) p R1 else R1) !! q = Some h ->
    (q = p /\ h = hitOf item0 (termsOf id (res ++ [item])))
    \/ (q <> p /\ R1 !! q = Some h)) as Hfinal.
  { intros q h Hq. destruct (decide (q = p)) as [->|Hne].
    - left. split; [reflexivity|]. rewrite termsOf_snoc. fold id term.
      destruct (decide (id = id)) as [_|]; [|contradiction].
      destruct (0 <? String.length term)%nat.
      + rewrite list_lookup_alter_eq, HR1p in Hq. simpl in Hq.
        injection Hq as <-. now rewrite Hterms.
      + rewrite app_nil_r. rewrite HR1p in Hq. injection Hq as <-.
        now rewrite Hterms.
    - right. split; [exact Hne|].
      destruct (0 <? String.length term)%nat; [|exact Hq].
      now rewrite list_lookup_alter_ne in Hq by auto. }
  pose proof (firstRow_Id _ _ _ Hfirst) as Hid0.
  split; [|split]; simpl.
  - intros q h Hq. apply Hfinal in Hq as [[-> ->] | [Hne Hq]].
    + rewrite hitOf_Id, Hid0. split; [exact Hp|]. exists item0. auto.
    + destruct (Hold q h Hne Hq) as (HRq & Hidq).
      destruct (Ha q h HRq) as (Hhq & item1 & Hf1 & Heq).
      split; [now rewrite Hother|]. exists item1.
      unfold firstRow in *. rewrite find_snoc, Hf1. split; [reflexivity|].
      rewrite termsOf_snoc. fold id.
      destruct (decide (id = Hit.Id h)) as [E|_]; [congruence|].
      now rewrite app_nil_r.
  - intros id' q Hq. destruct (decide (id' = id)) as [->|Hne].
    + rewrite Hp in Hq. injection Hq as <-.
      exists (hitOf item0 (termsOf id (res ++ [item]))).
      split; [|now rewrite hitOf_Id].
      rewrite termsOf_snoc. fold id term.
      destruct (decide (id = id)) as [_|]; [|contradiction].
      destruct (0 <? String.length term)%nat.
      * rewrite list_lookup_alter_eq, HR1p. simpl. now rewrite Hterms.
      * rewrite app_nil_r, HR1p. now rewrite Hterms.
    + rewrite Hother in Hq by exact Hne.
      destruct (Hb id' q Hq) as (h & HRq & Hidq).
      assert (Hit.Id h <> id) as Hidne by congruence.
      pose proof (Hkeep q h HRq Hidne) as HR1q.
      assert (q <> p) as Hqp.
      { intros ->. rewrite HR1p in HR1q. injection HR1q as <-.
        rewrite hitOf_Id in Hidne. contradiction. }
      exists h. split; [|exact Hidq].
      destruct (0 <? String.length term)%nat; [|exact HR1q].
      now rewrite list_lookup_alter_ne by auto.
  - intros it Hin. apply elem_of_app in Hin as [Hin|Hin].
    + destruct (decide (DashboardSearchProjection.Id it = id)) as [->|Hne];
        [eauto|]. rewrite Hother by exact Hne. now apply Hc.
    + apply list_elem_of_singleton in Hin. subst it. fold id. eauto.
Qed.

Lemma loopInv_loopState res : loopInv res (loopState res).
Proof.
  induction res as [|item res IH] using rev_ind.
  - split; [|split]; simpl.
    + intros p h H. discriminate.
    + intros id p H. now rewrite lookup_empty in H.
    + intros item H. now apply not_elem_of_nil in H.
  - rewrite loopState_snoc. now apply loopInv_step.
Qed.

(** [makeQueryResult] returns one hit per dashboard id: no id comes twice in
    the result, and the ids of the result are the ids of the rows. *)
Theorem makeQueryResult_one_hit_per_id res :
  NoDup (Hit.Id <$> makeQueryResult res)
  /\ forall id, id ∈ Hit.Id <$> makeQueryResult res
                <-> id ∈ DashboardSearchProjection.Id <$> res.
Proof.
  destruct (loopInv_loopState res) as (Ha & Hb & Hc).
  change (fst (loopState res)) with (makeQueryResult res) in Ha, Hb.
  split.
  - apply NoDup_alt. intros i j id Hi Hj.
    rewrite list_lookup_fmap in Hi, Hj.
    destruct (makeQueryResult res !! i) as [hi|] eqn:Ei; [|discriminate].
    destruct (makeQueryResult res !! j) as [hj|] eqn:Ej; [|discriminate].
    simpl in Hi, Hj. injection Hi as Hi. injection Hj as Hj.
    destruct (Ha i hi Ei) as (Hpi & _). destruct (Ha j hj Ej) as (Hpj & _).
    rewrite Hi in Hpi. rewrite Hj in Hpj. congruence.
  - intros id. split.
    + intros Hin. apply list_elem_of_fmap in Hin as (h & -> & Hh).
      apply list_elem_of_lookup in Hh as (p & Hp).
      destruct (Ha p h Hp) as (_ & item & Hf & _).
      pose proof (firstRow_Id _ _ _ Hf) as <-.
      unfold firstRow in Hf. apply find_some in Hf as [Hin _].
      apply list_elem_of_fmap_2. now apply list_elem_of_In.
    + intros Hin. apply list_elem_of_fmap in Hin as (item & -> & Hitem).
      destruct (Hc item Hitem) as (p & Hp).
      destruct (Hb _ p Hp) as (h & Hh & <-).
      apply list_elem_of_fmap_2. eapply list_elem_of_lookup_2, Hh.
Qed.

(** Every hit of [makeQueryResult] is made of the first row of its id
    (title, uri ["db/" + slug], type and folder come from that row) and
    carries as tags the non-empty terms of all the rows of that id, in the
    order of the rows. *)
Theorem makeQueryResult_hit res h :
  h ∈ makeQueryResult res ->
  exists item,
    firstRow (Hit.Id h) res = Some item
    /\ h = hitOf item (termsOf (Hit.Id h) res).
Proof.
  destruct (loopInv_loopState res) as (Ha & _ & _).
  change (fst (loopState res)) with (makeQueryResult res) in Ha.
  intros Hh. apply list_elem_of_lookup in Hh as (p & Hp).
  now destruct (Ha p h Hp) as (_ & Hitem).
Qed.

Lemma makeQueryResult_hit_witness :
  exists item,
    firstRow (Hit.Id SearchExamples.cpuHit) SearchExamples.rows = Some item
    /\ SearchExamples.cpuHit
       = hitOf item (termsOf (Hit.Id SearchExamples.cpuHit) SearchExamples.rows).
Proof.
  apply (makeQueryResult_hit SearchExamples.rows SearchExamples.cpuHit).
  vm_compute. apply list_elem_of_here.
Defined.

(** ** The statement of a search *)

Lemma placeholders_app a b :
  placeholders (a +:+ b) = (placeholders a + placeholders b)%nat.
Proof.
  induction a as [|c a IH]; [reflexivity|].
  change (String c a +:+ b) with (String c (a +:+ b)).
  cbn [placeholders].
  destruct (String.eqb (String c "") "?"); cbn [Nat.add]; now rewrite IH.
Qed.

Lemma placeholders_Repeat n : placeholders (Repeat ",?" n) = n.
Proof.
  induction n as [|n IH]; cbn [Repeat]; [reflexivity|].
  rewrite placeholders_app, IH. reflexivity.
Qed.

Ltac count_literals :=
  repeat match goal with
         | |- context [placeholders ?x] =>
           lazymatch x with
           | context [Repeat] => fail
           | _ => is_ground x;
                  let n := eval vm_compute in (placeholders x) in
                  change (placeholders x) with n
           end
         end.

(** Binding is index-safe: whatever the filters of the query are, the text
    [findDashboards] builds has exactly as many placeholders as the slice of
    parameters has values, provided the [LIKE] operator of the dialect has no
    placeholder in it. *)
Theorem findDashboardsSql_placeholders LikeStr ROLE_ADMIN query :
  placeholders LikeStr = 0%nat ->
  placeholders (fst (findDashboardsSql LikeStr ROLE_ADMIN query))
  = length (snd (findDashboardsSql LikeStr ROLE_ADMIN query)).
Proof.
  intros Hlike. unfold findDashboardsSql.
  destruct (0 <? length (FindPersistedDashboardsQuery.Tags query))%nat eqn:Ht;
    destruct (FindPersistedDashboardsQuery.IsStarred query);
    destruct (0 <? length (FindPersistedDashboardsQuery.DashboardIds query))%nat eqn:Hi;
    destruct (negb _);
    destruct (0 <? String.length (FindPersistedDashboardsQuery.Title query))%nat;
    destruct (String.eqb (FindPersistedDashboardsQuery.Type_ query) "dash-folder");
    destruct (String.eqb (FindPersistedDashboardsQuery.Type_ query) "dash-db");
    destruct (0 <? String.length (FindPersistedDashboardsQuery.Type_ query))%nat;
    destruct (0 <? FindPersistedDashboardsQuery.FolderId query);
    cbn [fst snd andb];
    rewrite ?placeholders_app, ?placeholders_Repeat, ?Hlike,
            ?length_app, ?length_fmap;
    count_literals; cbn [length];
    try apply Nat.ltb_lt in Ht; try apply Nat.ltb_lt in Hi; lia.
Qed.

Lemma findDashboardsSql_placeholders_witness :
  placeholders (fst (findDashboardsSql "LIKE" "Admin" SearchExamples.query))
  = length (snd (findDashboardsSql "LIKE" "Admin" SearchExamples.query)).
Proof.
  apply (findDashboardsSql_placeholders "LIKE" "Admin" SearchExamples.query).
  reflexivity.
Defined.

End SearchFacts.

(** ** More on the ACL flag *)

Section AclMore.
Import Sqlstore.

(** [setHasAcl] reads and never writes; of the candidate it changes the ACL
    flag alone, and it never lowers it: a candidate that comes with the flag
    set keeps it whatever the store holds. *)
Theorem setHasAcl_only_raises dash s dash' s' :
  setHasAcl dash s = (Ok dash', s') ->
  db s' = db s
  /\ dash' = Dashboard.withHasAcl (Dashboard.HasAcl dash') dash
  /\ (Dashboard.HasAcl dash = true -> Dashboard.HasAcl dash' = true).
Proof.
  intros H. apply setHasAcl_Ok in H as (-> & Hdb & _).
  split; [exact Hdb|]. split; [reflexivity|].
  simpl. unfold derivedHasAcl. now intros ->.
Qed.

Lemma setHasAcl_only_raises_witness :
  exists dash' s',
    setHasAcl Examples.flaggedSibling (Examples.session Examples.folderStore)
    = (Ok dash', s')
    /\ db s' = Examples.folderStore
    /\ dash' = Dashboard.withHasAcl (Dashboard.HasAcl dash') Examples.flaggedSibling
    /\ (Dashboard.HasAcl Examples.flaggedSibling = true ->
        Dashboard.HasAcl dash' = true).
Proof.
  eexists _, _. split; [vm_compute; reflexivity|].
  eapply (setHasAcl_only_raises Examples.flaggedSibling
            (Examples.session Examples.folderStore)).
  vm_compute. reflexivity.
Defined.

End AclMore.
